(** * The reconcilers of the operator: APIServer, Monitor, Compliance

    A shallow embedding of
      pkg/controller/apiserver/apiserver_controller.go
      pkg/controller/monitor/monitor_controller.go   (package monitor)
      the compliance controller                       (package compliance)
    Every Go function becomes a computation in a small monad that threads
    the cluster (the objects the controller itself writes), records the
    calls on the status manager, the client and the component handler as a
    trace, and stops at the first [return].  Everything the controllers only
    read through helpers of other packages is answered by an oracle [Env]. *)

From Stdlib Require Import ZArith Bool List Lia.
From stdpp Require Import base strings gmap list.

Open Scope string_scope.
Open Scope Z_scope.
Open Scope list_scope.
Import ListNotations.

(** ** Go values *)

(** A Go [error]: what [errors.IsNotFound] answers on it, and [Error()]. *)
Record error := Err { notFound : bool; Error : string }.

(** [fmt.Errorf] with a constant text (and [%v], [%w] spliced in). *)
Definition Errorf (text : string) : error := Err false text.

(** [errors.IsNotFound(err)]; a nil error is not a not-found error. *)
Definition IsNotFound (err : option error) : bool :=
  match err with
  | Some e => notFound e
  | None => false
  end.

(** The two-valued returns [(x, err)] of the helpers. *)
Inductive res (A : Type) :=
| Ok (a : A)
| Fail (e : error).
Arguments Ok {A} a.
Arguments Fail {A} e.

(** [time.Duration] counts nanoseconds. *)
Definition Second : Z := 1000000000.

(** [reconcile.Result] and [reconcile.Request]. *)
Record Result := { Requeue : bool; RequeueAfter : Z }.
Definition emptyResult : Result := {| Requeue := false; RequeueAfter := 0 |}.
Definition requeueAfter (d : Z) : Result := {| Requeue := false; RequeueAfter := d |}.

Record Request := { Name : string; Namespace : string }.

(** ** API types (api/v1 and apimachinery) *)

Inductive ProductVariant := VariantUnset | Calico | TigeraSecureEnterprise.
Inductive Provider := ProviderNone | ProviderEKS | ProviderGKE | ProviderAKS | ProviderOpenShift.

Definition isOpenShift (p : Provider) : bool :=
  match p with ProviderOpenShift => true | _ => false end.
Definition isEnterprise (v : ProductVariant) : bool :=
  match v with TigeraSecureEnterprise => true | _ => false end.

Inductive StatusConditionType := ComponentAvailable | ComponentProgressing | ComponentDegraded.
Inductive ConditionStatus := ConditionTrue | ConditionFalse | ConditionUnknown.

(** [operatorv1.TigeraStatusCondition]. *)
Record TigeraStatusCondition := {
  tsc_Type : StatusConditionType;
  tsc_Status : ConditionStatus;
  tsc_Reason : string;
  tsc_Message : string;
  tsc_ObservedGeneration : Z
}.

(** [metav1.Condition] (the transition time is left out). *)
Record Condition := {
  c_Type : string;
  c_Status : ConditionStatus;
  c_ObservedGeneration : Z;
  c_Reason : string;
  c_Message : string
}.

Record TigeraStatus := { ts_Conditions : list TigeraStatusCondition }.

(** [operatorv1.TigeraStatusReady] and the other values of [Status.State]. *)
Definition TigeraStatusReady : string := "Ready".

(** The primary custom resources [APIServer], [Monitor] and [Compliance]
    have the same shape as far as the reconcilers touch them. *)
Record CustomResource := {
  Generation : Z;
  Status_State : string;
  Status_Conditions : list Condition
}.

Definition withConditions (cs : list Condition) (i : CustomResource) : CustomResource :=
  {| Generation := Generation i; Status_State := Status_State i; Status_Conditions := cs |}.
Definition withState (s : string) (i : CustomResource) : CustomResource :=
  {| Generation := Generation i; Status_State := s; Status_Conditions := Status_Conditions i |}.

(** [operatorv1.TigeraStatusReason], the typed reasons of a degraded status. *)
Inductive TigeraStatusReason :=
| ResourceReadError | ResourceNotFound | ResourceNotReady | ResourceCreateError
| ResourceValidationError | ResourceRenderingError | ResourceUpdateError.

(** The reason handed to [StatusManager.SetDegraded]: [string(reason)] of a
    typed reason, or a text written at the call. *)
Inductive Reason :=
| Typed (r : TigeraStatusReason)
| Text (s : string).

(** [ManagementClusterConnection], as api/v1 declares it. *)
Record ManagementClusterConnectionSpec := { ManagementClusterAddr : string }.
Record ManagementClusterConnectionStatus := { mcc_Conditions : list Condition }.
Record ManagementClusterConnection := {
  mcc_Spec : ManagementClusterConnectionSpec;
  mcc_Status : ManagementClusterConnectionStatus
}.

(** Objects of other packages that the reconcilers only pass along. *)
Record ManagementCluster := { mc_id : string }.
Record AmazonCloudIntegration := { aci_id : string }.
Record Authentication := { auth_State : string; auth_id : string }.
Record InstallationSpec := { Variant : ProductVariant; inst_id : string }.
Record PullSecrets := { ps_id : string }.
Record KeyValidatorConfig := { kvc_id : string }.
Record LicenseKey := { lic_id : string }.
Record ClusterConfig := { esc_id : string }.
Record ServiceEndpoint := { Host : string; Port : string }.

(** [corev1.Secret]: only name, namespace and data matter here. *)
Record Secret := {
  s_Name : string;
  s_Namespace : string;
  s_Data : gmap string string
}.

(** [rsecret.CopyToNamespace(ns, s)[0]]. *)
Definition CopyToNamespace (ns : string) (s : Secret) : Secret :=
  {| s_Name := s_Name s; s_Namespace := ns; s_Data := s_Data s |}.

(** [certificatemanagement.KeyPairInterface] and [CertificateInterface]. *)
Record KeyPair := { kp_Name : string; kp_Data : gmap string string; UseCertificateManagement : bool }.
Record Certificate := { cert_Name : string; cert_PEM : string }.

(** [keyPair.Secret(namespace)]. *)
Definition KeyPair_Secret (kp : KeyPair) (ns : string) : Secret :=
  {| s_Name := kp_Name kp; s_Namespace := ns; s_Data := kp_Data kp |}.

(** [certificatemanagement.NewKeyPair(secret, nil, "")]. *)
Definition NewKeyPair (s : Secret) : KeyPair :=
  {| kp_Name := s_Name s; kp_Data := s_Data s; UseCertificateManagement := false |}.

(** [certificatemanager.CertificateManager]: its own CA key pair. *)
Record CertificateManager := { cm_KeyPair : KeyPair }.

(** ** Names declared in packages outside these files

    The namespaces, secret names and service names are constants (or, for
    [OperatorNamespace], an environment lookup) of the packages [common],
    [render], [monitor], [rmeta], [dns] and others.  Their texts are not
    part of the controllers, so the development is parametric in them. *)
Class Names := {
  (* common *)
  OperatorNamespace : string;
  TigeraPrometheusNamespace : string;
  ComplianceFeature : string;
  (* render, rmeta, dns *)
  APIServerNamespace : ProductVariant -> string;
  ProjectCalicoApiServerTLSSecretName : ProductVariant -> string;
  ProjectCalicoApiServerServiceName : ProductVariant -> string;
  ApiServerServiceAccountName : ProductVariant -> string;
  GetServiceDNSNames : string -> string -> string -> list string;
  K8sSvcEndpointConfigMapName : string;
  VoltronTunnelSecretName : string;
  PacketCaptureCertSecret : string;
  PacketCaptureServiceName : string;
  PacketCaptureNamespace : string;
  PacketCaptureServiceAccountName : string;
  DexTLSSecretName : string;
  CASecretName : string;
  FluentdPrometheusTLSSecretName : string;
  NodePrometheusTLSServerSecret : string;
  ElasticsearchMetricsServerTLSSecret : string;
  ManagerInternalTLSSecretName : string;
  ComplianceNamespace : string;
  ComplianceServerCertSecret : string;
  ComplianceServiceName : string;
  ComplianceServerSAName : string;
  ComplianceAccessPolicyName : string;
  ComplianceServerPolicyName : string;
  TigeraElasticsearchGatewaySecret : string;
  ElasticsearchComplianceBenchmarkerUserSecret : string;
  ElasticsearchComplianceControllerUserSecret : string;
  ElasticsearchComplianceReporterUserSecret : string;
  ElasticsearchComplianceSnapshotterUserSecret : string;
  ElasticsearchComplianceServerUserSecret : string;
  ClusterConfigConfigMapName : string;
  PublicCertSecret : string;
  (* networkpolicy *)
  TigeraComponentTierName : string;
  TigeraComponentDefaultDenyPolicyName : string;
  (* render/monitor *)
  PrometheusPolicyName : string;
  PrometheusAPIPolicyName : string;
  PrometheusOperatorPolicyName : string;
  AlertManagerPolicyName : string;
  MeshAlertManagerPolicyName : string;
  CalicoNodeAlertmanager : string;
  CalicoNodePrometheus : string;
  PrometheusTLSSecretName : string;
  PrometheusClientTLSSecretName : string;
  PrometheusHTTPAPIServiceName : string;
  PrometheusServiceAccountName : string;
  AlertmanagerConfigSecret : string;
  (* the file alertmanager-config.yaml embedded by go:embed *)
  alertmanagerConfig : string
}.

(** ** Rendered components

    A component is kept as the call that renders it: the constructor of the
    render package applied to the configuration the reconciler filled in. *)

Record TrustedBundle := { tb_CA : KeyPair; tb_Certificates : list (option Certificate) }.

(** [certificateManager.CreateTrustedBundle(certificates...)]. *)
Definition CreateTrustedBundle (cm : CertificateManager) (certs : list (option Certificate)) : TrustedBundle :=
  {| tb_CA := cm_KeyPair cm; tb_Certificates := certs |}.

(** [trustedBundle.AddCertificates(certificate)]. *)
Definition AddCertificates (tb : TrustedBundle) (cert : option Certificate) : TrustedBundle :=
  {| tb_CA := tb_CA tb; tb_Certificates := tb_Certificates tb ++ [cert] |}.

(** [rcertificatemanagement.NewKeyPairOption(keyPair, initContainer, renderInOperatorNamespace)]. *)
Record KeyPairOption := NewKeyPairOption {
  kpo_KeyPair : option KeyPair;
  kpo_first : bool;
  kpo_second : bool
}.

Record CertificateManagementConfig := {
  cmc_Namespace : string;
  cmc_ServiceAccounts : list string;
  cmc_KeyPairOptions : list KeyPairOption;
  cmc_TrustedBundle : option TrustedBundle
}.

Record APIServerConfiguration := {
  asc_K8SServiceEndpoint : ServiceEndpoint;
  asc_Installation : InstallationSpec;
  asc_ForceHostNetwork : bool;
  asc_ManagementCluster : option ManagementCluster;
  asc_ManagementClusterConnection : option ManagementClusterConnection;
  asc_AmazonCloudIntegration : option AmazonCloudIntegration;
  asc_TLSKeyPair : KeyPair;
  asc_PullSecrets : PullSecrets;
  asc_Openshift : bool;
  asc_TunnelCASecret : option KeyPair
}.

Record PacketCaptureApiConfiguration := {
  pcc_PullSecrets : PullSecrets;
  pcc_Openshift : bool;
  pcc_Installation : InstallationSpec;
  pcc_KeyValidatorConfig : option KeyValidatorConfig;
  pcc_ServerCertSecret : KeyPair;
  pcc_ClusterDomain : string
}.

Record MonitorConfig := {
  mon_Installation : InstallationSpec;
  mon_PullSecrets : PullSecrets;
  mon_AlertmanagerConfigSecret : Secret;
  mon_KeyValidatorConfig : option KeyValidatorConfig;
  mon_ServerTLSSecret : KeyPair;
  mon_ClientTLSSecret : KeyPair;
  mon_ClusterDomain : string;
  mon_TrustedCertBundle : TrustedBundle;
  mon_Openshift : bool;
  mon_IncludeV3NetworkPolicy : bool
}.

Record ComplianceConfiguration := {
  cc_ESSecrets : list Secret;
  cc_TrustedBundle : TrustedBundle;
  cc_Installation : InstallationSpec;
  cc_ComplianceServerCertSecret : option KeyPair;
  cc_ESClusterConfig : ClusterConfig;
  cc_PullSecrets : PullSecrets;
  cc_Openshift : bool;
  cc_ManagementCluster : option ManagementCluster;
  cc_ManagementClusterConnection : option ManagementClusterConnection;
  cc_KeyValidatorConfig : option KeyValidatorConfig;
  cc_ClusterDomain : string;
  cc_HasNoLicense : bool;
  cc_UsePSP : bool
}.

Inductive Component :=
| APIServerComponent (cfg : APIServerConfiguration)          (* render.APIServer *)
| PacketCaptureAPI (cfg : PacketCaptureApiConfiguration)     (* render.PacketCaptureAPI *)
| CertificateManagement (cfg : CertificateManagementConfig)  (* rcertificatemanagement.CertificateManagement *)
| MonitorComponent (cfg : MonitorConfig)                     (* monitor.Monitor *)
| ComplianceComponent (cfg : ComplianceConfiguration)        (* render.Compliance *)
| NewPassthrough (s : Secret).                               (* render.NewPassthrough *)

Definition isPassthrough (c : Component) : bool :=
  match c with NewPassthrough _ => true | _ => false end.

(** ** The cluster, as far as the reconcilers write it *)

Inductive Kind := KAPIServer | KMonitor | KCompliance.

Record Cluster := {
  apiservers : option CustomResource;
  monitors : option CustomResource;
  compliances : option CustomResource;
  tigerastatuses : gmap string TigeraStatus;
  (* secrets by (namespace, name), each with its data *)
  secrets : gmap (string * string) (gmap string string)
}.

Definition getPrimary (k : Kind) (c : Cluster) : option CustomResource :=
  match k with
  | KAPIServer => apiservers c
  | KMonitor => monitors c
  | KCompliance => compliances c
  end.

Definition setPrimary (k : Kind) (i : CustomResource) (c : Cluster) : Cluster :=
  {| apiservers := match k with KAPIServer => Some i | _ => apiservers c end;
     monitors := match k with KMonitor => Some i | _ => monitors c end;
     compliances := match k with KCompliance => Some i | _ => compliances c end;
     tigerastatuses := tigerastatuses c;
     secrets := secrets c |}.

Definition putSecret (s : Secret) (c : Cluster) : Cluster :=
  {| apiservers := apiservers c;
     monitors := monitors c;
     compliances := compliances c;
     tigerastatuses := tigerastatuses c;
     secrets := <[(s_Namespace s, s_Name s) := s_Data s]> (secrets c) |}.

Definition lookupSecret (name ns : string) (c : Cluster) : option Secret :=
  match secrets c !! (ns, name) with
  | Some d => Some {| s_Name := name; s_Namespace := ns; s_Data := d |}
  | None => None
  end.

(** ** What a reconcile does: the trace *)

(** A dependent resource read through the client or through a helper. *)
Inductive Resource :=
| RPrimary (k : Kind)
| RTigeraStatus (name : string)
| RInstallation
| RCertificateAuthority
| RKeyPair (name ns : string)
| RCertificate (name ns : string)
| RSecret (name ns : string)
| RPullSecrets
| RManagementCluster
| RManagementClusterConnection
| RAmazonCloudIntegration
| RK8sServiceEndpoint
| RAuthentication
| RKeyValidatorConfig
| RImageSet
| RTier (name : string)
| RV3NetworkPolicyReconcilable (tier : string)
| RAPIServerReady
| RLicenseKey
| RElasticsearchClusterConfig
| RElasticsearchSecrets (names : list string).

Inductive Event :=
| EvFetch (r : Resource)
(* status.StatusManager *)
| EvOnCRFound
| EvOnCRNotFound
| EvSetDegraded (reason : Reason) (msg : string)
| EvClearDegraded
| EvReadyToMonitor
| EvSetMetaData (generation : Z)
| EvAddToStatusManager (ns : string)
(* client.Client *)
| EvStatusUpdate (k : Kind) (i : CustomResource)
| EvCreate (s : Secret)
(* utils.ComponentHandler *)
| EvCreateOrUpdateOrDelete (c : Component).

Definition isApply (e : Event) : bool :=
  match e with EvCreateOrUpdateOrDelete _ => true | _ => false end.
Definition isSetDegraded (e : Event) : bool :=
  match e with EvSetDegraded _ _ => true | _ => false end.
Definition isFetchOf (p : Resource -> bool) (e : Event) : bool :=
  match e with EvFetch r => p r | _ => false end.

(** The components handed to the handler, in order. *)
Fixpoint applied (t : list Event) : list Component :=
  match t with
  | [] => []
  | EvCreateOrUpdateOrDelete c :: t' => c :: applied t'
  | _ :: t' => applied t'
  end.

(** ** The oracle: answers of the client's faults and of the helpers of
    other packages ([utils], [certificatemanager], [imageset], [render],
    the status manager's [IsAvailable]) *)
Record Env := {
  (* r.client: the error of a call that fails for another reason than absence *)
  getPrimaryErr : option (string * error);
  getTigeraStatusErr : option error;
  updateConditionsErr : option error;
  updateStateErr : option error;
  getSecretErr : string -> string -> option error;
  createErr : Secret -> option error;
  getTier : string -> option error;
  (* utils *)
  ans_GetInstallation : res (ProductVariant * InstallationSpec);
  ans_GetNetworkingPullSecrets : InstallationSpec -> res PullSecrets;
  ans_GetManagementCluster : res (option ManagementCluster);
  ans_GetManagementClusterConnection : res (option ManagementClusterConnection);
  ans_GetAmazonCloudIntegration : res AmazonCloudIntegration;
  ans_GetK8sServiceEndPoint : res ServiceEndpoint;
  ans_GetAuthentication : res Authentication;
  ans_GetKeyValidatorConfig : option Authentication -> string -> res (option KeyValidatorConfig);
  ans_IsV3NetworkPolicyReconcilable : string -> bool;
  ans_IsAPIServerReady : bool;
  ans_FetchLicenseKey : res LicenseKey;
  ans_IsFeatureActive : LicenseKey -> string -> bool;
  ans_GetElasticsearchClusterConfig : res ClusterConfig;
  ans_ElasticsearchSecrets : list string -> res (list Secret);
  (* certificatemanager *)
  ans_certificatemanager_Create : InstallationSpec -> string -> res CertificateManager;
  ans_GetOrCreateKeyPair : string -> string -> list string -> res KeyPair;
  getKeyPairErr : string -> string -> option error;
  ans_GetCertificate : string -> string -> res (option Certificate);
  tunnelSecretData : gmap string string;
  newKeyPairErr : option error;
  (* render *)
  renderAPIServerErr : APIServerConfiguration -> option error;
  renderComplianceErr : ComplianceConfiguration -> option error;
  (* status.UpdateStatusCondition as the Monitor and Compliance reconcilers
     call it, on the two lists of conditions alone *)
  ans_UpdateStatusCondition : list Condition -> list TigeraStatusCondition -> list Condition;
  (* imageset, handler, status manager *)
  ans_ApplyImageSet : ProductVariant -> list Component -> option error;
  handlerErr : Component -> option error;
  ans_IsAvailable : bool
}.

(** ** The monad of a reconcile *)

Inductive Outcome (A : Type) :=
| Next (a : A)
| Return (r : Result) (err : option error).
Arguments Next {A} a.
Arguments Return {A} r err.

Record Run (A : Type) := mkRun {
  outcome : Outcome A;
  final : Cluster;
  events : list Event
}.
Arguments mkRun {A} _ _ _.
Arguments outcome {A} _.
Arguments final {A} _.
Arguments events {A} _.

Definition M (A : Type) : Type := Cluster -> Run A.

Definition ret {A} (a : A) : M A := fun c => mkRun (Next a) c [].

Definition bind {A B} (m : M A) (k : A -> M B) : M B := fun c =>
  match m c with
  | mkRun (Next a) c1 t1 =>
      match k a c1 with
      | mkRun o c2 t2 => mkRun o c2 (t1 ++ t2)
      end
  | mkRun (Return r e) c1 t1 => mkRun (Return r e) c1 t1
  end.

(** [return result, err]. *)
Definition return_ {A} (r : Result) (err : option error) : M A :=
  fun c => mkRun (Return r err) c [].

Definition emit (e : Event) : M unit := fun c => mkRun (Next tt) c [e].
Definition getCluster : M Cluster := fun c => mkRun (Next c) c [].
Definition modify (f : Cluster -> Cluster) : M unit := fun c => mkRun (Next tt) (f c) [].

(** [defer call]: the call runs when the function returns, on every path. *)
Definition defer {A} (e : Event) (m : M A) : M A := fun c =>
  match m c with
  | mkRun o c1 t => mkRun o c1 (t ++ [e])
  end.

Declare Scope reconcile_scope.
Delimit Scope reconcile_scope with reconcile.
Notation "x <- m ;; k" := (bind m (fun x => k))
  (at level 100, m at next level, right associativity) : reconcile_scope.
Notation "m ;; k" := (bind m (fun _ => k))
  (at level 100, right associativity) : reconcile_scope.
Open Scope reconcile_scope.

(** What [Reconcile] hands back to the work queue, the cluster it leaves
    and what it did. *)
Record Reconciled := {
  result : Result;
  err : option error;
  after : Cluster;
  trace : list Event
}.

Definition reconciled (m : M unit) (c : Cluster) : Reconciled :=
  match m c with
  | mkRun (Next _) c1 t => {| result := emptyResult; err := None; after := c1; trace := t |}
  | mkRun (Return r e) c1 t => {| result := r; err := e; after := c1; trace := t |}
  end.

(** ** package status *)
Module status.

(** The calls on the [StatusManager] of a reconciler. *)
Definition OnCRFound : M unit := emit EvOnCRFound.
Definition OnCRNotFound : M unit := emit EvOnCRNotFound.
Definition ClearDegraded : M unit := emit EvClearDegraded.
Definition ReadyToMonitor : M unit := emit EvReadyToMonitor.
Definition IsAvailable (env : Env) : M bool := ret (ans_IsAvailable env).

(** [r.status.SetDegraded(reason, msg)]. *)
Definition StatusManager_SetDegraded (reason : Reason) (msg : string) : M unit :=
  emit (EvSetDegraded reason msg).

(** [status.SetDegraded(r.status, reason, message, err, log)], the helper the
    Monitor reconciler calls; it formats like the [SetDegraded] methods of
    the other two reconcilers. *)
Definition SetDegraded (reason : TigeraStatusReason) (message : string) (err : option error) : M unit :=
  let errormsg := match err with Some e => Error e | None => "" end in
  StatusManager_SetDegraded (Typed reason) (message +:+ " - Error: " +:+ errormsg).

(** Modelled from the spec: [status.UpdateStatusCondition] is declared in
    package status, outside these files.  It copies the conditions of a
    TigeraStatus into the conditions of a custom resource: Available becomes
    the type "Ready", Progressing "Progressing", Degraded "Degraded"; status,
    reason and message are kept; ObservedGeneration is the generation handed
    in.  A condition of a type already present replaces it, another one is
    appended. *)
Definition conditionType (t : StatusConditionType) : string :=
  match t with
  | ComponentAvailable => "Ready"
  | ComponentProgressing => "Progressing"
  | ComponentDegraded => "Degraded"
  end.

Definition toCondition (generation : Z) (c : TigeraStatusCondition) : Condition :=
  {| c_Type := conditionType (tsc_Type c);
     c_Status := tsc_Status c;
     c_ObservedGeneration := generation;
     c_Reason := tsc_Reason c;
     c_Message := tsc_Message c |}.

Definition hasType (ty : string) (c : Condition) : bool := String.eqb (c_Type c) ty.

Definition setCondition (ic : Condition) (l : list Condition) : list Condition :=
  if existsb (hasType (c_Type ic)) l
  then map (fun c => if hasType (c_Type ic) c then ic else c) l
  else l ++ [ic].

Definition UpdateStatusCondition (statuscondition : list Condition)
    (conditions : list TigeraStatusCondition) (generation : Z) : list Condition :=
  fold_left (fun acc c => setCondition (toCondition generation c) acc) conditions statuscondition.

(** Modelled from the spec: the two-argument [status.UpdateStatusCondition]
    that the Monitor and the Compliance reconcilers call copies the
    conditions like the three-argument one; it is not handed the generation
    of the custom resource, and [observed] stands for whatever
    ObservedGeneration it gives to the copy of a condition. *)
Definition UpdateStatusConditionWith (observed : TigeraStatusCondition -> Z)
    (statuscondition : list Condition) (conditions : list TigeraStatusCondition)
    : list Condition :=
  fold_left (fun acc c => setCondition (toCondition (observed c) c) acc)
    conditions statuscondition.

End status.

(** ** r.client *)
Module client.
Section Client.
Context (env : Env).

(** [client.Get] of the primary custom resource of kind [k]. *)
Definition GetPrimary (k : Kind) : M (res CustomResource) := fun c =>
  mkRun (Next match getPrimaryErr env with
              | Some (_, e) => Fail e
              | None =>
                  match getPrimary k c with
                  | Some i => Ok i
                  | None => Fail (Err true "not found")
                  end
              end) c [EvFetch (RPrimary k)].

(** [r.client.Get(ctx, types.NamespacedName{Name: name}, ts)]. *)
Definition GetTigeraStatus (name : string) : M (res TigeraStatus) := fun c =>
  mkRun (Next match getTigeraStatusErr env with
              | Some e => Fail e
              | None =>
                  match tigerastatuses c !! name with
                  | Some ts => Ok ts
                  | None => Fail (Err true "not found")
                  end
              end) c [EvFetch (RTigeraStatus name)].

(** [r.client.Status().Update(ctx, instance)]; [fault] is what goes wrong
    at this call, if anything. *)
Definition StatusUpdate (k : Kind) (instance : CustomResource) (fault : option error)
  : M (option error) :=
  emit (EvStatusUpdate k instance) ;;
  match fault with
  | Some e => ret (Some e)
  | None => modify (setPrimary k instance) ;; ret None
  end.

(** [r.client.Get(ctx, client.ObjectKey{Name: name}, &v3.Tier{})]. *)
Definition GetTier (name : string) : M (option error) :=
  emit (EvFetch (RTier name)) ;; ret (getTier env name).

(** [r.client.Create(ctx, s)]. *)
Definition Create (s : Secret) : M (option error) :=
  emit (EvCreate s) ;;
  c <- getCluster ;;
  match lookupSecret (s_Name s) (s_Namespace s) c with
  | Some _ => ret (Some (Errorf "already exists"))
  | None =>
      match createErr env s with
      | Some e => ret (Some e)
      | None => modify (putSecret s) ;; ret None
      end
  end.
End Client.
End client.

(** ** package utils (the helpers the reconcilers call) *)
Module utils.
Section Utils.
Context `{Names} (env : Env).

Definition ask {A} (r : Resource) (answer : A) : M A := emit (EvFetch r) ;; ret answer.

(** [utils.GetAPIServer(ctx, r.client)]: the instance, a message and the error. *)
Definition GetAPIServer : M (res CustomResource * string) :=
  got <- client.GetPrimary env KAPIServer ;;
  ret (got, match getPrimaryErr env with Some (msg, _) => msg | None => "" end).

Definition GetInstallation := ask RInstallation (ans_GetInstallation env).
Definition GetNetworkingPullSecrets (network : InstallationSpec) :=
  ask RPullSecrets (ans_GetNetworkingPullSecrets env network).
Definition GetManagementCluster := ask RManagementCluster (ans_GetManagementCluster env).
Definition GetManagementClusterConnection :=
  ask RManagementClusterConnection (ans_GetManagementClusterConnection env).
Definition GetAmazonCloudIntegration := ask RAmazonCloudIntegration (ans_GetAmazonCloudIntegration env).
Definition GetK8sServiceEndPoint := ask RK8sServiceEndpoint (ans_GetK8sServiceEndPoint env).
Definition GetAuthentication := ask RAuthentication (ans_GetAuthentication env).
Definition GetKeyValidatorConfig (authenticationCR : option Authentication) (clusterDomain : string) :=
  ask RKeyValidatorConfig (ans_GetKeyValidatorConfig env authenticationCR clusterDomain).
Definition IsV3NetworkPolicyReconcilable (tier : string) :=
  ask (RV3NetworkPolicyReconcilable tier) (ans_IsV3NetworkPolicyReconcilable env tier).
Definition IsAPIServerReady := ask RAPIServerReady (ans_IsAPIServerReady env).
Definition FetchLicenseKey := ask RLicenseKey (ans_FetchLicenseKey env).
Definition IsFeatureActive (license : LicenseKey) (feature : string) : bool :=
  ans_IsFeatureActive env license feature.
Definition GetElasticsearchClusterConfig :=
  ask RElasticsearchClusterConfig (ans_GetElasticsearchClusterConfig env).
Definition ElasticsearchSecrets (names : list string) :=
  ask (RElasticsearchSecrets names) (ans_ElasticsearchSecrets env names).

(** [utils.GetSecret(ctx, client, name, ns)]: the secret, nil when there is
    none, or the error of the read. *)
Definition GetSecret (name ns : string) : M (res (option Secret)) := fun c =>
  mkRun (Next match getSecretErr env name ns with
              | Some e => Fail e
              | None => Ok (lookupSecret name ns c)
              end) c [EvFetch (RSecret name ns)].

(** Modelled from the spec: [ComponentHandler.CreateOrUpdateOrDelete] is
    declared in package utils, outside these files.  It applies the
    objects of a component to the cluster, idempotently, or fails.  The
    objects of the rendered components are those of the render packages;
    the one object this model stores is the secret a passthrough component
    carries, which the reconcilers read back. *)
Definition CreateOrUpdateOrDelete (component : Component) : M (option error) :=
  emit (EvCreateOrUpdateOrDelete component) ;;
  match handlerErr env component with
  | Some e => ret (Some e)
  | None =>
      match component with
      | NewPassthrough s => modify (putSecret s) ;; ret None
      | _ => ret None
      end
  end.
End Utils.
End utils.

(** ** packages certificatemanager, imageset, render *)
Module certificatemanager.
Section CertificateManager.
Context `{Names} (env : Env).

Definition Create (installation : InstallationSpec) (clusterDomain : string) :=
  utils.ask RCertificateAuthority (ans_certificatemanager_Create env installation clusterDomain).

Definition GetOrCreateKeyPair (secretName ns : string) (dnsNames : list string) :=
  utils.ask (RKeyPair secretName ns) (ans_GetOrCreateKeyPair env secretName ns dnsNames).

Definition GetCertificate (name ns : string) :=
  utils.ask (RCertificate name ns) (ans_GetCertificate env name ns).

(** [certificateManager.GetKeyPair(cli, name, ns)]: the key pair of the
    secret in the cluster, nil when there is none, and the error. *)
Definition GetKeyPair (name ns : string) : M (option KeyPair * option error) := fun c =>
  mkRun (Next match getKeyPairErr env name ns with
              | Some e => (None, Some e)
              | None => (option_map NewKeyPair (lookupSecret name ns c), None)
              end) c [EvFetch (RKeyPair name ns)].

Definition AddToStatusManager (ns : string) : M unit := emit (EvAddToStatusManager ns).
End CertificateManager.
End certificatemanager.

Module render.
Section Render.
Context `{Names} (env : Env).

(** [render.VoltronTunnelSecret()]: a fresh secret of the tunnel's name in
    the operator namespace. *)
Definition VoltronTunnelSecret : Secret :=
  {| s_Name := VoltronTunnelSecretName;
     s_Namespace := OperatorNamespace;
     s_Data := tunnelSecretData env |}.

(** [render.APIServer(&cfg)]. *)
Definition APIServer (cfg : APIServerConfiguration) : res Component :=
  match renderAPIServerErr env cfg with
  | Some e => Fail e
  | None => Ok (APIServerComponent cfg)
  end.

(** [render.Compliance(cfg)]. *)
Definition Compliance (cfg : ComplianceConfiguration) : res Component :=
  match renderComplianceErr env cfg with
  | Some e => Fail e
  | None => Ok (ComplianceComponent cfg)
  end.
End Render.
End render.

Module imageset.
(** [imageset.ApplyImageSet(ctx, r.client, variant, components...)]. *)
Definition ApplyImageSet (env : Env) (variant : ProductVariant) (components : list Component)
  : M (option error) :=
  utils.ask RImageSet (ans_ApplyImageSet env variant components).
End imageset.

(** ** Setting a controller up: the calls of [Add] on the manager

    [Add] and [add] create the controller, its status manager and its
    watches.  A call may fail; [setupErr] says which ones do. *)

Inductive WatchKind :=
| WAPIServer | WMonitor | WCompliance
| WAmazonCloudIntegration | WManagementCluster | WManagementClusterConnection
| WAuthentication
| WTigeraStatus (name : string).

Inductive Goroutine :=
| WaitToAddTierWatch (tier : string)
| WaitToAddNetworkPolicyWatches (policies : list (string * string))
| waitToAddPrometheusWatch
| WaitToAddLicenseKeyWatch.

Inductive SetupCall :=
| status_New (name : string)                 (* status.New(mgr.GetClient(), name, version) *)
| status_AddStatefulSets (l : list (string * string))
| status_Run                                 (* r.status.Run(opts.ShutdownContext) *)
| controller_New (name : string)             (* controller.New(name, mgr, options) *)
| kubernetes_NewForConfig                    (* kubernetes.NewForConfig(mgr.GetConfig()) *)
| go (g : Goroutine)
| Watch (k : WatchKind)                      (* c.Watch(&source.Kind{Type: ...}, ...) *)
| AddNetworkWatch
| AddImageSetWatch
| AddAPIServerWatch
| AddConfigMapWatch (name ns : string)
| AddSecretsWatch (name ns : string)
| AddTigeraStatusWatch (name : string).

(** [options.AddOptions]. *)
Record AddOptions := {
  DetectedProvider : Provider;
  EnterpriseCRDExists : bool;
  AmazonCRDExists : bool;
  ClusterDomain : string;
  KubernetesVersion : string;
  UsePSP : bool
}.

(** A setup computation: the calls made, and the value or the error. *)
Definition Setup (A : Type) : Type := list SetupCall * res A.

Definition sret {A} (a : A) : Setup A := ([], Ok a).
Definition sbind {A B} (m : Setup A) (k : A -> Setup B) : Setup B :=
  match m with
  | (t, Ok a) => let '(t2, r) := k a in (t ++ t2, r)
  | (t, Fail e) => (t, Fail e)
  end.

(** A call that cannot fail, and a call whose error is returned as [wrap err]. *)
Definition call (c : SetupCall) : Setup unit := ([c], Ok tt).
Definition try (setupErr : SetupCall -> option error) (c : SetupCall) (wrap : error -> error)
  : Setup unit :=
  ([c], match setupErr c with Some e => Fail (wrap e) | None => Ok tt end).

(** [fmt.Errorf(text + "%v", err)] and [fmt.Errorf(text + "%w", err)]. *)
Definition wrapf (text : string) (e : error) : error := Errorf (text +:+ Error e).

(** [for _, x := range xs { if err = f(x); err != nil { return ... } }]. *)
Fixpoint sfor {A} (xs : list A) (f : A -> Setup unit) : Setup unit :=
  match xs with
  | [] => sret tt
  | x :: rest => sbind (f x) (fun _ => sfor rest f)
  end.

Declare Scope setup_scope.
Delimit Scope setup_scope with setup.
Notation "x <- m ;; k" := (sbind m (fun x => k))
  (at level 100, m at next level, right associativity) : setup_scope.
Notation "m ;; k" := (sbind m (fun _ => k))
  (at level 100, right associativity) : setup_scope.

(** [for _, component := range components { handler.CreateOrUpdateOrDelete ... }]
    with the body's [SetDegraded] and [return] on an error. *)
Fixpoint rangeComponents (env : Env) (onError : option error -> M unit)
    (components : list Component) : M unit :=
  match components with
  | [] => ret tt
  | component :: rest =>
      failed <- utils.CreateOrUpdateOrDelete env component ;;
      match failed with
      | Some e => (onError (Some e) ;; return_ emptyResult (Some e))
      | None => rangeComponents env onError rest
      end
  end.

(** ** package apiserver *)
Module apiserver.

Definition ResourceName : string := "apiserver".

(** [ReconcileAPIServer]; its client, scheme and status manager are the
    cluster, the oracle and the trace. *)
Record ReconcileAPIServer := {
  provider : Provider;
  amazonCRDExists : bool;
  enterpriseCRDsExist : bool;
  clusterDomain : string
}.

(** The enterprise-only data queried in the middle of [Reconcile]. *)
Record EnterpriseData := {
  tunnelCASecret : option KeyPair;
  amazon : option AmazonCloudIntegration;
  managementCluster : option ManagementCluster;
  managementClusterConnection : option ManagementClusterConnection;
  tunnelSecretPassthrough : option Component
}.

Section Setup.
Context `{Names} (setupErr : SetupCall -> option error).
Local Open Scope setup_scope.

(** [func newReconciler(mgr, opts) *ReconcileAPIServer]. *)
Definition newReconciler (opts : AddOptions) : Setup ReconcileAPIServer :=
  call (status_New "apiserver") ;;
  call status_Run ;;
  sret {| provider := DetectedProvider opts;
          amazonCRDExists := AmazonCRDExists opts;
          enterpriseCRDsExist := EnterpriseCRDExists opts;
          clusterDomain := ClusterDomain opts |}.

(** [func add(mgr, r *ReconcileAPIServer) error]. *)
Definition add (r : ReconcileAPIServer) : Setup unit :=
  (* Create a new controller *)
  try setupErr (controller_New "apiserver-controller") (wrapf "Failed to create apiserver-controller: ") ;;
  (* Watch for changes to primary resource APIServer *)
  try setupErr (Watch WAPIServer) (wrapf "apiserver-controller failed to watch primary resource: ") ;;
  try setupErr AddNetworkWatch (wrapf "apiserver-controller failed to watch Tigera network resource: ") ;;
  try setupErr (AddConfigMapWatch K8sSvcEndpointConfigMapName OperatorNamespace)
    (wrapf ("apiserver-controller failed to watch ConfigMap " +:+ K8sSvcEndpointConfigMapName +:+ ": ")) ;;
  (if amazonCRDExists r
   then try setupErr (Watch WAmazonCloudIntegration)
          (wrapf "apiserver-controller failed to watch primary resource: ")
   else sret tt) ;;
  (if enterpriseCRDsExist r then
     (* Watch for changes to primary resource ManagementCluster *)
     try setupErr (Watch WManagementCluster) (wrapf "apiserver-controller failed to watch primary resource: ") ;;
     (* Watch for changes to primary resource ManagementClusterConnection *)
     try setupErr (Watch WManagementClusterConnection)
       (wrapf "apiserver-controller failed to watch primary resource: ") ;;
     sfor [OperatorNamespace; APIServerNamespace TigeraSecureEnterprise] (fun namespace =>
       try setupErr (AddSecretsWatch VoltronTunnelSecretName namespace)
         (wrapf "apiserver-controller failed to watch the Secret resource: ")) ;;
     (* Watch for changes to authentication *)
     try setupErr (Watch WAuthentication) (wrapf "apiserver-controller failed to watch resource: ")
   else sret tt) ;;
  sfor ["calico-apiserver-certs"; "tigera-apiserver-certs"; PacketCaptureCertSecret;
        CASecretName; DexTLSSecretName] (fun secretName =>
    try setupErr (AddSecretsWatch secretName OperatorNamespace)
      (wrapf "apiserver-controller failed to watch the Secret resource: ")) ;;
  try setupErr AddImageSetWatch (wrapf "apiserver-controller failed to watch ImageSet: ") ;;
  (* Watch for changes to TigeraStatus. *)
  try setupErr (Watch (WTigeraStatus ResourceName))
    (wrapf "apiserver-controller failed to watch apiserver Tigerastatus: ").

(** [func Add(mgr, opts) error]. *)
Definition Add (opts : AddOptions) : Setup unit :=
  r <- newReconciler opts ;;
  add r.
End Setup.

Section Reconciler.
Context `{Names} (env : Env).

Definition SetDegraded (reason : TigeraStatusReason) (message : string) (err : option error) : M unit :=
  let errormsg := match err with Some e => Error e | None => "" end in
  status.StatusManager_SetDegraded (Typed reason) (message +:+ " - Error: " +:+ errormsg).

Definition queryEnterpriseData (r : ReconcileAPIServer) (variant : ProductVariant) : M EnterpriseData :=
  if isEnterprise variant then
    got <- utils.GetManagementCluster env ;;
    managementCluster <-
      match got with
      | Fail err =>
          (SetDegraded ResourceReadError "Error reading ManagementCluster" (Some err) ;;
           return_ emptyResult (Some err))
      | Ok mc => ret mc
      end ;;
    got <- utils.GetManagementClusterConnection env ;;
    managementClusterConnection <-
      match got with
      | Fail err =>
          (SetDegraded ResourceReadError "Error reading ManagementClusterConnection" (Some err) ;;
           return_ emptyResult (Some err))
      | Ok mcc => ret mcc
      end ;;
    match managementClusterConnection, managementCluster with
    | Some _, Some _ =>
        let err := Errorf "having both a ManagementCluster and a ManagementClusterConnection is not supported" in
        (SetDegraded ResourceValidationError "" (Some err) ;;
         return_ emptyResult (Some err))
    | _, _ => ret tt
    end ;;
    tunnel <-
      match managementCluster with
      | Some _ =>
          got <- certificatemanager.GetKeyPair env VoltronTunnelSecretName OperatorNamespace ;;
          let created := NewKeyPair (render.VoltronTunnelSecret env) in
          let '(tunnelCASecret, err, passthrough) :=
            match fst got with
            | None =>
                (* Creating the voltron tunnel secret is not (yet) supported by certificate manager. *)
                (created, newKeyPairErr env,
                 Some (NewPassthrough (KeyPair_Secret created OperatorNamespace)))
            | Some kp => (kp, snd got, None)
            end in
          match err with
          | Some e =>
              (SetDegraded ResourceCreateError "Unable to get or create the tunnel secret" (Some e) ;;
               return_ emptyResult (Some e))
          | None => ret (Some tunnelCASecret, passthrough)
          end
      | None => ret (None, None)
      end ;;
    amazon <-
      (if amazonCRDExists r then
         got <- utils.GetAmazonCloudIntegration env ;;
         match got with
         | Ok a => ret (Some a)
         | Fail err =>
             if IsNotFound (Some err) then ret None
             else (SetDegraded ResourceReadError "Error reading AmazonCloudIntegration" (Some err) ;;
                   return_ emptyResult (Some err))
         end
       else ret None) ;;
    ret {| tunnelCASecret := fst tunnel;
           amazon := amazon;
           managementCluster := managementCluster;
           managementClusterConnection := managementClusterConnection;
           tunnelSecretPassthrough := snd tunnel |}
  else
    ret {| tunnelCASecret := None;
           amazon := None;
           managementCluster := None;
           managementClusterConnection := None;
           tunnelSecretPassthrough := None |}.

(** The packet capture components appended for the enterprise variant. *)
Definition packetCapture (r : ReconcileAPIServer) (variant : ProductVariant)
    (network : InstallationSpec) (pullSecrets : PullSecrets)
    (components : list Component) : M (list Component) :=
  if isEnterprise variant then
    got <- certificatemanager.GetOrCreateKeyPair env PacketCaptureCertSecret OperatorNamespace
             (GetServiceDNSNames PacketCaptureServiceName PacketCaptureNamespace (clusterDomain r)) ;;
    packetCaptureCertSecret <-
      match got with
      | Fail err =>
          (SetDegraded ResourceReadError "Error retrieve or creating packet capture TLS certificate" (Some err) ;;
           return_ emptyResult (Some err))
      | Ok kp => ret kp
      end ;;
    (* Fetch the Authentication spec. If present, we use to configure user authentication. *)
    got <- utils.GetAuthentication env ;;
    authenticationCR <-
      match got with
      | Fail err =>
          if negb (IsNotFound (Some err))
          then (SetDegraded ResourceNotFound "Error querying Authentication" (Some err) ;;
                return_ emptyResult (Some err))
          else ret None
      | Ok a => ret (Some a)
      end ;;
    got <- utils.GetKeyValidatorConfig env authenticationCR (clusterDomain r) ;;
    keyValidatorConfig <-
      match got with
      | Fail err =>
          (SetDegraded ResourceUpdateError "Failed to process the authentication CR." (Some err) ;;
           return_ emptyResult (Some err))
      | Ok k => ret k
      end ;;
    let packetCaptureApiCfg :=
      {| pcc_PullSecrets := pullSecrets;
         pcc_Openshift := isOpenShift (provider r);
         pcc_Installation := network;
         pcc_KeyValidatorConfig := keyValidatorConfig;
         pcc_ServerCertSecret := packetCaptureCertSecret;
         pcc_ClusterDomain := clusterDomain r |} in
    let pc := PacketCaptureAPI packetCaptureApiCfg in
    let components : list Component :=
      components ++
      [pc;
       CertificateManagement
         {| cmc_Namespace := PacketCaptureNamespace;
            cmc_ServiceAccounts := [PacketCaptureServiceAccountName];
            cmc_KeyPairOptions := [NewKeyPairOption (Some packetCaptureCertSecret) true true];
            cmc_TrustedBundle := None |}] in
    certificatemanager.AddToStatusManager PacketCaptureNamespace ;;
    ret components
  else ret components.

(** [func (r *ReconcileAPIServer) Reconcile(ctx, request)]. *)
Definition Reconcile (r : ReconcileAPIServer) (request : Request) : M unit :=
  got <- utils.GetAPIServer env ;;
  instance <-
    match fst got with
    | Fail err =>
        if IsNotFound (Some err)
        then (status.OnCRNotFound ;; return_ emptyResult None)
        else (SetDegraded ResourceReadError
                ("An error occurred when querying the APIServer resource: " +:+ snd got) (Some err) ;;
              return_ emptyResult (Some err))
    | Ok instance => ret instance
    end ;;
  status.OnCRFound ;;
  (* Changes for updating apiserver status conditions *)
  (if String.eqb (Name request) ResourceName && String.eqb (Namespace request) ""
   then
     got <- client.GetTigeraStatus env ResourceName ;;
     ts <- match got with
           | Fail err => return_ emptyResult (Some err)
           | Ok ts => ret ts
           end ;;
     let instance :=
       withConditions
         (status.UpdateStatusCondition (Status_Conditions instance) (ts_Conditions ts)
            (Generation instance)) instance in
     failed <- client.StatusUpdate KAPIServer instance (updateConditionsErr env) ;;
     match failed with
     | Some err => return_ emptyResult (Some err)
     | None => return_ emptyResult None
     end
   else ret tt) ;;
  (* Query for the installation object. *)
  got <- utils.GetInstallation env ;;
  installation <-
    match got with
    | Fail err =>
        if IsNotFound (Some err)
        then (SetDegraded ResourceNotFound "Installation not found" (Some err) ;;
              return_ emptyResult (Some err))
        else (SetDegraded ResourceReadError "Error querying installation" (Some err) ;;
              return_ emptyResult (Some err))
    | Ok vn => ret vn
    end ;;
  let variant := fst installation in
  let network := snd installation in
  match variant with
  | VariantUnset =>
      (status.StatusManager_SetDegraded (Typed ResourceNotReady) "Waiting for Installation to be ready" ;;
       return_ emptyResult None)
  | _ => ret tt
  end ;;
  let ns := APIServerNamespace variant in
  got <- certificatemanager.Create env network (clusterDomain r) ;;
  certificateManager <-
    match got with
    | Fail err =>
        (SetDegraded ResourceCreateError "Unable to create the Tigera CA" (Some err) ;;
         return_ emptyResult (Some err))
    | Ok cm => ret cm
    end ;;
  (* We need separate certificates for OSS vs Enterprise. *)
  let secretName := ProjectCalicoApiServerTLSSecretName (Variant network) in
  got <- certificatemanager.GetOrCreateKeyPair env secretName OperatorNamespace
           (GetServiceDNSNames (ProjectCalicoApiServerServiceName (Variant network))
              (APIServerNamespace (Variant network)) (clusterDomain r)) ;;
  tlsSecret <-
    match got with
    | Fail err =>
        (SetDegraded ResourceCreateError "Unable to get or create tls key pair" (Some err) ;;
         return_ emptyResult (Some err))
    | Ok kp => ret kp
    end ;;
  certificatemanager.AddToStatusManager ns ;;
  got <- utils.GetNetworkingPullSecrets env network ;;
  pullSecrets <-
    match got with
    | Fail err =>
        (SetDegraded ResourceReadError "Error retrieving pull secrets" (Some err) ;;
         return_ emptyResult (Some err))
    | Ok ps => ret ps
    end ;;
  (* Query enterprise-only data. *)
  ent <- queryEnterpriseData r variant ;;
  got <- utils.GetK8sServiceEndPoint env ;;
  endpoint <-
    match got with
    | Fail err =>
        (SetDegraded ResourceReadError "Error reading services endpoint configmap" (Some err) ;;
         return_ emptyResult (Some err))
    | Ok ep => ret ep
    end ;;
  (* Render the desired objects from the CRD and create or update them. *)
  let apiServerCfg :=
    {| asc_K8SServiceEndpoint := endpoint;
       asc_Installation := network;
       asc_ForceHostNetwork := false;
       asc_ManagementCluster := managementCluster ent;
       asc_ManagementClusterConnection := managementClusterConnection ent;
       asc_AmazonCloudIntegration := amazon ent;
       asc_TLSKeyPair := tlsSecret;
       asc_PullSecrets := pullSecrets;
       asc_Openshift := isOpenShift (provider r);
       asc_TunnelCASecret := tunnelCASecret ent |} in
  component <-
    match render.APIServer env apiServerCfg with
    | Fail err =>
        (SetDegraded ResourceRenderingError "Error rendering APIServer" (Some err) ;;
         return_ emptyResult (Some err))
    | Ok component => ret component
    end ;;
  let components :=
    [component;
     CertificateManagement
       {| cmc_Namespace := APIServerNamespace variant;
          cmc_ServiceAccounts := [ApiServerServiceAccountName variant];
          cmc_KeyPairOptions :=
            [NewKeyPairOption (Some tlsSecret) true true;
             NewKeyPairOption (tunnelCASecret ent) true true];
          cmc_TrustedBundle := None |}] in
  let components : list Component :=
    match tunnelSecretPassthrough ent with
    | Some p => components ++ [p]
    | None => components
    end in
  components <- packetCapture r variant network pullSecrets components ;;
  failed <- imageset.ApplyImageSet env variant components ;;
  match failed with
  | Some err =>
      (SetDegraded ResourceUpdateError "Error with images from ImageSet" (Some err) ;;
       return_ emptyResult (Some err))
  | None => ret tt
  end ;;
  rangeComponents env (SetDegraded ResourceUpdateError "Error creating / updating resource") components ;;
  (* Clear the degraded bit if we've reached this far. *)
  status.ClearDegraded ;;
  available <- status.IsAvailable env ;;
  if negb available then
    (* Schedule a kick to check again in the near future. *)
    return_ (requeueAfter (30 * Second)) None
  else
    (* Everything is available - update the CRD status. *)
    let instance := withState TigeraStatusReady instance in
    failed <- client.StatusUpdate KAPIServer instance (updateStateErr env) ;;
    match failed with
    | Some err => return_ emptyResult (Some err)
    | None => return_ emptyResult None
    end.
End Reconciler.
End apiserver.

(** ** package monitor *)
Module monitor.

Definition ResourceName : string := "monitor".

(** [ReconcileMonitor]; the three [*utils.ReadyFlag] are what [IsReady()]
    answers during this reconcile. *)
Record ReconcileMonitor := {
  provider : Provider;
  prometheusReady : bool;
  tierWatchReady : bool;
  policyWatchesReady : bool;
  clusterDomain : string
}.

Section Setup.
Context `{Names} (setupErr : SetupCall -> option error).
Local Open Scope setup_scope.

(** [func newReconciler(mgr, opts, prometheusReady, tierWatchReady, policyWatchesReady)];
    the three flags start unset. *)
Definition newReconciler (opts : AddOptions) : Setup ReconcileMonitor :=
  call (status_New "monitor") ;;
  call (status_AddStatefulSets
          [(TigeraPrometheusNamespace, "alertmanager-" +:+ CalicoNodeAlertmanager);
           (TigeraPrometheusNamespace, "prometheus-" +:+ CalicoNodePrometheus)]) ;;
  call status_Run ;;
  sret {| provider := DetectedProvider opts;
          prometheusReady := false;
          tierWatchReady := false;
          policyWatchesReady := false;
          clusterDomain := ClusterDomain opts |}.

(** [func add(mgr, c controller.Controller) error]. *)
Definition add : Setup unit :=
  (* watch for primary resource changes *)
  try setupErr (Watch WMonitor) (wrapf "monitor-controller failed to watch primary resource: ") ;;
  try setupErr AddNetworkWatch (wrapf "monitor-controller failed to watch Installation resource: ") ;;
  try setupErr AddImageSetWatch (wrapf "monitor-controller failed to watch ImageSet: ") ;;
  try setupErr (Watch WManagementClusterConnection)
    (wrapf "monitor-controller failed to watch ManagementClusterConnection resource: ") ;;
  sfor [PrometheusTLSSecretName; FluentdPrometheusTLSSecretName; NodePrometheusTLSServerSecret;
        ElasticsearchMetricsServerTLSSecret; FluentdPrometheusTLSSecretName; CASecretName]
    (fun secret =>
       try setupErr (AddSecretsWatch secret OperatorNamespace)
         (wrapf "monitor-controller failed to watch secret: ")) ;;
  try setupErr (Watch WAuthentication) (wrapf "monitor-controller failed to watch resource: ") ;;
  (* Watch for changes to TigeraStatus. *)
  try setupErr (AddTigeraStatusWatch ResourceName)
    (wrapf "monitor-controller failed to watch monitor Tigerastatus: ").

(** [func Add(mgr, opts) error]. *)
Definition Add (opts : AddOptions) : Setup unit :=
  if negb (EnterpriseCRDExists opts) then sret tt
  else
    (* Create the reconciler *)
    reconciler <- newReconciler opts ;;
    (* Create a new controller *)
    try setupErr (controller_New "monitor-controller") (wrapf "failed to create monitor-controller: ") ;;
    try setupErr kubernetes_NewForConfig (fun err => err) ;;
    let policyNames :=
      [(PrometheusPolicyName, TigeraPrometheusNamespace);
       (PrometheusAPIPolicyName, TigeraPrometheusNamespace);
       (PrometheusOperatorPolicyName, TigeraPrometheusNamespace);
       (AlertManagerPolicyName, TigeraPrometheusNamespace);
       (MeshAlertManagerPolicyName, TigeraPrometheusNamespace);
       (TigeraComponentDefaultDenyPolicyName, TigeraPrometheusNamespace)] in
    call (go (WaitToAddTierWatch TigeraComponentTierName)) ;;
    call (go (WaitToAddNetworkPolicyWatches policyNames)) ;;
    call (go waitToAddPrometheusWatch) ;;
    add.
End Setup.

Section Reconciler.
Context `{Names} (env : Env).

(** [func (r *ReconcileMonitor) getMonitor(ctx)]. *)
Definition getMonitor : M (res CustomResource) := client.GetPrimary env KMonitor.

(** [func (r *ReconcileMonitor) readAlertmanagerConfigSecret(ctx)]: the
    secret and whether to create it in the operator namespace, or the
    error (with which Go returns [nil, false]). *)
Definition readAlertmanagerConfigSecret : M (res (Secret * bool)) :=
  let defaultConfigSecret :=
    {| s_Name := AlertmanagerConfigSecret;
       s_Namespace := OperatorNamespace;
       s_Data := {[ "alertmanager.yaml" := alertmanagerConfig ]} |} in
  (* Read Alertmanager configuration secret as-is if it is found in the tigera-operator namespace. *)
  got <- utils.GetSecret env AlertmanagerConfigSecret OperatorNamespace ;;
  match got with
  | Fail err => ret (Fail err)
  | Ok (Some secret) => ret (Ok (secret, false))
  | Ok None =>
      (* When Alertmanager configuration isn't found in the tigera-operator namespace,
         copy it from the tigera-prometheus namespace (upgrade). *)
      got <- utils.GetSecret env AlertmanagerConfigSecret TigeraPrometheusNamespace ;;
      match got with
      | Fail err => ret (Fail err)
      | Ok (Some secret) =>
          (* Monitor controller will own the secret if it is the same. *)
          if bool_decide (s_Data defaultConfigSecret = s_Data secret)
          then ret (Ok (CopyToNamespace OperatorNamespace secret, true))
          else
            (* If the secret isn't the same, leave it unmanaged. *)
            let s := CopyToNamespace OperatorNamespace secret in
            failed <- client.Create env s ;;
            match failed with
            | Some err => ret (Fail err)
            | None => ret (Ok (s, false))
            end
      | Ok None =>
          (* Not found in either namespace (new install): a new default secret. *)
          ret (Ok (defaultConfigSecret, true))
      end
  end.

(** The loop over the three certificates added to the trusted bundle. *)
Fixpoint addCertificates (names : list string) (trustedBundle : TrustedBundle) : M TrustedBundle :=
  match names with
  | [] => ret trustedBundle
  | certificateName :: rest =>
      got <- certificatemanager.GetCertificate env certificateName OperatorNamespace ;;
      match got with
      | Ok certificate => addCertificates rest (AddCertificates trustedBundle certificate)
      | Fail err =>
          (status.SetDegraded ResourceReadError "Error fetching TLS certificate" (Some err) ;;
           return_ emptyResult (Some err))
      end
  end.

Definition waitForWatches (r : ReconcileMonitor) : M unit :=
  (if negb (tierWatchReady r)
   then (status.StatusManager_SetDegraded (Text "Waiting for Tier watch to be established") "" ;;
         return_ (requeueAfter (10 * Second)) None)
   else ret tt) ;;
  if negb (policyWatchesReady r)
  then (status.StatusManager_SetDegraded (Text "Waiting for NetworkPolicy watches to be established") "" ;;
        return_ (requeueAfter (10 * Second)) None)
  else ret tt.

(** [func (r *ReconcileMonitor) Reconcile(ctx, request)]. *)
Definition Reconcile (r : ReconcileMonitor) (request : Request) : M unit :=
  got <- getMonitor ;;
  instance <-
    match got with
    | Fail err =>
        if IsNotFound (Some err)
        then (status.OnCRNotFound ;; return_ emptyResult None)
        else (status.SetDegraded ResourceReadError "Failed to query Monitor" (Some err) ;;
              return_ emptyResult (Some err))
    | Ok instance => ret instance
    end ;;
  status.OnCRFound ;;
  (* SetMetaData in the TigeraStatus like observedGenerations. *)
  defer (EvSetMetaData (Generation instance)) (
  (* Changes for updating Monitor status conditions. *)
  instance <-
    (if String.eqb (Name request) ResourceName && String.eqb (Namespace request) ""
     then
       got <- client.GetTigeraStatus env ResourceName ;;
       ts <- match got with
             | Fail err => return_ emptyResult (Some err)
             | Ok ts => ret ts
             end ;;
       let instance :=
         withConditions
           (ans_UpdateStatusCondition env (Status_Conditions instance) (ts_Conditions ts))
           instance in
       failed <- client.StatusUpdate KMonitor instance (updateConditionsErr env) ;;
       match failed with
       | Some err => return_ emptyResult (Some err)
       | None => ret instance
       end
     else ret instance) ;;
  got <- utils.GetInstallation env ;;
  installation <-
    match got with
    | Fail err =>
        if IsNotFound (Some err)
        then (status.SetDegraded ResourceNotFound "Installation not found" (Some err) ;;
              return_ emptyResult (Some err))
        else (status.SetDegraded ResourceReadError "Failed to query Installation" (Some err) ;;
              return_ emptyResult (Some err))
    | Ok vi => ret vi
    end ;;
  let variant := fst installation in
  let install := snd installation in
  got <- utils.GetNetworkingPullSecrets env install ;;
  pullSecrets <-
    match got with
    | Fail err =>
        (status.SetDegraded ResourceReadError "Error retrieving pull secrets" (Some err) ;;
         return_ emptyResult (Some err))
    | Ok ps => ret ps
    end ;;
  (if negb (prometheusReady r)
   then
     let err := Errorf "waiting for Prometheus resources" in
     (status.SetDegraded ResourceNotReady "Waiting for Prometheus resources to be ready" (Some err) ;;
      return_ emptyResult (Some err))
   else ret tt) ;;
  (* [err] is still the nil error of GetNetworkingPullSecrets here. *)
  let err : option error := None in
  match err with
  | Some e =>
      if IsNotFound (Some e) then ret tt
      else (status.SetDegraded ResourceReadError "Internal error attempting to retrieve ConfigMap" (Some e) ;;
            return_ emptyResult (Some e))
  | None => ret tt
  end ;;
  got <- certificatemanager.Create env install (clusterDomain r) ;;
  certificateManager <-
    match got with
    | Fail err =>
        (status.SetDegraded ResourceCreateError "Unable to create the Tigera CA" (Some err) ;;
         return_ emptyResult (Some err))
    | Ok cm => ret cm
    end ;;
  got <- certificatemanager.GetOrCreateKeyPair env PrometheusTLSSecretName OperatorNamespace
           (GetServiceDNSNames PrometheusHTTPAPIServiceName TigeraPrometheusNamespace (clusterDomain r)) ;;
  serverTLSSecret <-
    match got with
    | Fail err =>
        (status.SetDegraded ResourceCreateError "Error creating TLS certificate" (Some err) ;;
         return_ emptyResult (Some err))
    | Ok kp => ret kp
    end ;;
  got <- certificatemanager.GetOrCreateKeyPair env PrometheusClientTLSSecretName OperatorNamespace
           [PrometheusClientTLSSecretName] ;;
  clientTLSSecret <-
    match got with
    | Fail err =>
        (status.SetDegraded ResourceCreateError "Error creating TLS certificate" (Some err) ;;
         return_ emptyResult (Some err))
    | Ok kp => ret kp
    end ;;
  trustedBundle <-
    addCertificates
      [NodePrometheusTLSServerSecret; ElasticsearchMetricsServerTLSSecret; FluentdPrometheusTLSSecretName]
      (CreateTrustedBundle certificateManager []) ;;
  certificatemanager.AddToStatusManager TigeraPrometheusNamespace ;;
  (* Fetch the Authentication spec. If present, we use to configure user authentication. *)
  got <- utils.GetAuthentication env ;;
  authenticationCR <-
    match got with
    | Fail err =>
        if negb (IsNotFound (Some err))
        then (status.SetDegraded ResourceReadError "Error querying Authentication" (Some err) ;;
              return_ emptyResult (Some err))
        else ret None
    | Ok a => ret (Some a)
    end ;;
  match authenticationCR with
  | Some a =>
      if negb (String.eqb (auth_State a) TigeraStatusReady)
      then (status.SetDegraded ResourceNotReady
              ("Authentication is not ready - authenticationCR status: " +:+ auth_State a) None ;;
            return_ emptyResult None)
      else ret tt
  | None => ret tt
  end ;;
  got <- utils.GetKeyValidatorConfig env authenticationCR (clusterDomain r) ;;
  keyValidatorConfig <-
    match got with
    | Fail err =>
        (status.SetDegraded ResourceUpdateError "Failed to process the authentication CR." (Some err) ;;
         return_ emptyResult (Some err))
    | Ok k => ret k
    end ;;
  got <- utils.GetManagementClusterConnection env ;;
  managementClusterConnection <-
    match got with
    | Fail err =>
        (status.StatusManager_SetDegraded (Text "Error reading ManagementClusterConnection") (Error err) ;;
         return_ emptyResult (Some err))
    | Ok mcc => ret mcc
    end ;;
  (* Only reconcile NetworkPolicy once all of its requirements are met. *)
  let monitorReconcilesV3NetworkPolicyRequirements :=
    match managementClusterConnection with Some _ => true | None => false end
    && negb (UseCertificateManagement (cm_KeyPair certificateManager)) in
  includeV3NetworkPolicy <-
    (if monitorReconcilesV3NetworkPolicyRequirements then
       (* Only wait for and render NetworkPolicy once all NetworkPolicy requirements are met.
          Do not degrade if tier has not been created. *)
       reconcilable <- utils.IsV3NetworkPolicyReconcilable env TigeraComponentTierName ;;
       if reconcilable then (waitForWatches r ;; ret true) else ret false
     else
       (* Wait for and render NetworkPolicy as usual. *)
       waitForWatches r ;;
       (* Ensure the allow-tigera tier exists, before rendering any network policies within it. *)
       failed <- client.GetTier env TigeraComponentTierName ;;
       match failed with
       | Some err =>
           if IsNotFound (Some err)
           then (status.StatusManager_SetDegraded (Text "Waiting for allow-tigera tier to be created") (Error err) ;;
                 return_ (requeueAfter (10 * Second)) None)
           else (status.StatusManager_SetDegraded (Text "Error querying allow-tigera tier") (Error err) ;;
                 return_ emptyResult (Some err))
       | None => ret true
       end) ;;
  got <- readAlertmanagerConfigSecret ;;
  alertmanager <-
    match got with
    | Fail err =>
        (status.SetDegraded ResourceReadError "Error retrieving Alertmanager configuration secret" (Some err) ;;
         return_ emptyResult (Some err))
    | Ok sf => ret sf
    end ;;
  let alertmanagerConfigSecret := fst alertmanager in
  let createInOperatorNamespace := snd alertmanager in
  let monitorCfg :=
    {| mon_Installation := install;
       mon_PullSecrets := pullSecrets;
       mon_AlertmanagerConfigSecret := alertmanagerConfigSecret;
       mon_KeyValidatorConfig := keyValidatorConfig;
       mon_ServerTLSSecret := serverTLSSecret;
       mon_ClientTLSSecret := clientTLSSecret;
       mon_ClusterDomain := clusterDomain r;
       mon_TrustedCertBundle := trustedBundle;
       mon_Openshift := isOpenShift (provider r);
       mon_IncludeV3NetworkPolicy := includeV3NetworkPolicy |} in
  (* Render prometheus component *)
  let components :=
    [MonitorComponent monitorCfg;
     CertificateManagement
       {| cmc_Namespace := TigeraPrometheusNamespace;
          cmc_ServiceAccounts := [PrometheusServiceAccountName];
          cmc_KeyPairOptions :=
            [NewKeyPairOption (Some serverTLSSecret) true true;
             NewKeyPairOption (Some clientTLSSecret) true true];
          cmc_TrustedBundle := Some trustedBundle |}] in
  let components :=
    if createInOperatorNamespace
    then components ++ [NewPassthrough alertmanagerConfigSecret]
    else components in
  failed <- imageset.ApplyImageSet env variant components ;;
  match failed with
  | Some err =>
      (status.SetDegraded ResourceUpdateError "Error with images from ImageSet" (Some err) ;;
       return_ emptyResult (Some err))
  | None => ret tt
  end ;;
  rangeComponents env (status.SetDegraded ResourceUpdateError "Error creating / updating resource") components ;;
  (* Tell the status manager that we're ready to monitor the resources we've told it about. *)
  status.ReadyToMonitor ;;
  status.ClearDegraded ;;
  available <- status.IsAvailable env ;;
  if negb available then
    (* Schedule a kick to check again in the near future. *)
    return_ (requeueAfter (30 * Second)) None
  else
    let instance := withState TigeraStatusReady instance in
    failed <- client.StatusUpdate KMonitor instance (updateStateErr env) ;;
    match failed with
    | Some err =>
        (status.SetDegraded ResourceUpdateError
           ("Error updating the monitor status " +:+ TigeraStatusReady) (Some err) ;;
         return_ emptyResult (Some err))
    | None => return_ emptyResult None
    end).
End Reconciler.
End monitor.

(** ** package compliance *)
Module compliance.

Definition ResourceName : string := "compliance".

(** [ReconcileCompliance]; the two ready flags are what [IsReady()] answers
    during this reconcile. *)
Record ReconcileCompliance := {
  provider : Provider;
  clusterDomain : string;
  licenseAPIReady : bool;
  policyWatchesReady : bool;
  usePSP : bool
}.

Section Setup.
Context `{Names} (setupErr : SetupCall -> option error).
Local Open Scope setup_scope.

(** [func newReconciler(mgr, opts, licenseAPIReady, policyWatchesReady)];
    the two flags start unset. *)
Definition newReconciler (opts : AddOptions) : Setup ReconcileCompliance :=
  call (status_New "compliance") ;;
  call status_Run ;;
  sret {| provider := DetectedProvider opts;
          clusterDomain := ClusterDomain opts;
          licenseAPIReady := false;
          policyWatchesReady := false;
          usePSP := UsePSP opts |}.

(** [func add(mgr, c controller.Controller) error]: watches for resources
    that are available at startup. *)
Definition add : Setup unit :=
  (* Watch for changes to primary resource Compliance *)
  try setupErr (Watch WCompliance) (fun err => err) ;;
  try setupErr AddNetworkWatch (wrapf "compliance-controller failed to watch Network resource: ") ;;
  try setupErr AddImageSetWatch (wrapf "compliance-controller failed to watch ImageSet: ") ;;
  try setupErr AddAPIServerWatch (wrapf "compliance-controller failed to watch APIServer resource: ") ;;
  (* Watch the given secrets in each both the compliance and operator namespaces *)
  sfor [OperatorNamespace; ComplianceNamespace] (fun namespace =>
    sfor [TigeraElasticsearchGatewaySecret; ElasticsearchComplianceBenchmarkerUserSecret;
          ElasticsearchComplianceControllerUserSecret; ElasticsearchComplianceReporterUserSecret;
          ElasticsearchComplianceSnapshotterUserSecret; ElasticsearchComplianceServerUserSecret;
          ComplianceServerCertSecret; ManagerInternalTLSSecretName; CASecretName]
      (fun secretName =>
         try setupErr (AddSecretsWatch secretName namespace)
           (wrapf ("compliance-controller failed to watch the secret '" +:+ secretName +:+ "' in '"
                   +:+ namespace +:+ "' namespace: ")))) ;;
  try setupErr (AddConfigMapWatch ClusterConfigConfigMapName OperatorNamespace)
    (wrapf "compliance-controller failed to watch the ConfigMap resource: ") ;;
  (* Watch for changes to primary resource ManagementCluster *)
  try setupErr (Watch WManagementCluster) (wrapf "compliance-controller failed to watch primary resource: ") ;;
  (* Watch for changes to primary resource ManagementClusterConnection *)
  try setupErr (Watch WManagementClusterConnection)
    (wrapf "compliance-controller failed to watch primary resource: ") ;;
  try setupErr (Watch WAuthentication) (wrapf "compliance-controller failed to watch resource: ") ;;
  (* Watch for changes to TigeraStatus. *)
  try setupErr (AddTigeraStatusWatch ResourceName)
    (wrapf "compliance-controller failed to watch compliance Tigerastatus: ").

(** [func Add(mgr, opts) error]. *)
Definition Add (opts : AddOptions) : Setup unit :=
  if negb (EnterpriseCRDExists opts) then
    (* No need to start this controller. *)
    sret tt
  else
    (* create the reconciler *)
    reconciler <- newReconciler opts ;;
    (* Create a new controller *)
    try setupErr (controller_New "compliance-controller") (fun err => err) ;;
    try setupErr kubernetes_NewForConfig (fun err => err) ;;
    call (go WaitToAddLicenseKeyWatch) ;;
    call (go (WaitToAddNetworkPolicyWatches
                [(ComplianceAccessPolicyName, ComplianceNamespace);
                 (ComplianceServerPolicyName, ComplianceNamespace);
                 (TigeraComponentDefaultDenyPolicyName, ComplianceNamespace)])) ;;
    add.
End Setup.

Section Reconciler.
Context `{Names} (env : Env).

(** [func GetCompliance(ctx, cli)]. *)
Definition GetCompliance : M (res CustomResource) := client.GetPrimary env KCompliance.

Definition SetDegraded (reason : TigeraStatusReason) (message : string) (err : option error) : M unit :=
  let errormsg := match err with Some e => Error e | None => "" end in
  status.StatusManager_SetDegraded (Typed reason) (message +:+ " - Error: " +:+ errormsg).

(** [func (r *ReconcileCompliance) Reconcile(ctx, request)]. *)
Definition Reconcile (r : ReconcileCompliance) (request : Request) : M unit :=
  (* Fetch the Compliance instance *)
  got <- GetCompliance ;;
  instance <-
    match got with
    | Fail err =>
        if IsNotFound (Some err)
        then
          (* Request object not found, could have been deleted after reconcile request.
             Return and don't requeue *)
          (status.OnCRNotFound ;; return_ emptyResult None)
        else (SetDegraded ResourceReadError "Error querying compliance" (Some err) ;;
              return_ emptyResult (Some err))
    | Ok instance => ret instance
    end ;;
  status.OnCRFound ;;
  (* Set the meta info in the tigerastatus like observedGenerations *)
  defer (EvSetMetaData (Generation instance)) (
  (* Changes for updating compliance status conditions *)
  instance <-
    (if String.eqb (Name request) ResourceName && String.eqb (Namespace request) ""
     then
       got <- client.GetTigeraStatus env ResourceName ;;
       ts <- match got with
             | Fail err => return_ emptyResult (Some err)
             | Ok ts => ret ts
             end ;;
       let instance :=
         withConditions
           (ans_UpdateStatusCondition env (Status_Conditions instance) (ts_Conditions ts))
           instance in
       failed <- client.StatusUpdate KCompliance instance (updateConditionsErr env) ;;
       match failed with
       | Some err => return_ emptyResult (Some err)
       | None => ret instance
       end
     else ret instance) ;;
  ready <- utils.IsAPIServerReady env ;;
  (if negb ready
   then
     (* the [err] returned here is the nil error of GetCompliance *)
     (status.StatusManager_SetDegraded (Typed ResourceNotReady) "Waiting for Tigera API server to be ready" ;;
      return_ emptyResult None)
   else ret tt) ;;
  (if negb (policyWatchesReady r)
   then (status.StatusManager_SetDegraded (Text "Waiting for NetworkPolicy watches to be established") "" ;;
         return_ (requeueAfter (10 * Second)) None)
   else ret tt) ;;
  (* Ensure the allow-tigera tier exists, before rendering any network policies within it. *)
  failed <- client.GetTier env TigeraComponentTierName ;;
  match failed with
  | Some err =>
      if IsNotFound (Some err)
      then (status.StatusManager_SetDegraded (Text "Waiting for allow-tigera tier to be created") (Error err) ;;
            return_ (requeueAfter (10 * Second)) None)
      else (status.StatusManager_SetDegraded (Text "Error querying allow-tigera tier") (Error err) ;;
            return_ emptyResult (Some err))
  | None => ret tt
  end ;;
  (if negb (licenseAPIReady r)
   then (status.StatusManager_SetDegraded (Typed ResourceNotReady) "Waiting for LicenseKeyAPI to be ready" ;;
         return_ (requeueAfter (10 * Second)) None)
   else ret tt) ;;
  got <- utils.FetchLicenseKey env ;;
  license <-
    match got with
    | Fail err =>
        if IsNotFound (Some err)
        then (SetDegraded ResourceNotFound "License not found" (Some err) ;;
              return_ (requeueAfter (10 * Second)) None)
        else (SetDegraded ResourceReadError "Error querying license" (Some err) ;;
              return_ (requeueAfter (10 * Second)) None)
    | Ok l => ret l
    end ;;
  (* Query for the installation object. *)
  got <- utils.GetInstallation env ;;
  installation <-
    match got with
    | Fail err =>
        if IsNotFound (Some err)
        then (SetDegraded ResourceNotFound "Installation not found" (Some err) ;;
              return_ emptyResult (Some err))
        else (SetDegraded ResourceReadError "Error querying installation" (Some err) ;;
              return_ emptyResult (Some err))
    | Ok vn => ret vn
    end ;;
  let variant := fst installation in
  let network := snd installation in
  got <- utils.GetNetworkingPullSecrets env network ;;
  pullSecrets <-
    match got with
    | Fail err =>
        (SetDegraded ResourceReadError "Failed to retrieve pull secrets" (Some err) ;;
         return_ emptyResult (Some err))
    | Ok ps => ret ps
    end ;;
  got <- utils.GetElasticsearchClusterConfig env ;;
  esClusterConfig <-
    match got with
    | Fail err =>
        if IsNotFound (Some err)
        then (SetDegraded ResourceNotReady
                "Elasticsearch cluster configuration is not available, waiting for it to become available"
                (Some err) ;;
              return_ emptyResult None)
        else (SetDegraded ResourceReadError "Failed to get the elasticsearch cluster configuration" (Some err) ;;
              return_ emptyResult (Some err))
    | Ok cfg => ret cfg
    end ;;
  let secretsToWatch :=
    [ElasticsearchComplianceBenchmarkerUserSecret; ElasticsearchComplianceControllerUserSecret;
     ElasticsearchComplianceReporterUserSecret; ElasticsearchComplianceSnapshotterUserSecret] in
  got <- utils.GetManagementCluster env ;;
  managementCluster <-
    match got with
    | Fail err =>
        (SetDegraded ResourceReadError "Error reading ManagementCluster" (Some err) ;;
         return_ emptyResult (Some err))
    | Ok mc => ret mc
    end ;;
  got <- utils.GetManagementClusterConnection env ;;
  managementClusterConnection <-
    match got with
    | Fail err =>
        (SetDegraded ResourceReadError "Error reading ManagementClusterConnection" (Some err) ;;
         return_ emptyResult (Some err))
    | Ok mcc => ret mcc
    end ;;
  match managementClusterConnection, managementCluster with
  | Some _, Some _ =>
      let err := Errorf "having both a ManagementCluster and a ManagementClusterConnection is not supported" in
      (SetDegraded ResourceValidationError "" (Some err) ;;
       return_ emptyResult (Some err))
  | _, _ => ret tt
  end ;;
  (* Compliance server is only for Standalone or Management clusters *)
  let secretsToWatch :=
    match managementClusterConnection with
    | None => secretsToWatch ++ [ElasticsearchComplianceServerUserSecret]
    | Some _ => secretsToWatch
    end in
  got <- utils.ElasticsearchSecrets env secretsToWatch ;;
  esSecrets <-
    match got with
    | Fail err =>
        if IsNotFound (Some err)
        then (SetDegraded ResourceNotReady
                "Elasticsearch secrets are not available yet, waiting until they become available"
                (Some err) ;;
              return_ emptyResult None)
        else (SetDegraded ResourceReadError "Failed to get Elasticsearch credentials" (Some err) ;;
              return_ emptyResult (Some err))
    | Ok l => ret l
    end ;;
  got <- certificatemanager.Create env network (clusterDomain r) ;;
  certificateManager <-
    match got with
    | Fail err =>
        (SetDegraded ResourceCreateError "Unable to create the Tigera CA" (Some err) ;;
         return_ emptyResult (Some err))
    | Ok cm => ret cm
    end ;;
  managerInternalTLSSecret <-
    match managementCluster with
    | Some _ =>
        got <- certificatemanager.GetCertificate env ManagerInternalTLSSecretName OperatorNamespace ;;
        match got with
        | Fail err =>
            (SetDegraded ResourceValidationError
               ("failed to retrieve / validate  " +:+ ManagerInternalTLSSecretName) (Some err) ;;
             return_ emptyResult (Some err))
        | Ok cert => ret cert
        end
    | None => ret None
    end ;;
  got <- certificatemanager.GetCertificate env PublicCertSecret OperatorNamespace ;;
  esgwCertificate <-
    match got with
    | Fail err =>
        (SetDegraded ResourceValidationError
           ("Failed to retrieve / validate  " +:+ PublicCertSecret) (Some err) ;;
         return_ emptyResult (Some err))
    | Ok None =>
        (status.StatusManager_SetDegraded (Typed ResourceNotReady)
           "Elasticsearch gateway certificate are not available yet, waiting until they become available" ;;
         return_ emptyResult None)
    | Ok (Some cert) => ret (Some cert)
    end ;;
  let trustedBundle := CreateTrustedBundle certificateManager [managerInternalTLSSecret; esgwCertificate] in
  complianceServerCertSecret <-
    match managementClusterConnection with
    | None =>
        got <- certificatemanager.GetOrCreateKeyPair env ComplianceServerCertSecret OperatorNamespace
                 (GetServiceDNSNames ComplianceServiceName ComplianceNamespace (clusterDomain r)) ;;
        match got with
        | Fail err =>
            (SetDegraded ResourceValidationError
               ("failed to retrieve / validate  " +:+ ComplianceServerCertSecret) (Some err) ;;
             return_ emptyResult (Some err))
        | Ok kp => ret (Some kp)
        end
    | Some _ => ret None
    end ;;
  certificatemanager.AddToStatusManager ComplianceNamespace ;;
  (* Fetch the Authentication spec. If present, we use to configure user authentication. *)
  got <- utils.GetAuthentication env ;;
  authenticationCR <-
    match got with
    | Fail err =>
        if negb (IsNotFound (Some err))
        then (SetDegraded ResourceReadError "Error querying Authentication" (Some err) ;;
              return_ emptyResult (Some err))
        else ret None
    | Ok a => ret (Some a)
    end ;;
  match authenticationCR with
  | Some a =>
      if negb (String.eqb (auth_State a) TigeraStatusReady)
      then (status.StatusManager_SetDegraded (Typed ResourceNotReady)
              ("Authentication is not ready - authenticationCR status: " +:+ auth_State a) ;;
            return_ emptyResult None)
      else ret tt
  | None => ret tt
  end ;;
  got <- utils.GetKeyValidatorConfig env authenticationCR (clusterDomain r) ;;
  keyValidatorConfig <-
    match got with
    | Fail err =>
        (SetDegraded ResourceValidationError "Failed to process the authentication CR." (Some err) ;;
         return_ emptyResult (Some err))
    | Ok k => ret k
    end ;;
  let hasNoLicense := negb (utils.IsFeatureActive env license ComplianceFeature) in
  let openshift := isOpenShift (provider r) in
  let complianceCfg :=
    {| cc_ESSecrets := esSecrets;
       cc_TrustedBundle := trustedBundle;
       cc_Installation := network;
       cc_ComplianceServerCertSecret := complianceServerCertSecret;
       cc_ESClusterConfig := esClusterConfig;
       cc_PullSecrets := pullSecrets;
       cc_Openshift := openshift;
       cc_ManagementCluster := managementCluster;
       cc_ManagementClusterConnection := managementClusterConnection;
       cc_KeyValidatorConfig := keyValidatorConfig;
       cc_ClusterDomain := clusterDomain r;
       cc_HasNoLicense := hasNoLicense;
       cc_UsePSP := usePSP r |} in
  (* Render the desired objects from the CRD and create or update them. *)
  comp <-
    match render.Compliance env complianceCfg with
    | Fail err =>
        (SetDegraded ResourceRenderingError "Error rendering Compliance" (Some err) ;;
         return_ emptyResult (Some err))
    | Ok comp => ret comp
    end ;;
  failed <- imageset.ApplyImageSet env variant [comp] ;;
  match failed with
  | Some err =>
      (SetDegraded ResourceUpdateError "Error with images from ImageSet" (Some err) ;;
       return_ emptyResult (Some err))
  | None => ret tt
  end ;;
  let certificateComponent :=
    CertificateManagement
      {| cmc_Namespace := ComplianceNamespace;
         cmc_ServiceAccounts := [ComplianceServerSAName];
         cmc_KeyPairOptions := [NewKeyPairOption complianceServerCertSecret true true];
         cmc_TrustedBundle := Some trustedBundle |} in
  rangeComponents env (SetDegraded ResourceUpdateError "Error creating / updating / deleting resource")
    [comp; certificateComponent] ;;
  (if hasNoLicense
   then (status.StatusManager_SetDegraded (Typed ResourceValidationError)
           "Feature is not active - License does not support this feature" ;;
         return_ emptyResult None)
   else ret tt) ;;
  (* Clear the degraded bit if we've reached this far. *)
  status.ClearDegraded ;;
  available <- status.IsAvailable env ;;
  if negb available then
    (* Schedule a kick to check again in the near future. *)
    return_ (requeueAfter (30 * Second)) None
  else
    (* Everything is available - update the CRD status. *)
    let instance := withState TigeraStatusReady instance in
    failed <- client.StatusUpdate KCompliance instance (updateStateErr env) ;;
    match failed with
    | Some err => return_ emptyResult (Some err)
    | None => return_ emptyResult None
    end).
End Reconciler.
End compliance.

(** * Properties of the reconcilers *)

(** ** Decidable readings of a reconcile *)

Definition error_eqb (a b : error) : bool :=
  Bool.eqb (notFound a) (notFound b) && String.eqb (Error a) (Error b).

Definition Result_eqb (a b : Result) : bool :=
  Bool.eqb (Requeue a) (Requeue b) && Z.eqb (RequeueAfter a) (RequeueAfter b).

Definition isNil {A} (o : option A) : bool :=
  match o with None => true | Some _ => false end.

Definition errIs (e : error) (o : option error) : bool :=
  match o with Some e' => error_eqb e' e | None => false end.

Definition isEmpty {A} (l : list A) : bool :=
  match l with [] => true | _ => false end.

Definition Kind_eqb (a b : Kind) : bool :=
  match a, b with
  | KAPIServer, KAPIServer | KMonitor, KMonitor | KCompliance, KCompliance => true
  | _, _ => false
  end.

Definition isOnCRNotFound (e : Event) : bool :=
  match e with EvOnCRNotFound => true | _ => false end.
Definition isClearDegraded (e : Event) : bool :=
  match e with EvClearDegraded => true | _ => false end.
Definition isSetMetaData (e : Event) : bool :=
  match e with EvSetMetaData _ => true | _ => false end.
Definition isLicenseKey (r : Resource) : bool :=
  match r with RLicenseKey => true | _ => false end.
Definition isManagementClusterConnection (r : Resource) : bool :=
  match r with RManagementClusterConnection => true | _ => false end.

(** The last update of a status subresource in the trace. *)
Fixpoint lastStatusUpdate (t : list Event) : option (Kind * CustomResource) :=
  match t with
  | [] => None
  | e :: rest =>
      match lastStatusUpdate rest with
      | Some u => Some u
      | None =>
          match e with
          | EvStatusUpdate k i => Some (k, i)
          | _ => None
          end
      end
  end.

(** The last update of a status subresource is that of the primary resource
    of kind [k], with [Status.State] set to [TigeraStatusReady]. *)
Definition updatesToReady (k : Kind) (t : list Event) : bool :=
  match lastStatusUpdate t with
  | Some (k', i) => Kind_eqb k k' && String.eqb (Status_State i) TigeraStatusReady
  | None => false
  end.

(** [SetDegraded] with the validation reason of the management cluster check. *)
Definition isValidationDegraded (e : Event) : bool :=
  match e with
  | EvSetDegraded (Typed ResourceValidationError) _ => true
  | _ => false
  end.

(** The degraded statuses of the waiting guards: the Tier watch, the
    NetworkPolicy watches, the allow-tigera tier, the LicenseKey API. *)
Definition isWaitingGuard (e : Event) : bool :=
  match e with
  | EvSetDegraded (Text s) _ =>
      String.eqb s "Waiting for Tier watch to be established"
      || String.eqb s "Waiting for NetworkPolicy watches to be established"
      || String.eqb s "Waiting for allow-tigera tier to be created"
  | EvSetDegraded (Typed ResourceNotReady) m =>
      String.eqb m "Waiting for LicenseKeyAPI to be ready"
  | _ => false
  end.

(** Once a degraded status is set, the reconcile returns: nothing follows
    it in the trace but the deferred [SetMetaData]. *)
Fixpoint returnsAtDegraded (t : list Event) : bool :=
  match t with
  | [] => true
  | EvSetDegraded _ _ :: rest => forallb isSetMetaData rest
  | _ :: rest => returnsAtDegraded rest
  end.

(** The request that makes a reconciler copy the TigeraStatus conditions. *)
Definition isConditionsRequest (resourceName : string) (request : Request) : bool :=
  String.eqb (Name request) resourceName && String.eqb (Namespace request) "".

(** A reconcile that hands nothing to the handler has set a degraded
    status, or has found no primary resource, or serves the conditions
    request ([conditionsRequest]). *)
Definition quietExit (conditionsRequest : bool) (t : list Event) : bool :=
  negb (isEmpty (applied t))
  || existsb isSetDegraded t
  || existsb isOnCRNotFound t
  || conditionsRequest.

(** What follows [ClearDegraded]: a requeue after 30 seconds with a nil
    error when the status manager is not [available], else the update of
    the status to Ready and an empty result. *)
Definition afterClearDegraded (available : bool) (k : Kind) (r : Reconciled) : bool :=
  implb (existsb isClearDegraded (trace r))
    (if available
     then Result_eqb (result r) emptyResult && updatesToReady k (trace r)
     else Result_eqb (result r) (requeueAfter (30 * Second)) && isNil (err r)).

(** A waiting guard that fails requeues after 10 seconds with a nil error. *)
Definition waitingRequeues (r : Reconciled) : bool :=
  implb (existsb isWaitingGuard (trace r))
    (Result_eqb (result r) (requeueAfter (10 * Second)) && isNil (err r)).

Definition bothManagementResources (env : Env) : bool :=
  match ans_GetManagementCluster env, ans_GetManagementClusterConnection env with
  | Ok (Some _), Ok (Some _) => true
  | _, _ => false
  end.

Definition bothNotSupported : error :=
  Errorf "having both a ManagementCluster and a ManagementClusterConnection is not supported".

(** When the reconcile reads the ManagementClusterConnection and [both]
    resources exist, it stops with the validation error and applies nothing. *)
Definition rejectsBoth (both : bool) (r : Reconciled) : bool :=
  implb (both && existsb (isFetchOf isManagementClusterConnection) (trace r))
    (errIs bothNotSupported (err r)
     && Result_eqb (result r) emptyResult
     && existsb isValidationDegraded (trace r)
     && isEmpty (applied (trace r))).

(** The first event is the fetch of the primary resource of kind [k]. *)
Definition startsWithPrimaryFetch (k : Kind) (t : list Event) : bool :=
  match t with
  | EvFetch (RPrimary k') :: _ => Kind_eqb k k'
  | _ => false
  end.

(** No LicenseKey is fetched. *)
Definition noLicenseFetch (t : list Event) : bool :=
  negb (existsb (isFetchOf isLicenseKey) t).

(** Whatever is handed to the handler, the LicenseKey was fetched before. *)
Definition licenseFetched (t : list Event) : bool :=
  isEmpty (applied t) || existsb (isFetchOf isLicenseKey) t.

(** ** The three controllers as one type *)

(** [reconcile.Reconciler], which the three reconcilers implement. *)
Inductive Controller :=
| APIServerController (r : apiserver.ReconcileAPIServer)
| MonitorController (r : monitor.ReconcileMonitor)
| ComplianceController (r : compliance.ReconcileCompliance).

Definition kindOf (ctl : Controller) : Kind :=
  match ctl with
  | APIServerController _ => KAPIServer
  | MonitorController _ => KMonitor
  | ComplianceController _ => KCompliance
  end.

Definition resourceNameOf (ctl : Controller) : string :=
  match ctl with
  | APIServerController _ => apiserver.ResourceName
  | MonitorController _ => monitor.ResourceName
  | ComplianceController _ => compliance.ResourceName
  end.

Definition Reconcile `{Names} (env : Env) (ctl : Controller) (request : Request) : M unit :=
  match ctl with
  | APIServerController r => apiserver.Reconcile env r request
  | MonitorController r => monitor.Reconcile env r request
  | ComplianceController r => compliance.Reconcile env r request
  end.

(** The readings every reconcile of a controller passes. *)
Definition apiserver_checks (conditionsRequest available both : bool) (R : Reconciled) : bool :=
  startsWithPrimaryFetch KAPIServer (trace R)
  && returnsAtDegraded (trace R)
  && quietExit conditionsRequest (trace R)
  && afterClearDegraded available KAPIServer R
  && noLicenseFetch (trace R)
  && rejectsBoth both R.

Definition monitor_checks (conditionsRequest available : bool) (R : Reconciled) : bool :=
  startsWithPrimaryFetch KMonitor (trace R)
  && returnsAtDegraded (trace R)
  && quietExit conditionsRequest (trace R)
  && afterClearDegraded available KMonitor R
  && noLicenseFetch (trace R)
  && waitingRequeues R.

Definition compliance_checks (conditionsRequest available both : bool) (R : Reconciled) : bool :=
  startsWithPrimaryFetch KCompliance (trace R)
  && returnsAtDegraded (trace R)
  && quietExit conditionsRequest (trace R)
  && afterClearDegraded available KCompliance R
  && licenseFetched (trace R)
  && waitingRequeues R
  && rejectsBoth both R.

(** The watches [apiserver.add] keeps for the enterprise resources:
    ManagementCluster, ManagementClusterConnection, the Voltron tunnel
    secret and Authentication. *)
Definition isEnterpriseWatch `{Names} (c : SetupCall) : bool :=
  match c with
  | Watch WManagementCluster | Watch WManagementClusterConnection | Watch WAuthentication => true
  | AddSecretsWatch name _ => String.eqb name VoltronTunnelSecretName
  | _ => false
  end.

(** The secrets [apiserver.add] watches whatever the flags are. *)
Definition alwaysWatchedSecrets `{Names} : list string :=
  ["calico-apiserver-certs"; "tigera-apiserver-certs"; PacketCaptureCertSecret;
   CASecretName; DexTLSSecretName].

(** ** A second reconcile on the cluster the first one leaves *)

(** The secrets of the passthrough components among [cs], and the
    components that are rendered from a configuration. *)
Fixpoint passthroughs (cs : list Component) : list Secret :=
  match cs with
  | [] => []
  | NewPassthrough s :: rest => s :: passthroughs rest
  | _ :: rest => passthroughs rest
  end.

Fixpoint rendered (cs : list Component) : list Component :=
  match cs with
  | [] => []
  | NewPassthrough _ :: rest => rendered rest
  | c :: rest => c :: rendered rest
  end.

(** A reconcile, and the same reconcile again on the cluster it leaves. *)
Definition twice (m : M unit) (c : Cluster) : Reconciled * Reconciled :=
  match reconciled m c with
  | Build_Reconciled r e c1 t => (Build_Reconciled r e c1 t, reconciled m c1)
  end.

(** The secrets of [l] are in the cluster [c], each under its name and
    namespace. *)
Fixpoint allStored (c : Cluster) (l : list Secret) : Prop :=
  match l with
  | [] => True
  | s :: rest => lookupSecret (s_Name s) (s_Namespace s) c = Some s /\ allStored c rest
  end.

(** When the first reconcile returns no error, neither does the second; it
    returns the same result, leaves the secrets of the cluster as they are
    and hands the handler the same rendered components.  The passthrough
    secrets the first reconcile has handed over are in the cluster it
    leaves, and the second reconcile hands over none; [fault] is the error
    of reading the key pair of the tunnel secret, with which the second
    reconcile makes the secret anew as the first one did. *)
Definition secondRunAgrees (fault : option error) (RR : Reconciled * Reconciled) : Prop :=
  err (fst RR) = None ->
  err (snd RR) = None
  /\ result (snd RR) = result (fst RR)
  /\ secrets (after (snd RR)) = secrets (after (fst RR))
  /\ rendered (applied (trace (snd RR))) = rendered (applied (trace (fst RR)))
  /\ allStored (after (fst RR)) (passthroughs (applied (trace (fst RR))))
  /\ match fault with
     | None => passthroughs (applied (trace (snd RR))) = []
     | Some _ =>
         passthroughs (applied (trace (snd RR))) = passthroughs (applied (trace (fst RR)))
     end.

(** A passthrough component carries no image: the answer of
    [imageset.ApplyImageSet] does not depend on it. *)
Definition imagesIgnorePassthrough (env : Env) : Prop :=
  forall v cs, ans_ApplyImageSet env v cs = ans_ApplyImageSet env v (rendered cs).

(** The passthrough secrets a Monitor reconcile [R] hands to the handler,
    against the answer [A] of [readAlertmanagerConfigSecret]: the secret
    when the flag is true (none if the reconcile stops before it clears the
    degraded status), none otherwise. *)
Definition passthroughWhenFlagged (R : Reconciled) (A : Outcome (res (Secret * bool))) : Prop :=
  match A with
  | Next (Ok (s, true)) =>
      passthroughs (applied (trace R)) = [s]
      \/ (passthroughs (applied (trace R)) = [] /\ existsb isClearDegraded (trace R) = false)
  | _ => passthroughs (applied (trace R)) = []
  end.

(** The [defaultConfigSecret] of [readAlertmanagerConfigSecret]. *)
Definition defaultConfigSecret `{Names} : Secret :=
  {| s_Name := AlertmanagerConfigSecret;
     s_Namespace := OperatorNamespace;
     s_Data := {[ "alertmanager.yaml" := alertmanagerConfig ]} |}.

(** ** The copy of the TigeraStatus conditions *)

(** What a reconcile does up to the update of the conditions: it reads the
    primary resource and the TigeraStatus named [name], and writes
    [updated] to the status subresource. *)
Definition conditionsPrefix (k : Kind) (name : string) (updated : CustomResource) : list Event :=
  [EvFetch (RPrimary k); EvOnCRFound; EvFetch (RTigeraStatus name); EvStatusUpdate k updated].

(** The reconcile goes on after [pre]: its next step reads [next]. *)
Definition continuesWith (next : Resource) (pre t : list Event) : Prop :=
  exists rest, t = pre ++ EvFetch next :: rest.

(** The conditions of the first update of a status subresource. *)
Fixpoint conditionsWritten (t : list Event) : option (list Condition) :=
  match t with
  | [] => None
  | EvStatusUpdate _ i :: _ => Some (Status_Conditions i)
  | _ :: rest => conditionsWritten rest
  end.

(** Every condition of [l] carries the observed generation [generation]. *)
Definition allObserve (generation : Z) (l : list Condition) : Prop :=
  Forall (fun c => c_ObservedGeneration c = generation) l.

(** ** A concrete installation, for examples *)

Definition demoNames : Names :=
  {| OperatorNamespace := "tigera-operator";
     TigeraPrometheusNamespace := "tigera-prometheus";
     ComplianceFeature := "compliance-reports";
     APIServerNamespace := fun v =>
       match v with TigeraSecureEnterprise => "tigera-system" | _ => "calico-apiserver" end;
     ProjectCalicoApiServerTLSSecretName := fun v =>
       match v with TigeraSecureEnterprise => "tigera-apiserver-certs" | _ => "calico-apiserver-certs" end;
     ProjectCalicoApiServerServiceName := fun v =>
       match v with TigeraSecureEnterprise => "tigera-api" | _ => "calico-api" end;
     ApiServerServiceAccountName := fun v =>
       match v with TigeraSecureEnterprise => "tigera-apiserver" | _ => "calico-apiserver" end;
     GetServiceDNSNames := fun svc ns domain =>
       [svc; svc +:+ "." +:+ ns; svc +:+ "." +:+ ns +:+ ".svc"; svc +:+ "." +:+ ns +:+ ".svc." +:+ domain];
     K8sSvcEndpointConfigMapName := "kubernetes-services-endpoint";
     VoltronTunnelSecretName := "tigera-management-cluster-connection";
     PacketCaptureCertSecret := "tigera-packetcapture-server-tls";
     PacketCaptureServiceName := "tigera-packetcapture";
     PacketCaptureNamespace := "tigera-packetcapture";
     PacketCaptureServiceAccountName := "tigera-packetcapture";
     DexTLSSecretName := "tigera-dex-tls";
     CASecretName := "tigera-ca-private";
     FluentdPrometheusTLSSecretName := "tigera-fluentd-prometheus-tls";
     NodePrometheusTLSServerSecret := "calico-node-prometheus-server-tls";
     ElasticsearchMetricsServerTLSSecret := "tigera-ee-elasticsearch-metrics-tls";
     ManagerInternalTLSSecretName := "internal-manager-tls";
     ComplianceNamespace := "tigera-compliance";
     ComplianceServerCertSecret := "tigera-compliance-server-tls";
     ComplianceServiceName := "compliance";
     ComplianceServerSAName := "tigera-compliance-server";
     ComplianceAccessPolicyName := "allow-tigera.compliance-access";
     ComplianceServerPolicyName := "allow-tigera.compliance-server";
     TigeraElasticsearchGatewaySecret := "tigera-secure-es-gateway-http-certs-public";
     ElasticsearchComplianceBenchmarkerUserSecret := "tigera-ee-compliance-benchmarker-elasticsearch-access";
     ElasticsearchComplianceControllerUserSecret := "tigera-ee-compliance-controller-elasticsearch-access";
     ElasticsearchComplianceReporterUserSecret := "tigera-ee-compliance-reporter-elasticsearch-access";
     ElasticsearchComplianceSnapshotterUserSecret := "tigera-ee-compliance-snapshotter-elasticsearch-access";
     ElasticsearchComplianceServerUserSecret := "tigera-ee-compliance-server-elasticsearch-access";
     ClusterConfigConfigMapName := "tigera-secure-elasticsearch";
     PublicCertSecret := "tigera-secure-es-gateway-http-certs-public";
     TigeraComponentTierName := "allow-tigera";
     TigeraComponentDefaultDenyPolicyName := "allow-tigera.default-deny";
     PrometheusPolicyName := "allow-tigera.prometheus";
     PrometheusAPIPolicyName := "allow-tigera.tigera-prometheus-api";
     PrometheusOperatorPolicyName := "allow-tigera.prometheus-operator";
     AlertManagerPolicyName := "allow-tigera.calico-node-alertmanager";
     MeshAlertManagerPolicyName := "allow-tigera.calico-node-alertmanager-mesh";
     CalicoNodeAlertmanager := "calico-node-alertmanager";
     CalicoNodePrometheus := "calico-node-prometheus";
     PrometheusTLSSecretName := "calico-node-prometheus-tls";
     PrometheusClientTLSSecretName := "calico-node-prometheus-client-tls";
     PrometheusHTTPAPIServiceName := "prometheus-http-api";
     PrometheusServiceAccountName := "prometheus";
     AlertmanagerConfigSecret := "alertmanager-calico-node-alertmanager";
     alertmanagerConfig := "global: {}" |}.

Definition demoKeyPair (name : string) : KeyPair :=
  {| kp_Name := name; kp_Data := {[ "tls.crt" := "cert"; "tls.key" := "key" ]};
     UseCertificateManagement := false |}.

(** An oracle without faults: the installation has the given variant, the
    management cluster resources are as given, the status manager answers
    [available]. *)
Definition demoEnv (variant : ProductVariant)
    (mc : option ManagementCluster) (mcc : option ManagementClusterConnection)
    (available : bool) : Env :=
  {| getPrimaryErr := None;
     getTigeraStatusErr := None;
     updateConditionsErr := None;
     updateStateErr := None;
     getSecretErr := fun _ _ => None;
     createErr := fun _ => None;
     getTier := fun _ => None;
     ans_GetInstallation := Ok (variant, {| Variant := variant; inst_id := "default" |});
     ans_GetNetworkingPullSecrets := fun _ => Ok {| ps_id := "tigera-pull-secret" |};
     ans_GetManagementCluster := Ok mc;
     ans_GetManagementClusterConnection := Ok mcc;
     ans_GetAmazonCloudIntegration := Fail (Err true "not found");
     ans_GetK8sServiceEndPoint := Ok {| Host := ""; Port := "" |};
     ans_GetAuthentication := Fail (Err true "not found");
     ans_GetKeyValidatorConfig := fun _ _ => Ok None;
     ans_IsV3NetworkPolicyReconcilable := fun _ => true;
     ans_IsAPIServerReady := true;
     ans_FetchLicenseKey := Ok {| lic_id := "default" |};
     ans_IsFeatureActive := fun _ _ => true;
     ans_GetElasticsearchClusterConfig := Ok {| esc_id := "tigera-secure-elasticsearch" |};
     ans_ElasticsearchSecrets := fun _ => Ok [];
     ans_certificatemanager_Create := fun _ _ => Ok {| cm_KeyPair := demoKeyPair "tigera-ca-private" |};
     ans_GetOrCreateKeyPair := fun name _ _ => Ok (demoKeyPair name);
     getKeyPairErr := fun _ _ => None;
     ans_GetCertificate := fun name _ => Ok (Some {| cert_Name := name; cert_PEM := "pem" |});
     tunnelSecretData := {[ "tls.crt" := "tunnel-cert"; "tls.key" := "tunnel-key" ]};
     newKeyPairErr := None;
     renderAPIServerErr := fun _ => None;
     renderComplianceErr := fun _ => None;
     ans_UpdateStatusCondition := fun old _ => old;
     ans_ApplyImageSet := fun _ _ => None;
     handlerErr := fun _ => None;
     ans_IsAvailable := available |}.

(** The oracle [env] with [f] for the two-argument [status.UpdateStatusCondition]. *)
Definition withUpdateStatusCondition
    (f : list Condition -> list TigeraStatusCondition -> list Condition) (env : Env) : Env :=
  {| getPrimaryErr := getPrimaryErr env;
     getTigeraStatusErr := getTigeraStatusErr env;
     updateConditionsErr := updateConditionsErr env;
     updateStateErr := updateStateErr env;
     getSecretErr := getSecretErr env;
     createErr := createErr env;
     getTier := getTier env;
     ans_GetInstallation := ans_GetInstallation env;
     ans_GetNetworkingPullSecrets := ans_GetNetworkingPullSecrets env;
     ans_GetManagementCluster := ans_GetManagementCluster env;
     ans_GetManagementClusterConnection := ans_GetManagementClusterConnection env;
     ans_GetAmazonCloudIntegration := ans_GetAmazonCloudIntegration env;
     ans_GetK8sServiceEndPoint := ans_GetK8sServiceEndPoint env;
     ans_GetAuthentication := ans_GetAuthentication env;
     ans_GetKeyValidatorConfig := ans_GetKeyValidatorConfig env;
     ans_IsV3NetworkPolicyReconcilable := ans_IsV3NetworkPolicyReconcilable env;
     ans_IsAPIServerReady := ans_IsAPIServerReady env;
     ans_FetchLicenseKey := ans_FetchLicenseKey env;
     ans_IsFeatureActive := ans_IsFeatureActive env;
     ans_GetElasticsearchClusterConfig := ans_GetElasticsearchClusterConfig env;
     ans_ElasticsearchSecrets := ans_ElasticsearchSecrets env;
     ans_certificatemanager_Create := ans_certificatemanager_Create env;
     ans_GetOrCreateKeyPair := ans_GetOrCreateKeyPair env;
     getKeyPairErr := getKeyPairErr env;
     ans_GetCertificate := ans_GetCertificate env;
     tunnelSecretData := tunnelSecretData env;
     newKeyPairErr := newKeyPairErr env;
     renderAPIServerErr := renderAPIServerErr env;
     renderComplianceErr := renderComplianceErr env;
     ans_UpdateStatusCondition := f;
     ans_ApplyImageSet := ans_ApplyImageSet env;
     handlerErr := handlerErr env;
     ans_IsAvailable := ans_IsAvailable env |}.

Definition demoResource (generation : Z) : CustomResource :=
  {| Generation := generation; Status_State := ""; Status_Conditions := [] |}.

Definition availableCondition : TigeraStatusCondition :=
  {| tsc_Type := ComponentAvailable;
     tsc_Status := ConditionTrue;
     tsc_Reason := "AllObjectsAvailable";
     tsc_Message := "All Objects are available";
     tsc_ObservedGeneration := 0 |}.

(** A cluster with the three primary resources at the given generation, a
    TigeraStatus of each controller's name when [withStatus], and the given
    secrets. *)
Definition demoCluster (generation : Z) (withStatus : bool)
    (secrets : gmap (string * string) (gmap string string)) : Cluster :=
  {| apiservers := Some (demoResource generation);
     monitors := Some (demoResource generation);
     compliances := Some (demoResource generation);
     tigerastatuses :=
       if withStatus
       then {[ "apiserver" := {| ts_Conditions := [availableCondition] |};
               "monitor" := {| ts_Conditions := [availableCondition] |};
               "compliance" := {| ts_Conditions := [availableCondition] |} ]}
       else ∅;
     secrets := secrets |}.

(** A cluster without any of the primary resources. *)
Definition emptyCluster : Cluster :=
  {| apiservers := None; monitors := None; compliances := None;
     tigerastatuses := ∅; secrets := ∅ |}.

Definition demoAPIServer : apiserver.ReconcileAPIServer :=
  {| apiserver.provider := ProviderNone;
     apiserver.amazonCRDExists := false;
     apiserver.enterpriseCRDsExist := true;
     apiserver.clusterDomain := "cluster.local" |}.

Definition demoMonitor (tierWatchReady : bool) : monitor.ReconcileMonitor :=
  {| monitor.provider := ProviderNone;
     monitor.prometheusReady := true;
     monitor.tierWatchReady := tierWatchReady;
     monitor.policyWatchesReady := true;
     monitor.clusterDomain := "cluster.local" |}.

Definition demoCompliance (policyWatchesReady : bool) : compliance.ReconcileCompliance :=
  {| compliance.provider := ProviderNone;
     compliance.clusterDomain := "cluster.local";
     compliance.licenseAPIReady := true;
     compliance.policyWatchesReady := policyWatchesReady;
     compliance.usePSP := false |}.

(** The options [Add] is called with in the concrete installation. *)
Definition demoOptions (enterprise : bool) : AddOptions :=
  {| DetectedProvider := ProviderNone;
     EnterpriseCRDExists := enterprise;
     AmazonCRDExists := false;
     ClusterDomain := "cluster.local";
     KubernetesVersion := "v1.25";
     UsePSP := false |}.

(** A manager on which no setup call fails. *)
Definition noSetupErr (c : SetupCall) : option error := None.

(** An Alertmanager configuration the user has written, as found in the
    tigera-prometheus namespace before an upgrade. *)
Definition customAlertmanagerSecret : Secret :=
  {| s_Name := "alertmanager-calico-node-alertmanager";
     s_Namespace := "tigera-prometheus";
     s_Data := {[ "alertmanager.yaml" := "route: {}" ]} |}.

(** A request for another object than the controller's TigeraStatus, and
    the request named after a controller. *)
Definition someRequest : Request := {| Name := "tigera-secure"; Namespace := "" |}.
Definition conditionsRequest (ctl : Controller) : Request :=
  {| Name := resourceNameOf ctl; Namespace := "" |}.

(** A reconcile in the concrete installation. *)
Abbreviation demoRun env ctl request c := (reconciled (@Reconcile demoNames env ctl request) c).

(** * More readings of the code *)

(** ** The loops of the reconcilers *)

(** The components of [cs] up to and including the first one the handler
    fails on. *)
Fixpoint uptoFailure (env : Env) (cs : list Component) : list Component :=
  match cs with
  | [] => []
  | c :: rest =>
      c :: match handlerErr env c with
           | Some _ => []
           | None => uptoFailure env rest
           end
  end.

(** The error of the first component the handler fails on. *)
Fixpoint firstFailure (env : Env) (cs : list Component) : option error :=
  match cs with
  | [] => None
  | c :: rest =>
      match handlerErr env c with
      | Some e => Some e
      | None => firstFailure env rest
      end
  end.

(** The [SetDegraded] each reconciler calls when the handler fails: the
    method of [ReconcileAPIServer] and of [ReconcileCompliance], the helper
    of package status for the Monitor reconciler. *)
Definition setDegradedOf `{Names} (k : Kind)
  : TigeraStatusReason -> string -> option error -> M unit :=
  match k with
  | KAPIServer => apiserver.SetDegraded
  | KMonitor => status.SetDegraded
  | KCompliance => compliance.SetDegraded
  end.

(** The message a [SetDegraded] with an error hands to the status manager. *)
Definition degradedMessage (message : string) (e : error) : string :=
  message +:+ " - Error: " +:+ Error e.

(** The certificates fetched before the first one that cannot be. *)
Fixpoint fetchedCertificates `{Names} (env : Env) (names : list string) : list (option Certificate) :=
  match names with
  | [] => []
  | n :: rest =>
      match ans_GetCertificate env n OperatorNamespace with
      | Ok cert => cert :: fetchedCertificates env rest
      | Fail _ => []
      end
  end.

(** The names asked for, up to and including the first that fails, and its error. *)
Fixpoint askedCertificates `{Names} (env : Env) (names : list string) : list string :=
  match names with
  | [] => []
  | n :: rest =>
      n :: match ans_GetCertificate env n OperatorNamespace with
           | Ok _ => askedCertificates env rest
           | Fail _ => []
           end
  end.

Fixpoint certificateFailure `{Names} (env : Env) (names : list string) : option error :=
  match names with
  | [] => None
  | n :: rest =>
      match ans_GetCertificate env n OperatorNamespace with
      | Ok _ => certificateFailure env rest
      | Fail e => Some e
      end
  end.

(** ** Readings of a setup *)

(** The calls of a setup that return an error: all but the creation and the
    start of the status manager and the [go] statements. *)
Definition canFail (c : SetupCall) : bool :=
  match c with
  | status_New _ | status_AddStatefulSets _ | status_Run | go _ => false
  | _ => true
  end.

(** [s] ends with [suffix]. *)
Definition hasSuffix (suffix s : string) : Prop := exists p, s = p +:+ suffix.

(** A setup returns nil when none of its calls fails; otherwise the call
    that fails is the last one made, and the error returned ends with the
    text of its error. *)
Definition stopsAtFirstFailure (setupErr : SetupCall -> option error) (s : Setup unit) : Prop :=
  match s with
  | (calls, Ok _) => Forall (fun c => canFail c = true -> setupErr c = None) calls
  | (calls, Fail e) =>
      exists pre c e0,
        calls = pre ++ [c]
        /\ canFail c = true
        /\ setupErr c = Some e0
        /\ hasSuffix (Error e0) (Error e)
        /\ Forall (fun c' => canFail c' = true -> setupErr c' = None) pre
  end.

(** The goroutines a setup starts, in order. *)
Fixpoint goroutines (calls : list SetupCall) : list Goroutine :=
  match calls with
  | [] => []
  | go g :: rest => g :: goroutines rest
  | _ :: rest => goroutines rest
  end.

(** ** More readings of a reconcile *)

Definition isOnCRFound (e : Event) : bool :=
  match e with EvOnCRFound => true | _ => false end.
Definition isCreate (e : Event) : bool :=
  match e with EvCreate _ => true | _ => false end.
Definition isTier (r : Resource) : bool :=
  match r with RTier _ => true | _ => false end.
Definition isReconcilable (r : Resource) : bool :=
  match r with RV3NetworkPolicyReconcilable _ => true | _ => false end.
Definition isKeyPair (r : Resource) : bool :=
  match r with RKeyPair _ _ => true | _ => false end.
Definition isAmazonCloudIntegration (r : Resource) : bool :=
  match r with RAmazonCloudIntegration => true | _ => false end.
Definition isInstallation (r : Resource) : bool :=
  match r with RInstallation => true | _ => false end.

(** The resources the APIServer reconciler reads for the enterprise
    variant only. *)
Definition isEnterpriseRead (r : Resource) : bool :=
  match r with
  | RManagementCluster | RManagementClusterConnection | RAmazonCloudIntegration
  | RAuthentication | RKeyValidatorConfig => true
  | _ => false
  end.

(** How many events of [t] satisfy [p]. *)
Fixpoint countEvents (p : Event -> bool) (t : list Event) : nat :=
  match t with
  | [] => 0
  | e :: rest => (if p e then 1 else 0) + countEvents p rest
  end.

(** The first degraded status set, if any. *)
Fixpoint firstDegraded (t : list Event) : option (Reason * string) :=
  match t with
  | [] => None
  | EvSetDegraded reason msg :: _ => Some (reason, msg)
  | _ :: rest => firstDegraded rest
  end.

(** The last call of a reconcile, the deferred [SetMetaData] apart. *)
Fixpoint lastCall (t : list Event) : option Event :=
  match t with
  | [] => None
  | e :: rest =>
      match lastCall rest with
      | Some l => Some l
      | None => if isSetMetaData e then None else Some e
      end
  end.

(** A read of the TigeraStatus or an update of a status subresource. *)
Definition isStatusCall (e : Event) : bool :=
  match e with
  | EvFetch (RTigeraStatus _) | EvStatusUpdate _ _ => true
  | _ => false
  end.

(** The updates of a status subresource, in order. *)
Fixpoint statusUpdates (t : list Event) : list (Kind * CustomResource) :=
  match t with
  | [] => []
  | EvStatusUpdate k i :: rest => (k, i) :: statusUpdates rest
  | _ :: rest => statusUpdates rest
  end.

(** The secrets created directly through the client, in order. *)
Fixpoint created (t : list Event) : list Secret :=
  match t with
  | [] => []
  | EvCreate s :: rest => s :: created rest
  | _ :: rest => created rest
  end.

(** The render call a component comes from. *)
Inductive ComponentKind :=
| KindAPIServer | KindPacketCapture | KindCertificateManagement
| KindMonitor | KindCompliance | KindPassthrough.

Definition ComponentKind_eqb (a b : ComponentKind) : bool :=
  match a, b with
  | KindAPIServer, KindAPIServer | KindPacketCapture, KindPacketCapture
  | KindCertificateManagement, KindCertificateManagement | KindMonitor, KindMonitor
  | KindCompliance, KindCompliance | KindPassthrough, KindPassthrough => true
  | _, _ => false
  end.

Fixpoint kinds_eqb (l m : list ComponentKind) : bool :=
  match l, m with
  | [], [] => true
  | a :: l', b :: m' => ComponentKind_eqb a b && kinds_eqb l' m'
  | _, _ => false
  end.

Definition kindOfComponent (c : Component) : ComponentKind :=
  match c with
  | APIServerComponent _ => KindAPIServer
  | PacketCaptureAPI _ => KindPacketCapture
  | CertificateManagement _ => KindCertificateManagement
  | MonitorComponent _ => KindMonitor
  | ComplianceComponent _ => KindCompliance
  | NewPassthrough _ => KindPassthrough
  end.

(** What a reconcile hands back to the work queue: [Requeue] is never set;
    a requeue after a delay comes with a nil error and is either the 10
    seconds of a guard that waits (never in the APIServer controller, always
    with a degraded status and before anything is applied) or the 30
    seconds after the degraded status was cleared. *)
Definition requeueShape (k : Kind) (R : Reconciled) : bool :=
  negb (Requeue (result R))
  && (Z.eqb (RequeueAfter (result R)) 0
      || (isNil (err R)
          && ((Z.eqb (RequeueAfter (result R)) (10 * Second)
               && negb (Kind_eqb k KAPIServer)
               && existsb isSetDegraded (trace R)
               && isEmpty (applied (trace R)))
              || (Z.eqb (RequeueAfter (result R)) (30 * Second)
                  && existsb isClearDegraded (trace R)
                  && negb (existsb isSetDegraded (trace R)))))).

(** The deferred [SetMetaData]: when the primary resource was found, the
    last call of the reconcile is [SetMetaData] with the generation of the
    resource as it was read, and it is the only one; otherwise there is
    none. *)
Definition metaDataDeferred (primary : option CustomResource) (t : list Event) : Prop :=
  if existsb isOnCRFound t
  then match primary with
       | Some i => List.last t EvOnCRFound = EvSetMetaData (Generation i)
                   /\ countEvents isSetMetaData t = 1%nat
       | None => False
       end
  else existsb isSetMetaData t = false.

(** An error that Reconcile returns is told: the message of the degraded
    status ends with its text; when no degraded status was set, the last
    call was a read of the TigeraStatus or an update of a status
    subresource. *)
Definition errorReported (R : Reconciled) : Prop :=
  match err R with
  | None => True
  | Some e =>
      match firstDegraded (trace R) with
      | Some (_, msg) => hasSuffix (Error e) msg
      | None =>
          match lastCall (trace R) with
          | Some call => isStatusCall call = true
          | None => False
          end
      end
  end.

(** A degraded status with a nil error and no requeue: the reason is
    ResourceNotReady, or, in the Compliance controller after the components
    were applied, ResourceValidationError. *)
Definition degradedWithoutRetry (k : Kind) (R : Reconciled) : bool :=
  match firstDegraded (trace R) with
  | Some (reason, _) =>
      implb (isNil (err R) && Result_eqb (result R) emptyResult)
        match reason with
        | Typed ResourceNotReady => true
        | Typed ResourceValidationError =>
            Kind_eqb k KCompliance && negb (isEmpty (applied (trace R)))
        | _ => false
        end
  | None => true
  end.

(** The updates of a status subresource by a reconcile of the controller of
    kind [k], [primary] being the resource as it is read: at most two, of
    the primary resource of kind [k], with its generation; one alone writes
    the conditions or sets the state to Ready; of two, the first writes the
    conditions and the second is the first with the state set to Ready. *)
Definition statusWrites (k : Kind) (primary : option CustomResource) (t : list Event) : Prop :=
  match statusUpdates t, primary with
  | [], _ => True
  | [(k1, i1)], Some i =>
      k1 = k /\ Generation i1 = Generation i
      /\ (Status_State i1 = Status_State i \/ i1 = withState TigeraStatusReady i)
  | [(k1, i1); (k2, i2)], Some i =>
      k <> KAPIServer /\ k1 = k /\ k2 = k
      /\ Generation i1 = Generation i /\ Status_State i1 = Status_State i
      /\ i2 = withState TigeraStatusReady i1
  | _, _ => False
  end.

(** The APIServer reconciler and the variant of the installation
    ([installation] is what [utils.GetInstallation] answers, [amazon] the
    flag [amazonCRDExists]).  Without the enterprise variant it reads none
    of the enterprise resources and, when it gets to clear the degraded
    status, it has applied the API server and its certificate management
    and nothing else.  With the enterprise variant it reads the
    AmazonCloudIntegration only when the flag is set, and the components of
    a reconcile that clears the degraded status are the API server, its
    certificate management, the tunnel secret if one was made, the packet
    capture API and its certificate management, in this order. *)
Definition variantShape (installation : res (ProductVariant * InstallationSpec)) (amazon : bool)
    (t : list Event) : bool :=
  let kinds := map kindOfComponent (applied t) in
  if existsb (isFetchOf isInstallation) t then
    match installation with
    | Ok (v, _) =>
        if isEnterprise v
        then implb (existsb (isFetchOf isAmazonCloudIntegration) t) amazon
             && implb (existsb isClearDegraded t)
                  (kinds_eqb kinds
                     [KindAPIServer; KindCertificateManagement;
                      KindPacketCapture; KindCertificateManagement]
                   || kinds_eqb kinds
                        [KindAPIServer; KindCertificateManagement; KindPassthrough;
                         KindPacketCapture; KindCertificateManagement])
        else negb (existsb (isFetchOf isEnterpriseRead) t)
             && Nat.leb (countEvents (isFetchOf isKeyPair) t) 1
             && implb (existsb isClearDegraded t)
                  (kinds_eqb kinds [KindAPIServer; KindCertificateManagement])
    | Fail _ =>
        isEmpty (applied t) && negb (existsb (isFetchOf isEnterpriseRead) t)
        && negb (existsb isClearDegraded t)
    end
  else isEmpty (applied t) && negb (existsb (isFetchOf isEnterpriseRead) t)
       && negb (existsb isClearDegraded t).

(** The tunnel secret of the APIServer reconciler, [existing] being the
    data of the secret of that name in the operator namespace and [fault]
    the error of reading it.  Without a ManagementCluster the rendered
    configuration has no tunnel CA and no passthrough component is applied.
    With one, a secret that exists is the tunnel CA of the configuration
    and is never handed to the handler; otherwise the tunnel CA is the
    secret made anew, which is the one passthrough component if any is
    applied. *)
Definition tunnelSecretShape `{Names} (env : Env) (existing : option (gmap string string))
    (fault : option error) (t : list Event) : Prop :=
  match applied t with
  | APIServerComponent cfg :: rest =>
      match asc_ManagementCluster cfg with
      | None => asc_TunnelCASecret cfg = None /\ passthroughs rest = []
      | Some _ =>
          match fault, existing with
          | None, Some data =>
              asc_TunnelCASecret cfg
              = Some (NewKeyPair {| s_Name := VoltronTunnelSecretName;
                                    s_Namespace := OperatorNamespace;
                                    s_Data := data |})
              /\ passthroughs rest = []
          | _, _ =>
              asc_TunnelCASecret cfg = Some (NewKeyPair (render.VoltronTunnelSecret env))
              /\ (passthroughs rest = []
                  \/ passthroughs rest
                     = [KeyPair_Secret (NewKeyPair (render.VoltronTunnelSecret env))
                          OperatorNamespace])
          end
      end
  | [] => True
  | _ => False
  end.

(** The events before the first component is handed to the handler, and
    those before the first degraded status. *)
Fixpoint beforeApply (t : list Event) : list Event :=
  match t with
  | [] => []
  | EvCreateOrUpdateOrDelete _ :: _ => []
  | e :: rest => e :: beforeApply rest
  end.


(** ** The guards of a reconcile *)

Definition isUpdateError (reason : Reason) : bool :=
  match reason with Typed ResourceUpdateError => true | _ => false end.

(** The degraded status of the Compliance reconciler for a license without
    the compliance feature. *)
Definition licenseInactive : string :=
  "Feature is not active - License does not support this feature".

Definition isLicenseInactive (reason : Reason) (msg : string) : bool :=
  match reason with
  | Typed ResourceValidationError => String.eqb msg licenseInactive
  | _ => false
  end.

(** Where the degraded statuses of a trace stand, [n] being the number of
    components handed to the handler so far: the status of the inactive
    license is set by the Compliance controller after two components; every
    other one is set before any component, or has the reason
    ResourceUpdateError. *)
Fixpoint guardsBeforeApply (k : Kind) (n : nat) (t : list Event) : bool :=
  match t with
  | [] => true
  | EvCreateOrUpdateOrDelete _ :: rest => guardsBeforeApply k (S n) rest
  | EvSetDegraded reason msg :: rest =>
      (if isLicenseInactive reason msg
       then Kind_eqb k KCompliance && Nat.eqb n 2
       else Nat.eqb n 0 || isUpdateError reason)
      && guardsBeforeApply k n rest
  | _ :: rest => guardsBeforeApply k n rest
  end.

(** A degraded status with the reason [text] is set, nothing is applied and
    the reconcile asks to be called again after 10 seconds, with a nil
    error. *)
Definition hasDegradedText (text : string) (e : Event) : bool :=
  match e with
  | EvSetDegraded (Text s) _ => String.eqb s text
  | _ => false
  end.

Definition hasDegradedNotReady (message : string) (e : Event) : bool :=
  match e with
  | EvSetDegraded (Typed ResourceNotReady) m => String.eqb m message
  | _ => false
  end.

Definition waits (p : Event -> bool) (R : Reconciled) : bool :=
  existsb p (trace R)
  && Result_eqb (result R) (requeueAfter (10 * Second))
  && isNil (err R)
  && isEmpty (applied (trace R)).

Definition isAPIServerReady (r : Resource) : bool :=
  match r with RAPIServerReady => true | _ => false end.

(** The waiting guards of the Monitor reconciler, for a reconcile that has
    read the ManagementClusterConnection ([connection] is the answer) and
    that, if it asks whether NetworkPolicy is reconcilable, is answered
    yes ([reconcilable]): it waits for the Tier watch ([tierReady]), then
    for the NetworkPolicy watches ([policyReady]), then, if it did not ask,
    for the allow-tigera tier ([tier] is the error of reading it). *)
Definition monitorGuards (tierReady policyReady : bool)
    (connection : res (option ManagementClusterConnection)) (reconcilable : bool)
    (tier : option error) (R : Reconciled) : bool :=
  let asked := existsb (isFetchOf isReconcilable) (trace R) in
  implb (existsb (isFetchOf isManagementClusterConnection) (trace R)
         && match connection with Ok _ => true | Fail _ => false end
         && implb asked reconcilable)
    (if negb tierReady
     then waits (hasDegradedText "Waiting for Tier watch to be established") R
     else if negb policyReady
     then waits (hasDegradedText "Waiting for NetworkPolicy watches to be established") R
     else if asked then true
     else match tier with
          | Some e => implb (notFound e)
                        (waits (hasDegradedText "Waiting for allow-tigera tier to be created") R)
          | None => true
          end).

(** The waiting guards of the Compliance reconciler, for a reconcile that
    has asked whether the API server is ready and is answered yes
    ([apiReady]): it waits for the NetworkPolicy watches, then for the
    allow-tigera tier, then for the LicenseKey API ([licenseReady]). *)
Definition complianceGuards (apiReady policyReady licenseReady : bool)
    (tier : option error) (R : Reconciled) : bool :=
  implb (existsb (isFetchOf isAPIServerReady) (trace R) && apiReady)
    (if negb policyReady
     then waits (hasDegradedText "Waiting for NetworkPolicy watches to be established") R
     else match tier with
          | Some e => implb (notFound e)
                        (waits (hasDegradedText "Waiting for allow-tigera tier to be created") R)
          | None =>
              implb (negb licenseReady)
                (waits (hasDegradedNotReady "Waiting for LicenseKeyAPI to be ready") R)
          end).

(** The LicenseKey is fetched before anything is handed to the handler:
    no component is applied in [t] before the first fetch of the
    LicenseKey. *)
Fixpoint licenseBeforeApply (t : list Event) : bool :=
  match t with
  | [] => true
  | EvFetch RLicenseKey :: _ => true
  | EvCreateOrUpdateOrDelete _ :: _ => false
  | _ :: rest => licenseBeforeApply rest
  end.

(** The LicenseKey is fetched only when the LicenseKey API is ready
    ([licenseReady]), the allow-tigera tier was read before, and at most
    once. *)
Definition licenseWhenReady (licenseReady : bool) (t : list Event) : bool :=
  implb (existsb (isFetchOf isLicenseKey) t) licenseReady
  && Nat.leb (countEvents (isFetchOf isLicenseKey) t) 1.





(** The certificate management component is built from the key pairs and
    the trusted bundle of the configuration rendered beside it. *)
Definition certificatesMatch (cs : list Component) : Prop :=
  match cs with
  | APIServerComponent cfg :: CertificateManagement cmc :: _ =>
      cmc_KeyPairOptions cmc
      = [NewKeyPairOption (Some (asc_TLSKeyPair cfg)) true true;
         NewKeyPairOption (asc_TunnelCASecret cfg) true true]
      /\ cmc_TrustedBundle cmc = None
  | MonitorComponent cfg :: CertificateManagement cmc :: _ =>
      cmc_KeyPairOptions cmc
      = [NewKeyPairOption (Some (mon_ServerTLSSecret cfg)) true true;
         NewKeyPairOption (Some (mon_ClientTLSSecret cfg)) true true]
      /\ cmc_TrustedBundle cmc = Some (mon_TrustedCertBundle cfg)
  | ComplianceComponent cfg :: CertificateManagement cmc :: _ =>
      cmc_KeyPairOptions cmc
      = [NewKeyPairOption (cc_ComplianceServerCertSecret cfg) true true]
      /\ cmc_TrustedBundle cmc = Some (cc_TrustedBundle cfg)
  | [_] | [] => True
  | _ => False
  end.

(** All that a second pass over the APIServer reconciler checks. *)
Definition apiserver_checks2 `{Names} (env : Env) (primary : option CustomResource)
    (installation : res (ProductVariant * InstallationSpec)) (amazon : bool)
    (existing : option (gmap string string)) (fault : option error) (R : Reconciled) : Prop :=
  requeueShape KAPIServer R = true
  /\ existsb isSetMetaData (trace R) = false
  /\ errorReported R
  /\ degradedWithoutRetry KAPIServer R = true
  /\ statusWrites KAPIServer primary (trace R)
  /\ isEmpty (created (trace R)) = true
  /\ variantShape installation amazon (trace R) = true
  /\ tunnelSecretShape env existing fault (trace R)
  /\ certificatesMatch (applied (trace R))
  /\ guardsBeforeApply KAPIServer 0 (trace R) = true.

(** The one secret a Monitor reconcile may create directly through the
    client: the copy of the Alertmanager configuration in the operator
    namespace, [existing] being the data of the secret of that name found
    there before. *)
Definition createdShape `{Names} (existing : option (gmap string string)) (t : list Event) : Prop :=
  match created t with
  | [] => True
  | [s] =>
      s_Name s = AlertmanagerConfigSecret /\ s_Namespace s = OperatorNamespace
      /\ existing = None
  | _ => False
  end.

Definition includesNetworkPolicy (c : Component) : option bool :=
  match c with
  | MonitorComponent cfg => Some (mon_IncludeV3NetworkPolicy cfg)
  | _ => None
  end.

(** NetworkPolicy in the Monitor reconciler, [connection] being what
    [utils.GetManagementClusterConnection] answers.  A reconcile asks
    whether NetworkPolicy is reconcilable or fetches the allow-tigera tier,
    never both.  A configuration is rendered without NetworkPolicy only
    after the question was asked; it is rendered with NetworkPolicy after
    the question or after the tier was fetched.  Without a
    ManagementClusterConnection the question is never asked. *)
Definition networkPolicyShape (connection : res (option ManagementClusterConnection))
    (t : list Event) : bool :=
  let asked := existsb (isFetchOf isReconcilable) t in
  let tier := existsb (isFetchOf isTier) t in
  negb (asked && tier)
  && forallb (fun c =>
                match includesNetworkPolicy c with
                | Some true => asked || tier
                | Some false => asked
                | None => true
                end) (applied t)
  && (if existsb (isFetchOf isManagementClusterConnection) t
      then match connection with
           | Ok None => negb asked
           | _ => true
           end
      else negb asked && negb tier && isEmpty (applied t)).

(** All that a second pass over the Monitor reconciler checks. *)
Definition monitor_checks2 `{Names} (primary : option CustomResource)
    (existing : option (gmap string string))
    (connection : res (option ManagementClusterConnection))
    (tierReady policyReady reconcilable : bool) (tier : option error) (R : Reconciled) : Prop :=
  requeueShape KMonitor R = true
  /\ metaDataDeferred primary (trace R)
  /\ errorReported R
  /\ degradedWithoutRetry KMonitor R = true
  /\ statusWrites KMonitor primary (trace R)
  /\ createdShape existing (trace R)
  /\ networkPolicyShape connection (trace R) = true
  /\ certificatesMatch (applied (trace R))
  /\ guardsBeforeApply KMonitor 0 (trace R) = true
  /\ monitorGuards tierReady policyReady connection reconcilable tier R = true.

Definition hasNoLicense (c : Component) : option bool :=
  match c with
  | ComplianceComponent cfg => Some (cc_HasNoLicense cfg)
  | _ => None
  end.

(** The license in the Compliance reconciler, [active] being whether the
    license fetched has the compliance feature (none when the fetch
    fails).  A configuration is rendered with [HasNoLicense] exactly when
    the feature is not active.  Without the feature the degraded status is
    never cleared; when the two components were applied and no error is
    returned, the degraded status ResourceValidationError is set and the
    result is empty. *)
Definition licenseShape (active : option bool) (R : Reconciled) : bool :=
  let t := trace R in
  if existsb (isFetchOf isLicenseKey) t then
    match active with
    | Some a =>
        forallb (fun c => match hasNoLicense c with
                          | Some b => Bool.eqb b (negb a)
                          | None => true
                          end) (applied t)
        && (a || (negb (existsb isClearDegraded t)
                  && implb (isNil (err R) && Nat.eqb (length (applied t)) 2)
                       (existsb isValidationDegraded t
                        && Result_eqb (result R) emptyResult)))
    | None => isEmpty (applied t) && negb (existsb isClearDegraded t)
    end
  else isEmpty (applied t) && negb (existsb isClearDegraded t).

(** The names of the first request for Elasticsearch secrets. *)
Fixpoint esSecretsAsked (t : list Event) : option (list string) :=
  match t with
  | [] => None
  | EvFetch (RElasticsearchSecrets names) :: _ => Some names
  | _ :: rest => esSecretsAsked rest
  end.

Definition isSomeB {A} (o : option A) : bool :=
  match o with Some _ => true | None => false end.

(** What a rendered Compliance configuration looks like: never both a
    ManagementCluster and a ManagementClusterConnection; a key pair of the
    compliance server exactly when there is no ManagementClusterConnection;
    a trusted bundle of two entries, the manager's internal certificate
    (nil without a ManagementCluster) and the Elasticsearch gateway
    certificate (never nil). *)
Definition complianceConfigShape (c : Component) : bool :=
  match c with
  | ComplianceComponent cfg =>
      negb (isSomeB (cc_ManagementCluster cfg) && isSomeB (cc_ManagementClusterConnection cfg))
      && Bool.eqb (isSomeB (cc_ComplianceServerCertSecret cfg))
           (negb (isSomeB (cc_ManagementClusterConnection cfg)))
      && match tb_Certificates (cc_TrustedBundle cfg) with
         | [internal; Some _] =>
             implb (negb (isSomeB (cc_ManagementCluster cfg))) (negb (isSomeB internal))
         | _ => false
         end
  | _ => true
  end.

(** The Compliance reconciler in a managed cluster, [connection] being what
    [utils.GetManagementClusterConnection] answers: with a
    ManagementClusterConnection the secret of the compliance server's user
    is not among the Elasticsearch secrets asked for and no key pair is
    asked for; without one it is the fifth secret asked for. *)
Definition managedShape `{Names} (connection : res (option ManagementClusterConnection))
    (t : list Event) : Prop :=
  let base :=
    [ElasticsearchComplianceBenchmarkerUserSecret; ElasticsearchComplianceControllerUserSecret;
     ElasticsearchComplianceReporterUserSecret; ElasticsearchComplianceSnapshotterUserSecret] in
  if existsb (isFetchOf isManagementClusterConnection) t then
    match connection with
    | Ok (Some _) =>
        (esSecretsAsked t = None \/ esSecretsAsked t = Some base)
        /\ existsb (isFetchOf isKeyPair) t = false
    | Ok None =>
        esSecretsAsked t = None
        \/ esSecretsAsked t = Some (base ++ [ElasticsearchComplianceServerUserSecret])
    | Fail _ => esSecretsAsked t = None
    end
  else esSecretsAsked t = None /\ existsb (isFetchOf isKeyPair) t = false.

(** All that a second pass over the Compliance reconciler checks. *)
Definition compliance_checks2 `{Names} (primary : option CustomResource) (active : option bool)
    (connection : res (option ManagementClusterConnection))
    (apiReady policyReady licenseReady : bool) (tier : option error) (R : Reconciled) : Prop :=
  requeueShape KCompliance R = true
  /\ metaDataDeferred primary (trace R)
  /\ errorReported R
  /\ degradedWithoutRetry KCompliance R = true
  /\ statusWrites KCompliance primary (trace R)
  /\ isEmpty (created (trace R)) && isEmpty (passthroughs (applied (trace R))) = true
  /\ licenseShape active R = true
  /\ forallb complianceConfigShape (applied (trace R)) = true
  /\ managedShape connection (trace R)
  /\ certificatesMatch (applied (trace R))
  /\ guardsBeforeApply KCompliance 0 (trace R) = true
  /\ complianceGuards apiReady policyReady licenseReady tier R = true
  /\ licenseBeforeApply (trace R) = true
  /\ licenseWhenReady licenseReady (trace R) = true.

(** The oracle [env] with [f] for [utils.IsFeatureActive]. *)
Definition withFeatureActive (f : LicenseKey -> string -> bool) (env : Env) : Env :=
  {| getPrimaryErr := getPrimaryErr env;
     getTigeraStatusErr := getTigeraStatusErr env;
     updateConditionsErr := updateConditionsErr env;
     updateStateErr := updateStateErr env;
     getSecretErr := getSecretErr env;
     createErr := createErr env;
     getTier := getTier env;
     ans_GetInstallation := ans_GetInstallation env;
     ans_GetNetworkingPullSecrets := ans_GetNetworkingPullSecrets env;
     ans_GetManagementCluster := ans_GetManagementCluster env;
     ans_GetManagementClusterConnection := ans_GetManagementClusterConnection env;
     ans_GetAmazonCloudIntegration := ans_GetAmazonCloudIntegration env;
     ans_GetK8sServiceEndPoint := ans_GetK8sServiceEndPoint env;
     ans_GetAuthentication := ans_GetAuthentication env;
     ans_GetKeyValidatorConfig := ans_GetKeyValidatorConfig env;
     ans_IsV3NetworkPolicyReconcilable := ans_IsV3NetworkPolicyReconcilable env;
     ans_IsAPIServerReady := ans_IsAPIServerReady env;
     ans_FetchLicenseKey := ans_FetchLicenseKey env;
     ans_IsFeatureActive := f;
     ans_GetElasticsearchClusterConfig := ans_GetElasticsearchClusterConfig env;
     ans_ElasticsearchSecrets := ans_ElasticsearchSecrets env;
     ans_certificatemanager_Create := ans_certificatemanager_Create env;
     ans_GetOrCreateKeyPair := ans_GetOrCreateKeyPair env;
     getKeyPairErr := getKeyPairErr env;
     ans_GetCertificate := ans_GetCertificate env;
     tunnelSecretData := tunnelSecretData env;
     newKeyPairErr := newKeyPairErr env;
     renderAPIServerErr := renderAPIServerErr env;
     renderComplianceErr := renderComplianceErr env;
     ans_UpdateStatusCondition := ans_UpdateStatusCondition env;
     ans_ApplyImageSet := ans_ApplyImageSet env;
     handlerErr := handlerErr env;
     ans_IsAvailable := ans_IsAvailable env |}.

(** A ManagementCluster and a ManagementClusterConnection, for examples. *)
Definition demoManagementCluster : ManagementCluster := {| mc_id := "tigera-secure" |}.
Definition demoManagementClusterConnection : ManagementClusterConnection :=
  {| mcc_Spec := {| ManagementClusterAddr := "10.128.0.10:30449" |};
     mcc_Status := {| mcc_Conditions := [] |} |}.

(** * Theorems *)


Lemma Result_eqb_eq a b : Result_eqb a b = true -> a = b.
Proof.
  destruct a as [q d], b as [q' d']; unfold Result_eqb; simpl.
  intros E; apply andb_prop in E as [E1 E2].
  apply Bool.eqb_prop in E1. apply Z.eqb_eq in E2. congruence.
Qed.

Lemma isNil_eq {A} (o : option A) : isNil o = true -> o = None.
Proof. destruct o; simpl; congruence. Qed.

Lemma errIs_eq e o : errIs e o = true -> o = Some e.
Proof.
  destruct o as [[n t]|]; simpl; [|discriminate].
  destruct e as [n' t']; unfold error_eqb; simpl.
  intros E; apply andb_prop in E as [E1 E2].
  apply Bool.eqb_prop in E1. apply String.eqb_eq in E2. congruence.
Qed.

Lemma isEmpty_eq {A} (l : list A) : isEmpty l = true -> l = [].
Proof. destruct l; simpl; congruence. Qed.

Lemma implb_elim (a b : bool) : implb a b = true -> a = true -> b = true.
Proof. destruct a, b; simpl; congruence. Qed.

(** ** Symbolic execution of a reconcile *)

Ltac run :=
  cbv beta iota zeta delta
    [reconciled bind ret return_ emit getCluster modify defer
     trace result err after outcome final events
     status.OnCRFound status.OnCRNotFound status.ClearDegraded status.ReadyToMonitor
     status.IsAvailable status.StatusManager_SetDegraded status.SetDegraded
     client.GetPrimary client.GetTigeraStatus client.StatusUpdate client.GetTier client.Create
     utils.ask utils.GetAPIServer utils.GetInstallation utils.GetNetworkingPullSecrets
     utils.GetManagementCluster utils.GetManagementClusterConnection
     utils.GetAmazonCloudIntegration utils.GetK8sServiceEndPoint utils.GetAuthentication
     utils.GetKeyValidatorConfig utils.IsV3NetworkPolicyReconcilable utils.IsAPIServerReady
     utils.FetchLicenseKey utils.IsFeatureActive utils.GetElasticsearchClusterConfig
     utils.ElasticsearchSecrets utils.GetSecret utils.CreateOrUpdateOrDelete
     certificatemanager.Create certificatemanager.GetOrCreateKeyPair
     certificatemanager.GetCertificate certificatemanager.GetKeyPair
     certificatemanager.AddToStatusManager
     render.APIServer render.Compliance imageset.ApplyImageSet
     rangeComponents
     apiserver.Reconcile apiserver.SetDegraded apiserver.queryEnterpriseData
     apiserver.packetCapture apiserver.tunnelCASecret apiserver.amazon
     apiserver.managementCluster apiserver.managementClusterConnection
     apiserver.tunnelSecretPassthrough
     monitor.Reconcile monitor.getMonitor monitor.readAlertmanagerConfigSecret
     monitor.addCertificates monitor.waitForWatches
     compliance.Reconcile compliance.GetCompliance compliance.SetDegraded
     getPrimary setPrimary putSecret lookupSecret secrets apiservers monitors compliances
     tigerastatuses option_map
     bothManagementResources isConditionsRequest
     CopyToNamespace NewKeyPair KeyPair_Secret s_Name s_Namespace s_Data kp_Name kp_Data
     render.VoltronTunnelSecret
     IsNotFound notFound isEnterprise negb andb orb fst snd app].

(** The scrutinee the evaluation is stuck on. *)
Ltac scrutinee t :=
  lazymatch t with
  | context [match ?x with _ => _ end] => scrutinee x
  | _ => t
  end.

Ltac step :=
  lazymatch goal with
  | |- ?G =>
      lazymatch G with
      | context [match ?x with _ => _ end] =>
          let y := scrutinee x in case y; intros
      end
  end; run; try reflexivity.

(** ** Reading the checks as propositions *)

Lemma Kind_eqb_eq a b : Kind_eqb a b = true -> a = b.
Proof. destruct a, b; simpl; congruence. Qed.

Lemma startsWithPrimaryFetch_spec k t :
  startsWithPrimaryFetch k t = true -> exists rest, t = EvFetch (RPrimary k) :: rest.
Proof.
  destruct t as [|[[k'| | | | | | | | | | | | | | | | | | | |]| | | | | | | | | |] rest];
    simpl; try discriminate.
  intros E. apply Kind_eqb_eq in E. subst. eauto.
Qed.



Lemma existsb_In {A} (p : A -> bool) (x : A) (l : list A) :
  In x l -> p x = true -> existsb p l = true.
Proof. intros Hin Hp. apply existsb_exists. eauto. Qed.

Lemma existsb_isSetDegraded t :
  existsb isSetDegraded t = true -> exists reason msg, In (EvSetDegraded reason msg) t.
Proof.
  intros E. apply existsb_exists in E as [[] [Hin Hp]]; try discriminate. eauto.
Qed.


Lemma In_isClearDegraded t : existsb isClearDegraded t = true -> In EvClearDegraded t.
Proof.
  intros E. apply existsb_exists in E as [[] [Hin Hp]]; try discriminate. exact Hin.
Qed.

Lemma In_fetch_ManagementClusterConnection t :
  existsb (isFetchOf isManagementClusterConnection) t = true ->
  In (EvFetch RManagementClusterConnection) t.
Proof.
  intros E. apply existsb_exists in E as [[[]| | | | | | | | | |] [Hin Hp]]; try discriminate.
  exact Hin.
Qed.


Lemma updatesToReady_spec k t :
  updatesToReady k t = true ->
  exists i, lastStatusUpdate t = Some (k, i) /\ Status_State i = TigeraStatusReady.
Proof.
  unfold updatesToReady. destruct (lastStatusUpdate t) as [[k' i]|]; [|discriminate].
  intros E. apply andb_prop in E as [E1 E2].
  apply Kind_eqb_eq in E1. apply String.eqb_eq in E2. subst. eauto.
Qed.

Lemma lastStatusUpdate_In t k i : lastStatusUpdate t = Some (k, i) -> In (EvStatusUpdate k i) t.
Proof.
  induction t as [|e t IH]; simpl; [discriminate|].
  destruct (lastStatusUpdate t) as [u|].
  - intros E. right. apply IH. exact E.
  - destruct e; try discriminate. intros E. left. congruence.
Qed.

Lemma afterClearDegraded_spec available k R :
  afterClearDegraded available k R = true ->
  In EvClearDegraded (trace R) ->
  (available = false -> result R = requeueAfter (30 * Second) /\ err R = None) /\
  (available = true ->
     result R = emptyResult /\
     exists i, lastStatusUpdate (trace R) = Some (k, i) /\ Status_State i = TigeraStatusReady).
Proof.
  unfold afterClearDegraded. intros E Hin.
  pose proof (implb_elim _ _ E (existsb_In isClearDegraded _ _ Hin eq_refl)) as E'.
  clear E. rename E' into E.
  destruct available; apply andb_prop in E as [E1 E2]; split; try discriminate; intros _.
  - split; [apply Result_eqb_eq | apply updatesToReady_spec]; assumption.
  - split; [apply Result_eqb_eq | apply isNil_eq]; assumption.
Qed.


Lemma rejectsBoth_spec both R :
  rejectsBoth both R = true ->
  both = true ->
  In (EvFetch RManagementClusterConnection) (trace R) ->
  err R = Some bothNotSupported /\ result R = emptyResult
  /\ (exists msg, In (EvSetDegraded (Typed ResourceValidationError) msg) (trace R))
  /\ applied (trace R) = [].
Proof.
  unfold rejectsBoth. intros E -> Hin.
  pose proof (implb_elim _ _ E
                (existsb_In (isFetchOf isManagementClusterConnection) _ _ Hin eq_refl)) as E'.
  clear E. rename E' into E.
  apply andb_prop in E as [E E4]. apply andb_prop in E as [E E3]. apply andb_prop in E as [E1 E2].
  repeat split.
  - apply errIs_eq; assumption.
  - apply Result_eqb_eq; assumption.
  - apply existsb_exists in E3 as [[] [Hi Hp]]; try discriminate.
    destruct reason as [[]|]; try discriminate. eauto.
  - apply isEmpty_eq; assumption.
Qed.

Lemma noLicenseFetch_spec t : noLicenseFetch t = true -> ~ In (EvFetch RLicenseKey) t.
Proof.
  unfold noLicenseFetch. intros E Hin.
  rewrite (existsb_In _ _ _ Hin) in E; [discriminate | reflexivity].
Qed.

Lemma licenseFetched_spec t :
  licenseFetched t = true -> applied t <> [] -> In (EvFetch RLicenseKey) t.
Proof.
  unfold licenseFetched. intros E Hne.
  destruct (applied t); [congruence|]. simpl in E.
  apply existsb_exists in E as [[[]| | | | | | | | | |] [Hin Hp]]; try discriminate. exact Hin.
Qed.

(** ** Every path of the three reconcilers *)

Section Audit.
Context `{Names} (env : Env).

Lemma apiserver_audit r request c :
  apiserver_checks (isConditionsRequest apiserver.ResourceName request) (ans_IsAvailable env)
    (bothManagementResources env) (reconciled (apiserver.Reconcile env r request) c) = true.
Proof. run. repeat step. Qed.

Lemma monitor_audit r request c :
  monitor_checks (isConditionsRequest monitor.ResourceName request) (ans_IsAvailable env)
    (reconciled (monitor.Reconcile env r request) c) = true.
Proof. run. repeat step. Qed.

Lemma compliance_audit r request c :
  compliance_checks (isConditionsRequest compliance.ResourceName request) (ans_IsAvailable env)
    (bothManagementResources env) (reconciled (compliance.Reconcile env r request) c) = true.
Proof. run. repeat step. Qed.

(** The checks all three controllers share. *)
Lemma Reconcile_audit ctl request c :
  let R := reconciled (Reconcile env ctl request) c in
  startsWithPrimaryFetch (kindOf ctl) (trace R) = true
  /\ returnsAtDegraded (trace R) = true
  /\ quietExit (isConditionsRequest (resourceNameOf ctl) request) (trace R) = true
  /\ afterClearDegraded (ans_IsAvailable env) (kindOf ctl) R = true.
Proof.
  destruct ctl as [r|r|r]; simpl.
  - pose proof (apiserver_audit r request c) as A. unfold apiserver_checks in A.
    repeat (apply andb_prop in A as [A ?]). auto.
  - pose proof (monitor_audit r request c) as A. unfold monitor_checks in A.
    repeat (apply andb_prop in A as [A ?]). auto.
  - pose proof (compliance_audit r request c) as A. unfold compliance_checks in A.
    repeat (apply andb_prop in A as [A ?]). auto.
Qed.
End Audit.

(** ** A second pass over the reconcilers *)

Lemma append_assoc (a b c : string) : (a +:+ b) +:+ c = a +:+ (b +:+ c).
Proof.
  induction a as [|x a IH]; [reflexivity|].
  change (String x ((a +:+ b) +:+ c) = String x (a +:+ (b +:+ c))).
  f_equal. exact IH.
Qed.

Lemma hasSuffix_refl s : hasSuffix s s.
Proof. exists "". reflexivity. Qed.

Lemma hasSuffix_append a s : hasSuffix s (a +:+ s).
Proof. exists a. reflexivity. Qed.

Lemma hasSuffix_append2 a b s : hasSuffix s (a +:+ b +:+ s).
Proof. exists (a +:+ b). symmetry. apply append_assoc. Qed.

Ltac solve_check :=
  first
    [ reflexivity
    | exact I
    | apply hasSuffix_refl
    | apply hasSuffix_append2
    | apply hasSuffix_append
    | discriminate
    | left; reflexivity
    | right; reflexivity ].

Ltac open_check :=
  cbv beta iota zeta delta
    [metaDataDeferred errorReported statusWrites tunnelSecretShape certificatesMatch
     createdShape managedShape esSecretsAsked created existsb isFetchOf
     isManagementClusterConnection isKeyPair app
     cmc_KeyPairOptions cmc_TrustedBundle asc_TLSKeyPair mon_ServerTLSSecret mon_ClientTLSSecret
     mon_TrustedCertBundle cc_ComplianceServerCertSecret cc_TrustedBundle
     s_Name s_Namespace
     result err after trace
     firstDegraded lastCall isStatusCall statusUpdates applied passthroughs
     countEvents existsb isSetMetaData isOnCRFound orb
     asc_ManagementCluster asc_TunnelCASecret List.last Nat.add].

Ltac check_leaf :=
  cbv beta iota delta [apiserver_checks2 monitor_checks2 compliance_checks2];
  repeat split;
  first [ reflexivity
        | open_check; repeat split; solve_check
        | match goal with
          | |- context [ans_IsFeatureActive ?e ?l ?f] => case (ans_IsFeatureActive e l f)
          end; reflexivity ].

Ltac step2 :=
  lazymatch goal with
  | |- ?G =>
      lazymatch G with
      | context [match ?x with _ => _ end] =>
          let y := scrutinee x in case y; intros; run
      | _ => solve [ check_leaf ]
      end
  end.

Section Pass2.
Context `{Names} (env : Env).

Lemma apiserver_pass2 r request c :
  apiserver_checks2 env (apiservers c) (ans_GetInstallation env) (apiserver.amazonCRDExists r)
    (secrets c !! (OperatorNamespace, VoltronTunnelSecretName))
    (getKeyPairErr env VoltronTunnelSecretName OperatorNamespace)
    (reconciled (apiserver.Reconcile env r request) c).
Proof.
  run. repeat step2.
Qed.

Lemma monitor_pass2 r request c :
  monitor_checks2 (monitors c) (secrets c !! (OperatorNamespace, AlertmanagerConfigSecret))
    (ans_GetManagementClusterConnection env)
    (monitor.tierWatchReady r) (monitor.policyWatchesReady r)
    (ans_IsV3NetworkPolicyReconcilable env TigeraComponentTierName)
    (getTier env TigeraComponentTierName)
    (reconciled (monitor.Reconcile env r request) c).
Proof.
  run. repeat step2.
Qed.

Lemma compliance_pass2 r request c :
  compliance_checks2 (compliances c)
    match ans_FetchLicenseKey env with
    | Ok license => Some (ans_IsFeatureActive env license ComplianceFeature)
    | Fail _ => None
    end
    (ans_GetManagementClusterConnection env)
    (ans_IsAPIServerReady env) (compliance.policyWatchesReady r) (compliance.licenseAPIReady r)
    (getTier env TigeraComponentTierName)
    (reconciled (compliance.Reconcile env r request) c).
Proof.
  run. repeat step2.
Qed.
End Pass2.

(** ** Reading the second pass *)

Lemma existsb_false_In {A} (p : A -> bool) (l : list A) (x : A) :
  existsb p l = false -> In x l -> p x = false.
Proof.
  intros E Hin. destruct (p x) eqn:Hp; [|reflexivity].
  rewrite (existsb_In p x l Hin Hp) in E. discriminate.
Qed.

Lemma In_applied c t : In c (applied t) -> In (EvCreateOrUpdateOrDelete c) t.
Proof.
  induction t as [|e t IH]; simpl; [tauto|].
  destruct e; simpl; auto. intros [->|Hin]; auto.
Qed.

Lemma In_created s t : In (EvCreate s) t -> In s (created t).
Proof.
  induction t as [|e t IH]; simpl; [tauto|].
  intros [->|Hin]; [left; reflexivity|]. destruct e; simpl; auto.
Qed.

Lemma In_statusUpdates k i t : In (EvStatusUpdate k i) t -> In (k, i) (statusUpdates t).
Proof.
  induction t as [|e t IH]; simpl; [tauto|].
  intros [->|Hin]; [left; reflexivity|]. destruct e; simpl; auto.
Qed.

Lemma countEvents_app p t u : countEvents p (t ++ u) = (countEvents p t + countEvents p u)%nat.
Proof. induction t as [|e t IH]; simpl; [reflexivity | rewrite IH; lia]. Qed.

Lemma countEvents_zero p t : countEvents p t = 0%nat -> existsb p t = false.
Proof.
  induction t as [|e t IH]; simpl; [reflexivity|].
  destruct (p e); simpl; [discriminate | exact IH].
Qed.

(** The one event that satisfies [p] is the last one. *)
Lemma last_is_only p t d x :
  List.last t d = x -> p x = true -> countEvents p t = 1%nat ->
  exists pre, t = pre ++ [x] /\ existsb p pre = false.
Proof.
  intros Hlast Hp Hcount.
  destruct t as [|e t]; [discriminate Hcount|].
  assert (Hne : e :: t <> []) by discriminate.
  pose proof (app_removelast_last d Hne) as Hsplit. rewrite Hlast in Hsplit.
  remember (List.removelast (e :: t)) as pre eqn:Hpre. clear Hpre.
  exists pre. split; [exact Hsplit|].
  apply countEvents_zero. rewrite Hsplit, countEvents_app in Hcount.
  cbn [countEvents] in Hcount. rewrite Hp in Hcount. lia.
Qed.

Lemma firstDegraded_In t reason msg :
  firstDegraded t = Some (reason, msg) -> In (EvSetDegraded reason msg) t.
Proof.
  induction t as [|e t IH]; simpl; [discriminate|].
  destruct e; auto. intros E. injection E as -> ->. left. reflexivity.
Qed.

Lemma firstDegraded_None t : firstDegraded t = None -> existsb isSetDegraded t = false.
Proof. induction t as [|e t IH]; simpl; [reflexivity|]. destruct e; simpl; auto. discriminate. Qed.

(** A reconcile that returns at its degraded status sets one only. *)
Lemma firstDegraded_only t reason msg :
  returnsAtDegraded t = true -> In (EvSetDegraded reason msg) t ->
  firstDegraded t = Some (reason, msg).
Proof.
  induction t as [|e t IH]; simpl; [tauto|].
  intros Hret [->|Hin]; [reflexivity|].
  destruct e; try (apply IH; assumption).
  pose proof (proj1 (forallb_forall _ _) Hret _ Hin) as X. discriminate X.
Qed.

Lemma requeueShape_spec k R :
  requeueShape k R = true ->
  Requeue (result R) = false
  /\ (RequeueAfter (result R) = 0
      \/ (RequeueAfter (result R) = 10 * Second /\ err R = None /\ k <> KAPIServer
          /\ existsb isSetDegraded (trace R) = true /\ applied (trace R) = [])
      \/ (RequeueAfter (result R) = 30 * Second /\ err R = None
          /\ existsb isClearDegraded (trace R) = true
          /\ existsb isSetDegraded (trace R) = false)).
Proof.
  unfold requeueShape. intros E.
  apply andb_prop in E as [E1 E2]. apply negb_true_iff in E1. split; [exact E1|].
  apply orb_prop in E2 as [E2|E2]; [left; apply Z.eqb_eq; exact E2|].
  right. apply andb_prop in E2 as [E2 E3]. apply isNil_eq in E2.
  apply orb_prop in E3 as [E3|E3].
  - left. apply andb_prop in E3 as [E3 E6]. apply andb_prop in E3 as [E3 E5].
    apply andb_prop in E3 as [E3 E4]. apply Z.eqb_eq in E3. apply isEmpty_eq in E6.
    repeat split; try assumption. intros ->. discriminate E4.
  - right. apply andb_prop in E3 as [E3 E5]. apply andb_prop in E3 as [E3 E4].
    apply Z.eqb_eq in E3. apply negb_true_iff in E5. auto.
Qed.

Lemma kinds_eqb_eq l m : kinds_eqb l m = true -> l = m.
Proof.
  revert m. induction l as [|a l IH]; intros [|b m]; simpl; try discriminate; [reflexivity|].
  intros E. apply andb_prop in E as [E1 E2]. rewrite (IH _ E2).
  destruct a, b; try discriminate E1; reflexivity.
Qed.

Lemma variantShape_spec installation amazon t v network :
  variantShape installation amazon t = true ->
  installation = Ok (v, network) ->
  (isEnterprise v = false ->
     existsb (isFetchOf isEnterpriseRead) t = false
     /\ (existsb isClearDegraded t = true ->
         map kindOfComponent (applied t) = [KindAPIServer; KindCertificateManagement]))
  /\ (isEnterprise v = true ->
      (existsb (isFetchOf isAmazonCloudIntegration) t = true -> amazon = true)
      /\ (existsb isClearDegraded t = true ->
          map kindOfComponent (applied t)
          = [KindAPIServer; KindCertificateManagement;
             KindPacketCapture; KindCertificateManagement]
          \/ map kindOfComponent (applied t)
             = [KindAPIServer; KindCertificateManagement; KindPassthrough;
                KindPacketCapture; KindCertificateManagement])).
Proof.
  unfold variantShape. intros E ->.
  destruct (existsb (isFetchOf isInstallation) t).
  - destruct (isEnterprise v); split; try discriminate; intros _.
    + apply andb_prop in E as [E1 E2]. split.
      * intros A. rewrite A in E1. destruct amazon; [reflexivity | discriminate E1].
      * intros C. rewrite C in E2. simpl in E2.
        apply orb_prop in E2 as [E2|E2]; apply kinds_eqb_eq in E2; auto.
    + apply andb_prop in E as [E E3]. apply andb_prop in E as [E1 E2].
      apply negb_true_iff in E1. split; [exact E1|].
      intros C. rewrite C in E3. simpl in E3. apply kinds_eqb_eq. exact E3.
  - apply andb_prop in E as [E E3]. apply andb_prop in E as [E1 E2].
    apply negb_true_iff in E2. apply negb_true_iff in E3.
    split; intros _; split; try congruence; auto.
    intros A. apply existsb_exists in A as (x & Hin & Hx).
    pose proof (existsb_false_In _ _ _ E2 Hin) as X.
    destruct x as [[]| | | | | | | | | |]; simpl in *; discriminate.
Qed.

Lemma beforeApply_split t :
  applied t <> [] ->
  exists comp post, t = beforeApply t ++ EvCreateOrUpdateOrDelete comp :: post.
Proof.
  induction t as [|e t IH]; simpl; [congruence|].
  destruct e; simpl; intros Hne;
    try (destruct (IH Hne) as (comp & post & E); exists comp, post; f_equal; exact E).
  eauto.
Qed.


(** ** Reading the guards *)







Lemma licenseBeforeApply_spec pre : forall t comp post,
  licenseBeforeApply t = true ->
  t = pre ++ EvCreateOrUpdateOrDelete comp :: post ->
  In (EvFetch RLicenseKey) pre.
Proof.
  induction pre as [|e pre IH]; intros t comp post Ht ->; simpl in Ht; [discriminate|].
  destruct e as [[]| | | | | | | | | |]; try discriminate;
    try (right; apply (IH _ comp post Ht eq_refl)).
  left. reflexivity.
Qed.

Section SecondPass.
Context `{Names} (env : Env).

(** What the second pass finds for all three controllers. *)
Lemma Reconcile_pass2 ctl request c :
  let R := reconciled (Reconcile env ctl request) c in
  requeueShape (kindOf ctl) R = true
  /\ errorReported R
  /\ degradedWithoutRetry (kindOf ctl) R = true
  /\ statusWrites (kindOf ctl) (getPrimary (kindOf ctl) c) (trace R)
  /\ certificatesMatch (applied (trace R))
  /\ guardsBeforeApply (kindOf ctl) 0 (trace R) = true.
Proof.
  destruct ctl as [r|r|r]; cbn [Reconcile kindOf getPrimary].
  - pose proof (apiserver_pass2 env r request c) as P. unfold apiserver_checks2 in P. tauto.
  - pose proof (monitor_pass2 env r request c) as P. unfold monitor_checks2 in P. tauto.
  - pose proof (compliance_pass2 env r request c) as P. unfold compliance_checks2 in P. tauto.
Qed.
End SecondPass.

(** ** What every reconcile does *)

Ltac find_in := vm_compute; repeat (first [left; reflexivity | right]).

Section ReconcileProperties.
Context `{Names} (env : Env).

(** C2.  Every reconcile of the three controllers starts with the fetch of
    its primary custom resource.  When that fetch answers a not-found
    error, Reconcile calls [OnCRNotFound] on the status manager and
    returns the empty result with a nil error: nothing else happens and
    the request is not requeued. *)
Theorem C2_primary_not_found (ctl : Controller) (request : Request) (c : Cluster) :
  let R := reconciled (Reconcile env ctl request) c in
  (exists rest, trace R = EvFetch (RPrimary (kindOf ctl)) :: rest) /\
  (forall e,
      outcome (client.GetPrimary env (kindOf ctl) c) = Next (Fail e) ->
      notFound e = true ->
      R = {| result := emptyResult; err := None; after := c;
             trace := [EvFetch (RPrimary (kindOf ctl)); EvOnCRNotFound] |}).
Proof.
  split.
  - apply startsWithPrimaryFetch_spec. apply Reconcile_audit.
  - intros [nf msg] He Hnf. simpl in Hnf. subst nf.
    destruct ctl; simpl in *; revert He; run; intros He;
      injection He as He; rewrite He; reflexivity.
Qed.


(** C4, as amended.  In the APIServer and the Compliance controllers, when
    a ManagementCluster and a ManagementClusterConnection both exist and
    the reconcile gets to read the ManagementClusterConnection (the guards
    before it pass and, for the APIServer, the variant is
    TigeraSecureEnterprise), Reconcile sets a degraded status with reason
    ResourceValidationError, returns the error that having both is not
    supported, and hands no component to the handler. *)
Theorem C4_both_management_resources (ctl : Controller) (request : Request) (c : Cluster)
    (mc : ManagementCluster) (mcc : ManagementClusterConnection) :
  kindOf ctl = KAPIServer \/ kindOf ctl = KCompliance ->
  ans_GetManagementCluster env = Ok (Some mc) ->
  ans_GetManagementClusterConnection env = Ok (Some mcc) ->
  let R := reconciled (Reconcile env ctl request) c in
  In (EvFetch RManagementClusterConnection) (trace R) ->
  err R = Some bothNotSupported
  /\ result R = emptyResult
  /\ (exists msg, In (EvSetDegraded (Typed ResourceValidationError) msg) (trace R))
  /\ applied (trace R) = [].
Proof.
  intros Hk Hmc Hmcc R Hin.
  assert (Hboth : bothManagementResources env = true)
    by (unfold bothManagementResources; rewrite Hmc, Hmcc; reflexivity).
  destruct ctl as [r|r|r]; simpl in Hk; [| destruct Hk; discriminate |].
  - pose proof (apiserver_audit env r request c) as A. unfold apiserver_checks in A.
    apply andb_prop in A as [_ A]. eapply rejectsBoth_spec; eassumption.
  - pose proof (compliance_audit env r request c) as A. unfold compliance_checks in A.
    apply andb_prop in A as [_ A]. eapply rejectsBoth_spec; eassumption.
Qed.

(** C5.  In every reconcile of the three controllers that gets to clear
    the degraded status (all components were applied): when the status
    manager is not available, Reconcile returns a requeue after exactly 30
    seconds with a nil error; otherwise the last update of a status
    subresource is that of the primary resource with Status.State set to
    TigeraStatusReady, and the result is empty. *)
Theorem C5_after_apply (ctl : Controller) (request : Request) (c : Cluster) :
  let R := reconciled (Reconcile env ctl request) c in
  In EvClearDegraded (trace R) ->
  (ans_IsAvailable env = false ->
     result R = requeueAfter (30 * Second) /\ err R = None) /\
  (ans_IsAvailable env = true ->
     result R = emptyResult /\
     exists i, lastStatusUpdate (trace R) = Some (kindOf ctl, i)
               /\ In (EvStatusUpdate (kindOf ctl) i) (trace R)
               /\ Status_State i = TigeraStatusReady).
Proof.
  intros R Hin.
  destruct (Reconcile_audit env ctl request c) as (_ & _ & _ & A).
  destruct (afterClearDegraded_spec _ _ _ A Hin) as [A1 A2].
  split; [exact A1|]. intros Ha. destruct (A2 Ha) as (E & i & Hi & Hs).
  split; [exact E|]. exists i. auto using lastStatusUpdate_In.
Qed.


(** C8, as amended.  Only the Compliance controller fetches the
    LicenseKey.  In every Compliance reconcile the LicenseKey is fetched
    before any component is handed to the handler, it is fetched at most
    once, and only when the LicenseKey API is ready.  No reconcile of the
    APIServer controller and none of the Monitor controller fetches it. *)
Theorem C8_license_key_fetch
    (ra : apiserver.ReconcileAPIServer) (rm : monitor.ReconcileMonitor)
    (rc : compliance.ReconcileCompliance) (request : Request) (c : Cluster) :
  noLicenseFetch (trace (reconciled (apiserver.Reconcile env ra request) c)) = true
  /\ noLicenseFetch (trace (reconciled (monitor.Reconcile env rm request) c)) = true
  /\ (let t := trace (reconciled (compliance.Reconcile env rc request) c) in
      (forall pre comp post,
         t = pre ++ EvCreateOrUpdateOrDelete comp :: post -> In (EvFetch RLicenseKey) pre)
      /\ (In (EvFetch RLicenseKey) t -> compliance.licenseAPIReady rc = true)
      /\ (countEvents (isFetchOf isLicenseKey) t <= 1)%nat).
Proof.
  pose proof (apiserver_audit env ra request c) as A. unfold apiserver_checks in A.
  pose proof (monitor_audit env rm request c) as B. unfold monitor_checks in B.
  pose proof (compliance_pass2 env rc request c) as P. unfold compliance_checks2 in P.
  repeat (apply andb_prop in A as [A ?]).
  repeat (apply andb_prop in B as [B ?]).
  destruct P as (_ & _ & _ & _ & _ & _ & _ & _ & _ & _ & _ & _ & P1 & P2).
  split; [assumption|]. split; [assumption|]. intros t. fold t in P1, P2.
  unfold licenseWhenReady in P2. apply andb_prop in P2 as [P2 P3].
  split; [|split].
  - intros pre comp post E. exact (licenseBeforeApply_spec _ _ _ _ P1 E).
  - intros Hin. rewrite (existsb_In (isFetchOf isLicenseKey) _ _ Hin eq_refl) in P2.
    exact P2.
  - apply Nat.leb_le. exact P3.
Qed.
End ReconcileProperties.

(** C2 at work: no APIServer resource in the cluster. *)
Lemma C2_witness :
  notFound (Err true "not found") = true
  /\ demoRun (demoEnv Calico None None true) (APIServerController demoAPIServer) someRequest
       emptyCluster
     = {| result := emptyResult; err := None; after := emptyCluster;
          trace := [EvFetch (RPrimary KAPIServer); EvOnCRNotFound] |}.
Proof.
  split; [reflexivity|].
  apply (proj2 (@C2_primary_not_found demoNames (demoEnv Calico None None true)
                  (APIServerController demoAPIServer) someRequest emptyCluster)
           (Err true "not found")); reflexivity.
Defined.



(** C4 as stated fails: with the Calico variant the APIServer reconcile
    never looks at the management cluster resources; both exist, and it
    applies its components and returns no error. *)
Lemma C4_counterexample :
  let env := demoEnv Calico (Some {| mc_id := "tigera-secure" |})
               (Some {| mcc_Spec := {| ManagementClusterAddr := "10.128.0.10:30449" |};
                        mcc_Status := {| mcc_Conditions := [] |} |}) true in
  let R := demoRun env (APIServerController demoAPIServer) someRequest (demoCluster 2 false ∅) in
  bothManagementResources env = true
  /\ err R = None
  /\ existsb isSetDegraded (trace R) = false
  /\ length (applied (trace R)) = 2%nat.
Proof. vm_compute. auto. Qed.

(** C4 at work: the enterprise variant, both resources. *)
Lemma C4_witness :
  let mc := {| mc_id := "tigera-secure" |} in
  let mcc := {| mcc_Spec := {| ManagementClusterAddr := "10.128.0.10:30449" |};
                mcc_Status := {| mcc_Conditions := [] |} |} in
  let R := demoRun (demoEnv TigeraSecureEnterprise (Some mc) (Some mcc) true)
             (APIServerController demoAPIServer) someRequest (demoCluster 2 false ∅) in
  err R = Some bothNotSupported
  /\ result R = emptyResult
  /\ (exists msg, In (EvSetDegraded (Typed ResourceValidationError) msg) (trace R))
  /\ applied (trace R) = [].
Proof.
  intros mc mcc.
  assert (Hin : In (EvFetch RManagementClusterConnection)
                  (trace (demoRun (demoEnv TigeraSecureEnterprise (Some mc) (Some mcc) true)
                            (APIServerController demoAPIServer) someRequest
                            (demoCluster 2 false ∅))))
    by (apply In_fetch_ManagementClusterConnection; vm_compute; reflexivity).
  exact (@C4_both_management_resources demoNames
           (demoEnv TigeraSecureEnterprise (Some mc) (Some mcc) true)
           (APIServerController demoAPIServer) someRequest (demoCluster 2 false ∅) mc mcc
           (or_introl eq_refl) eq_refl eq_refl Hin).
Defined.

(** C5 at work: a Monitor reconcile that applies everything, with the
    status manager available. *)
Lemma C5_witness :
  let R := demoRun (demoEnv TigeraSecureEnterprise None None true)
             (MonitorController (demoMonitor true)) someRequest (demoCluster 2 false ∅) in
  result R = emptyResult
  /\ exists i, lastStatusUpdate (trace R) = Some (KMonitor, i)
               /\ In (EvStatusUpdate KMonitor i) (trace R)
               /\ Status_State i = TigeraStatusReady.
Proof.
  assert (Hin : In EvClearDegraded
                  (trace (demoRun (demoEnv TigeraSecureEnterprise None None true)
                            (MonitorController (demoMonitor true)) someRequest
                            (demoCluster 2 false ∅))))
    by (apply In_isClearDegraded; vm_compute; reflexivity).
  exact (proj2 (@C5_after_apply demoNames (demoEnv TigeraSecureEnterprise None None true)
                  (MonitorController (demoMonitor true)) someRequest (demoCluster 2 false ∅) Hin)
           eq_refl).
Defined.



(** C8 as stated fails: an APIServer reconcile runs to its end, components
    applied and degraded status cleared, without any fetch of the
    LicenseKey. *)
Lemma C8_counterexample :
  let R := demoRun (demoEnv TigeraSecureEnterprise None None true)
             (APIServerController demoAPIServer) someRequest (demoCluster 2 false ∅) in
  err R = None
  /\ existsb isClearDegraded (trace R) = true
  /\ existsb (isFetchOf isLicenseKey) (trace R) = false.
Proof. vm_compute. auto. Qed.

(** C8 at work: a Compliance reconcile that applies its components has
    fetched the LicenseKey before the first of them, the LicenseKey API
    being ready. *)
Lemma C8_witness :
  let R := demoRun (demoEnv TigeraSecureEnterprise None None true)
             (ComplianceController (demoCompliance true)) someRequest (demoCluster 2 false ∅) in
  In (EvFetch RLicenseKey) (beforeApply (trace R))
  /\ compliance.licenseAPIReady (demoCompliance true) = true.
Proof.
  intros R.
  pose proof (proj2 (proj2 (@C8_license_key_fetch demoNames
                              (demoEnv TigeraSecureEnterprise None None true)
                              demoAPIServer (demoMonitor true) (demoCompliance true) someRequest
                              (demoCluster 2 false ∅)))) as (A & B & _).
  assert (Hne : applied (trace R) <> []) by (vm_compute; discriminate).
  destruct (beforeApply_split _ Hne) as (comp & post & Hsplit).
  pose proof (A _ _ _ Hsplit) as Hin.
  split; [exact Hin|].
  apply B. find_in.
Defined.

(** ** The setup of the controllers *)

Ltac setup :=
  cbv beta iota zeta delta
    [apiserver.add apiserver.Add apiserver.newReconciler monitor.Add compliance.Add
     sbind sret call try sfor fst snd app
     apiserver.amazonCRDExists apiserver.enterpriseCRDsExist].

Ltac setup_step tac :=
  lazymatch goal with
  | |- ?G =>
      lazymatch G with
      | context [match ?x with _ => _ end] =>
          let y := scrutinee x in case y; intros
      end
  end; setup; try tac.

Section SetupProperties.
Context `{Names} (setupErr : SetupCall -> option error).

(** C7.  The enterprise flag decides what the setup creates.  When
    [opts.EnterpriseCRDExists] is false, [monitor.Add] and
    [compliance.Add] return nil at once: no controller, no status manager,
    no watch.  [apiserver.add] watches ManagementCluster,
    ManagementClusterConnection, the Voltron tunnel secret (in the
    operator namespace and in the enterprise API server namespace) and
    Authentication only when [r.enterpriseCRDsExist] is true: with the
    flag false none of these watches is made, with the flag true a setup
    that succeeds has made all of them.  (The Voltron tunnel secret is
    told from the secrets watched in any case by its name.) *)
Theorem C7_enterprise_flag (opts : AddOptions) (r : apiserver.ReconcileAPIServer) :
  forallb (fun name => negb (String.eqb name VoltronTunnelSecretName)) alwaysWatchedSecrets = true ->
  (EnterpriseCRDExists opts = false ->
     monitor.Add setupErr opts = ([], Ok tt) /\ compliance.Add setupErr opts = ([], Ok tt))
  /\ (apiserver.enterpriseCRDsExist r = false ->
        existsb isEnterpriseWatch (fst (apiserver.add setupErr r)) = false)
  /\ (apiserver.enterpriseCRDsExist r = true ->
        snd (apiserver.add setupErr r) = Ok tt ->
        In (Watch WManagementCluster) (fst (apiserver.add setupErr r))
        /\ In (Watch WManagementClusterConnection) (fst (apiserver.add setupErr r))
        /\ In (AddSecretsWatch VoltronTunnelSecretName OperatorNamespace)
             (fst (apiserver.add setupErr r))
        /\ In (AddSecretsWatch VoltronTunnelSecretName (APIServerNamespace TigeraSecureEnterprise))
             (fst (apiserver.add setupErr r))
        /\ In (Watch WAuthentication) (fst (apiserver.add setupErr r))).
Proof.
  intros Hnames. unfold alwaysWatchedSecrets in Hnames. cbn [forallb] in Hnames.
  repeat (apply andb_prop in Hnames as [?%negb_true_iff Hnames]).
  split; [|split].
  - intros E. unfold monitor.Add, compliance.Add. rewrite E. split; reflexivity.
  - destruct r as [p a e d]. cbn [apiserver.enterpriseCRDsExist]. intros ->.
    setup.
    repeat setup_step
      ltac:(cbn [existsb isEnterpriseWatch orb];
            repeat match goal with
                   | E : String.eqb _ _ = false |- _ => rewrite E; clear E
                   end;
            reflexivity).
  - destruct r as [p a e d]. cbn [apiserver.enterpriseCRDsExist]. intros ->.
    pattern (apiserver.add setupErr {| apiserver.provider := p; apiserver.amazonCRDExists := a;
                                       apiserver.enterpriseCRDsExist := true;
                                       apiserver.clusterDomain := d |}).
    match goal with |- ?P _ => set (Q := P) end.
    setup.
    repeat setup_step
      ltac:(subst Q; cbv beta iota delta [fst snd];
            let X := fresh in
            intros X; solve [ discriminate X | cbn [In]; repeat split; auto 30 ]).
Qed.
End SetupProperties.

(** C7 at work: without the enterprise CRDs [monitor.Add] and
    [compliance.Add] do nothing; with them, on a manager where no call
    fails, [apiserver.add] watches the Voltron tunnel secret in the operator
    namespace. *)
Lemma C7_witness :
  (@monitor.Add demoNames noSetupErr (demoOptions false) = ([], Ok tt)
   /\ @compliance.Add demoNames noSetupErr (demoOptions false) = ([], Ok tt))
  /\ In (AddSecretsWatch "tigera-management-cluster-connection" "tigera-operator")
        (fst (@apiserver.add demoNames noSetupErr demoAPIServer)).
Proof.
  pose proof (@C7_enterprise_flag demoNames noSetupErr (demoOptions false) demoAPIServer eq_refl)
    as (A & _ & B).
  split; [exact (A eq_refl)|].
  exact (proj1 (proj2 (proj2 (B eq_refl eq_refl)))).
Defined.

(** ** The Alertmanager configuration secret *)

Section Alertmanager.
Context `{Names} (env : Env).

Ltac passthrough_leaf :=
  cbv beta iota delta [passthroughWhenFlagged];
  first [ reflexivity | left; reflexivity | right; split; reflexivity ].

Ltac passthrough_step :=
  lazymatch goal with
  | |- ?G =>
      lazymatch G with
      | context [match ?x with _ => _ end] =>
          let y := scrutinee x in case y; intros
      end
  end; run;
  lazymatch goal with
  | |- context [match _ with _ => _ end] => idtac
  | _ => passthrough_leaf
  end.

Lemma monitor_passthrough r request c :
  passthroughWhenFlagged (reconciled (monitor.Reconcile env r request) c)
    (outcome (monitor.readAlertmanagerConfigSecret env c)).
Proof. run. repeat passthrough_step. Qed.

(** C10.  [readAlertmanagerConfigSecret] resolves the Alertmanager
    configuration secret with a fixed precedence (when the reads do not
    fail).  Found in the operator namespace, the secret is returned as it
    is with the flag false, and the cluster is left as it was.  Otherwise,
    found in the tigera-prometheus namespace, its copy to the operator
    namespace is returned: with the flag true when its data equals that
    of the embedded default configuration (nothing is created), and,
    when the data differs, with the flag false after the copy was created
    directly through the client.  Found in neither namespace, the default
    secret is returned with the flag true.  In every Monitor reconcile
    the secret is handed to the handler as a passthrough component only
    when the flag is true: then it is the one passthrough component (or
    the reconcile stops before it applies its components), otherwise no
    passthrough component is applied. *)
Theorem C10_alertmanager_config_secret
    (r : monitor.ReconcileMonitor) (request : Request) (c : Cluster) :
  let A := monitor.readAlertmanagerConfigSecret env c in
  let inOperator := lookupSecret AlertmanagerConfigSecret OperatorNamespace c in
  let inPrometheus := lookupSecret AlertmanagerConfigSecret TigeraPrometheusNamespace c in
  (getSecretErr env AlertmanagerConfigSecret OperatorNamespace = None ->
     (forall secret, inOperator = Some secret ->
        outcome A = Next (Ok (secret, false)) /\ final A = c)
     /\ (inOperator = None ->
         getSecretErr env AlertmanagerConfigSecret TigeraPrometheusNamespace = None ->
         (forall secret, inPrometheus = Some secret ->
            let s := CopyToNamespace OperatorNamespace secret in
            (s_Data secret = s_Data defaultConfigSecret ->
               outcome A = Next (Ok (s, true)) /\ final A = c)
            /\ (s_Data secret <> s_Data defaultConfigSecret ->
                createErr env s = None ->
                outcome A = Next (Ok (s, false)) /\ final A = putSecret s c
                /\ In (EvCreate s) (events A)))
         /\ (inPrometheus = None ->
             outcome A = Next (Ok (defaultConfigSecret, true)) /\ final A = c)))
  /\ passthroughWhenFlagged (reconciled (monitor.Reconcile env r request) c) (outcome A).
Proof.
  intros A inOperator inPrometheus. split; [|apply monitor_passthrough].
  subst A inOperator inPrometheus. unfold defaultConfigSecret, lookupSecret.
  destruct c as [ca cm cc ts ss].
  intros E1. run. rewrite E1. split.
  - intros secret E. rewrite E. split; reflexivity.
  - intros E E2. rewrite E2.
    destruct (ss !! (OperatorNamespace, AlertmanagerConfigSecret)) as [d0|] eqn:E0;
      [discriminate|]. clear E.
    split.
    + intros secret E3.
      destruct (ss !! (TigeraPrometheusNamespace, AlertmanagerConfigSecret)) as [d|];
        [|discriminate].
      injection E3 as <-. run. split.
      * intros Ed.
        rewrite bool_decide_eq_true_2 by (symmetry; exact Ed). split; reflexivity.
      * intros Ed Ec.
        rewrite bool_decide_eq_false_2 by (intros X; apply Ed; symmetry; exact X).
        run. rewrite E0. rewrite Ec. run. repeat split. cbn. auto.
    + intros E3.
      destruct (ss !! (TigeraPrometheusNamespace, AlertmanagerConfigSecret)) as [d|];
        [discriminate|].
      split; reflexivity.
Qed.
End Alertmanager.

(** C10 at work: an upgrade, with a configuration the user has changed in
    the tigera-prometheus namespace.  Its copy is created in the operator
    namespace and left unmanaged. *)
Lemma C10_witness :
  let c := demoCluster 2 false
             {[ ("tigera-prometheus", "alertmanager-calico-node-alertmanager")
                := s_Data customAlertmanagerSecret ]} in
  let s := CopyToNamespace "tigera-operator" customAlertmanagerSecret in
  let A := @monitor.readAlertmanagerConfigSecret demoNames
             (demoEnv TigeraSecureEnterprise None None true) c in
  outcome A = Next (Ok (s, false)) /\ final A = putSecret s c /\ In (EvCreate s) (events A).
Proof.
  intros c s A.
  assert (Hop : @lookupSecret "alertmanager-calico-node-alertmanager" "tigera-operator" c = None)
    by (vm_compute; reflexivity).
  assert (Hprom : @lookupSecret "alertmanager-calico-node-alertmanager" "tigera-prometheus" c
                  = Some customAlertmanagerSecret)
    by (vm_compute; reflexivity).
  assert (Hdata : s_Data customAlertmanagerSecret <> s_Data (@defaultConfigSecret demoNames)).
  { intros X. apply (f_equal (fun m : gmap string string => m !! "alertmanager.yaml")) in X.
    vm_compute in X. discriminate X. }
  exact (proj2 (proj1 (proj2 (proj1 (@C10_alertmanager_config_secret demoNames
                                       (demoEnv TigeraSecureEnterprise None None true)
                                       (demoMonitor true) someRequest c) eq_refl)
                         Hop eq_refl) customAlertmanagerSecret Hprom) Hdata eq_refl).
Defined.

(** ** The copy of the TigeraStatus conditions *)

Lemma conditionType_inj a b : status.conditionType a = status.conditionType b -> a = b.
Proof. destruct a, b; simpl; congruence. Qed.

Lemma setCondition_In ic l : In ic (status.setCondition ic l).
Proof.
  unfold status.setCondition.
  destruct (existsb (status.hasType (c_Type ic)) l) eqn:E.
  - apply existsb_exists in E as (x & Hin & Hx).
    apply in_map_iff. exists x. rewrite Hx. auto.
  - apply in_or_app. right. left. reflexivity.
Qed.

Lemma setCondition_keeps ic c l :
  In c l -> c_Type c <> c_Type ic -> In c (status.setCondition ic l).
Proof.
  intros Hin Hne. unfold status.setCondition.
  destruct (existsb (status.hasType (c_Type ic)) l).
  - apply in_map_iff. exists c. split; [|exact Hin].
    unfold status.hasType. destruct (String.eqb_spec (c_Type c) (c_Type ic)); congruence.
  - apply in_or_app. left. exact Hin.
Qed.

Lemma setCondition_observed g ty ic l :
  c_ObservedGeneration ic = g ->
  (exists c, In c l /\ c_Type c = ty /\ c_ObservedGeneration c = g) ->
  exists c, In c (status.setCondition ic l) /\ c_Type c = ty /\ c_ObservedGeneration c = g.
Proof.
  intros Hg (c & Hin & Hty & Hc).
  destruct (String.eqb_spec (c_Type c) (c_Type ic)) as [E|E].
  - exists ic. split; [apply setCondition_In|]. split; congruence.
  - exists c. split; [apply setCondition_keeps; assumption|]. auto.
Qed.

(** Every condition of the TigeraStatus has its counterpart, with the
    generation handed in. *)
Lemma UpdateStatusCondition_observed g conditions : forall acc ty,
  (exists c, In c acc /\ c_Type c = ty /\ c_ObservedGeneration c = g)
  \/ (exists tc, In tc conditions /\ status.conditionType (tsc_Type tc) = ty) ->
  exists c, In c (status.UpdateStatusCondition acc conditions g)
            /\ c_Type c = ty /\ c_ObservedGeneration c = g.
Proof.
  unfold status.UpdateStatusCondition.
  induction conditions as [|x rest IH]; intros acc ty; simpl.
  - intros [Hc|(tc & [] & _)]. exact Hc.
  - intros [Hc|(tc & [->|Hin] & Hty)]; apply IH.
    + left. apply setCondition_observed; [reflexivity | exact Hc].
    + left. exists (status.toCondition g tc).
      split; [apply setCondition_In|]. split; [exact Hty | reflexivity].
    + right. eauto.
Qed.

Lemma UpdateStatusCondition_keeps g conditions : forall acc c,
  In c acc ->
  (forall tc, In tc conditions -> status.conditionType (tsc_Type tc) <> c_Type c) ->
  In c (status.UpdateStatusCondition acc conditions g).
Proof.
  unfold status.UpdateStatusCondition.
  induction conditions as [|x rest IH]; intros acc c Hin Hne; simpl; [exact Hin|].
  apply IH.
  - apply setCondition_keeps; [exact Hin|]. intros E. apply (Hne x); [left; reflexivity|].
    rewrite E. reflexivity.
  - intros tc Htc. apply Hne. right. exact Htc.
Qed.

(** When the TigeraStatus has one condition of a type, each is copied as
    it is. *)
Lemma UpdateStatusCondition_copies g conditions : forall acc tc,
  List.NoDup (map tsc_Type conditions) ->
  In tc conditions ->
  In (status.toCondition g tc) (status.UpdateStatusCondition acc conditions g).
Proof.
  induction conditions as [|x rest IH]; intros acc tc Hnd Hin; [destruct Hin|].
  inversion Hnd as [|? ? Hx Hrest]; subst.
  destruct Hin as [->|Hin].
  - change (status.UpdateStatusCondition acc (tc :: rest) g)
      with (status.UpdateStatusCondition (status.setCondition (status.toCondition g tc) acc) rest g).
    apply UpdateStatusCondition_keeps; [apply setCondition_In|].
    intros tc' Hin' E. simpl in E. apply conditionType_inj in E.
    apply Hx. rewrite <- E. apply in_map. exact Hin'.
  - change (status.UpdateStatusCondition acc (x :: rest) g)
      with (status.UpdateStatusCondition (status.setCondition (status.toCondition g x) acc) rest g).
    apply IH; assumption.
Qed.

(** The copy of the conditions, whatever generation is recorded. *)
Lemma UpdateStatusConditionWith_typed observed conditions : forall acc ty,
  (exists c, In c acc /\ c_Type c = ty)
  \/ (exists tc, In tc conditions /\ status.conditionType (tsc_Type tc) = ty) ->
  exists c, In c (status.UpdateStatusConditionWith observed acc conditions) /\ c_Type c = ty.
Proof.
  unfold status.UpdateStatusConditionWith.
  induction conditions as [|x rest IH]; intros acc ty; simpl.
  - intros [Hc|(tc & [] & _)]. exact Hc.
  - intros [(c & Hin & Hty)|(tc & [->|Hin] & Hty)]; apply IH.
    + left. destruct (String.eqb_spec (c_Type c) (status.conditionType (tsc_Type x))) as [E|E].
      * exists (status.toCondition (observed x) x). split; [apply setCondition_In|].
        simpl. congruence.
      * exists c. split; [apply setCondition_keeps; assumption | exact Hty].
    + left. exists (status.toCondition (observed tc) tc).
      split; [apply setCondition_In | exact Hty].
    + right. eauto.
Qed.

Lemma UpdateStatusConditionWith_keeps observed conditions : forall acc c,
  In c acc ->
  (forall tc, In tc conditions -> status.conditionType (tsc_Type tc) <> c_Type c) ->
  In c (status.UpdateStatusConditionWith observed acc conditions).
Proof.
  unfold status.UpdateStatusConditionWith.
  induction conditions as [|x rest IH]; intros acc c Hin Hne; simpl; [exact Hin|].
  apply IH.
  - apply setCondition_keeps; [exact Hin|]. intros E. apply (Hne x); [left; reflexivity|].
    rewrite E. reflexivity.
  - intros tc Htc. apply Hne. right. exact Htc.
Qed.

Lemma UpdateStatusConditionWith_copies observed conditions : forall acc tc,
  List.NoDup (map tsc_Type conditions) ->
  In tc conditions ->
  In (status.toCondition (observed tc) tc)
    (status.UpdateStatusConditionWith observed acc conditions).
Proof.
  induction conditions as [|x rest IH]; intros acc tc Hnd Hin; [destruct Hin|].
  inversion Hnd as [|? ? Hx Hrest]; subst.
  destruct Hin as [->|Hin].
  - change (status.UpdateStatusConditionWith observed acc (tc :: rest))
      with (status.UpdateStatusConditionWith observed
              (status.setCondition (status.toCondition (observed tc) tc) acc) rest).
    apply UpdateStatusConditionWith_keeps; [apply setCondition_In|].
    intros tc' Hin' E. simpl in E. apply conditionType_inj in E.
    apply Hx. rewrite <- E. apply in_map. exact Hin'.
  - change (status.UpdateStatusConditionWith observed acc (x :: rest))
      with (status.UpdateStatusConditionWith observed
              (status.setCondition (status.toCondition (observed x) x) acc) rest).
    apply IH; assumption.
Qed.

Lemma allObserve_two gA gB l : gA <> gB -> allObserve gA l -> allObserve gB l -> l = [].
Proof.
  intros Hne HA HB. destruct l as [|x l]; [reflexivity|].
  inversion HA; inversion HB; subst. congruence.
Qed.

Section Conditions.
Context `{Names} (env : Env).

Ltac continue_step :=
  lazymatch goal with
  | |- ?G =>
      lazymatch G with
      | context [match ?x with _ => _ end] =>
          let y := scrutinee x in case y; intros
      end
  end; run; try (eexists; reflexivity).

Lemma apiserver_conditions r request c instance ts :
  isConditionsRequest apiserver.ResourceName request = true ->
  getPrimaryErr env = None -> apiservers c = Some instance ->
  getTigeraStatusErr env = None -> tigerastatuses c !! apiserver.ResourceName = Some ts ->
  updateConditionsErr env = None ->
  let updated :=
    withConditions
      (status.UpdateStatusCondition (Status_Conditions instance) (ts_Conditions ts)
         (Generation instance)) instance in
  reconciled (apiserver.Reconcile env r request) c
  = {| result := emptyResult; err := None;
       after := setPrimary KAPIServer updated c;
       trace := conditionsPrefix KAPIServer apiserver.ResourceName updated |}.
Proof.
  unfold isConditionsRequest. intros E1 E2 E3 E4 E5 E6.
  apply andb_prop in E1 as [Ea Eb].
  destruct c as [ca cm cc tss ss]. cbn [apiservers tigerastatuses] in E3, E5.
  run. rewrite Ea, Eb, E2, E3, E4, E5, E6. reflexivity.
Qed.

Lemma monitor_continues r request c instance ts :
  isConditionsRequest monitor.ResourceName request = true ->
  getPrimaryErr env = None -> monitors c = Some instance ->
  getTigeraStatusErr env = None -> tigerastatuses c !! monitor.ResourceName = Some ts ->
  updateConditionsErr env = None ->
  continuesWith RInstallation
    (conditionsPrefix KMonitor monitor.ResourceName
       (withConditions
          (ans_UpdateStatusCondition env (Status_Conditions instance) (ts_Conditions ts))
          instance))
    (trace (reconciled (monitor.Reconcile env r request) c)).
Proof.
  unfold isConditionsRequest, continuesWith, conditionsPrefix. intros E1 E2 E3 E4 E5 E6.
  apply andb_prop in E1 as [Ea Eb].
  destruct c as [ca cm cc tss ss]. cbn [monitors tigerastatuses] in E3, E5.
  run. rewrite Ea, Eb, E2, E3, E4, E5, E6. run.
  repeat continue_step.
Qed.

Lemma compliance_continues r request c instance ts :
  isConditionsRequest compliance.ResourceName request = true ->
  getPrimaryErr env = None -> compliances c = Some instance ->
  getTigeraStatusErr env = None -> tigerastatuses c !! compliance.ResourceName = Some ts ->
  updateConditionsErr env = None ->
  continuesWith RAPIServerReady
    (conditionsPrefix KCompliance compliance.ResourceName
       (withConditions
          (ans_UpdateStatusCondition env (Status_Conditions instance) (ts_Conditions ts))
          instance))
    (trace (reconciled (compliance.Reconcile env r request) c)).
Proof.
  unfold isConditionsRequest, continuesWith, conditionsPrefix. intros E1 E2 E3 E4 E5 E6.
  apply andb_prop in E1 as [Ea Eb].
  destruct c as [ca cm cc tss ss]. cbn [compliances tigerastatuses] in E3, E5.
  run. rewrite Ea, Eb, E2, E3, E4, E5, E6. run.
  repeat continue_step.
Qed.

(** C9, as amended.  When a reconcile request has Name equal to the
    controller's ResourceName and an empty Namespace, and the primary
    resource and the TigeraStatus of that name are read and the update of
    the status subresource succeeds, each controller writes the outcome of
    [status.UpdateStatusCondition] to the Status.Conditions of the
    primary resource.  The APIServer controller hands it the generation
    of the custom resource: every condition of the TigeraStatus has its
    counterpart (Available as type Ready, Progressing as Progressing,
    Degraded as Degraded) with ObservedGeneration equal to that
    generation, and the reconcile then returns the empty result and a nil
    error at once, nothing rendered or applied.  The Monitor and the
    Compliance controllers call it on the two lists of conditions alone,
    without the generation: when that function copies the conditions as
    the three-argument one does, whatever ObservedGeneration it records,
    every condition of the TigeraStatus has its counterpart of the mapped
    type in the conditions written, and with one condition of a type each
    is copied with its status, reason and message.  Both go on
    reconciling: the next step of Monitor reads the Installation, that of
    Compliance asks whether the API server is ready. *)
Theorem C9_status_conditions (ctl : Controller) (request : Request) (c : Cluster)
    (instance : CustomResource) (ts : TigeraStatus) :
  isConditionsRequest (resourceNameOf ctl) request = true ->
  getPrimaryErr env = None -> getPrimary (kindOf ctl) c = Some instance ->
  getTigeraStatusErr env = None -> tigerastatuses c !! resourceNameOf ctl = Some ts ->
  updateConditionsErr env = None ->
  let R := reconciled (Reconcile env ctl request) c in
  let copied conditions observed :=
    (forall tc, In tc (ts_Conditions ts) ->
       exists cond, In cond conditions /\ c_Type cond = status.conditionType (tsc_Type tc))
    /\ (List.NoDup (map tsc_Type (ts_Conditions ts)) ->
        forall tc, In tc (ts_Conditions ts) ->
          exists cond, In cond conditions
                       /\ c_Type cond = status.conditionType (tsc_Type tc)
                       /\ c_Status cond = tsc_Status tc
                       /\ c_Reason cond = tsc_Reason tc
                       /\ c_Message cond = tsc_Message tc
                       /\ c_ObservedGeneration cond = observed tc) in
  map status.conditionType [ComponentAvailable; ComponentProgressing; ComponentDegraded]
  = ["Ready"; "Progressing"; "Degraded"]
  /\ match ctl with
     | APIServerController _ =>
         let conditions :=
           status.UpdateStatusCondition (Status_Conditions instance) (ts_Conditions ts)
             (Generation instance) in
         R = {| result := emptyResult; err := None;
                after := setPrimary KAPIServer (withConditions conditions instance) c;
                trace := conditionsPrefix KAPIServer apiserver.ResourceName
                           (withConditions conditions instance) |}
         /\ (forall tc, In tc (ts_Conditions ts) ->
               exists cond, In cond conditions
                            /\ c_Type cond = status.conditionType (tsc_Type tc)
                            /\ c_ObservedGeneration cond = Generation instance)
         /\ (List.NoDup (map tsc_Type (ts_Conditions ts)) ->
             forall tc, In tc (ts_Conditions ts) ->
                        In (status.toCondition (Generation instance) tc) conditions)
         /\ copied conditions (fun _ => Generation instance)
     | MonitorController _ =>
         let conditions :=
           ans_UpdateStatusCondition env (Status_Conditions instance) (ts_Conditions ts) in
         continuesWith RInstallation
           (conditionsPrefix KMonitor monitor.ResourceName (withConditions conditions instance))
           (trace R)
         /\ forall observed,
              (forall old new,
                 ans_UpdateStatusCondition env old new
                 = status.UpdateStatusConditionWith observed old new) ->
              copied conditions observed
     | ComplianceController _ =>
         let conditions :=
           ans_UpdateStatusCondition env (Status_Conditions instance) (ts_Conditions ts) in
         continuesWith RAPIServerReady
           (conditionsPrefix KCompliance compliance.ResourceName
              (withConditions conditions instance))
           (trace R)
         /\ forall observed,
              (forall old new,
                 ans_UpdateStatusCondition env old new
                 = status.UpdateStatusConditionWith observed old new) ->
              copied conditions observed
     end.
Proof.
  intros E1 E2 E3 E4 E5 E6 R copied. subst R.
  assert (Hcopy : forall observed old,
            copied (status.UpdateStatusConditionWith observed old (ts_Conditions ts)) observed).
  { intros observed old. split.
    - intros tc Hin. apply UpdateStatusConditionWith_typed. right. eauto.
    - intros Hnd tc Hin. exists (status.toCondition (observed tc) tc).
      split; [apply UpdateStatusConditionWith_copies; assumption|]. repeat split. }
  split; [reflexivity|].
  destruct ctl as [r|r|r]; cbn [resourceNameOf kindOf getPrimary Reconcile] in *.
  - split; [apply apiserver_conditions; assumption|]. split; [|split].
    + intros tc Hin. apply UpdateStatusCondition_observed. right. eauto.
    + intros Hnd tc Hin. apply UpdateStatusCondition_copies; assumption.
    + exact (Hcopy (fun _ => Generation instance) (Status_Conditions instance)).
  - split; [apply monitor_continues; assumption|].
    intros observed Hf. rewrite Hf. apply Hcopy.
  - split; [apply compliance_continues; assumption|].
    intros observed Hf. rewrite Hf. apply Hcopy.
Qed.
End Conditions.

(** C9 at work: a resource at generation 2 and a TigeraStatus with the one
    condition Available.  The condition the APIServer controller writes is
    of type Ready and carries the observed generation 2.  The Monitor
    controller, with a two-argument function that copies the conditions
    and records the ObservedGeneration of the TigeraStatus condition,
    writes the condition of type Ready with the same status, reason and
    message, and goes on to read the Installation. *)
Lemma C9_witness :
  let R := demoRun (demoEnv TigeraSecureEnterprise None None true)
             (APIServerController demoAPIServer)
             (conditionsRequest (APIServerController demoAPIServer)) (demoCluster 2 true ∅) in
  let copy := status.UpdateStatusConditionWith tsc_ObservedGeneration in
  let M := demoRun (withUpdateStatusCondition copy
                      (demoEnv TigeraSecureEnterprise None None true))
             (MonitorController (demoMonitor true))
             (conditionsRequest (MonitorController (demoMonitor true)))
             (demoCluster 2 true ∅) in
  (result R = emptyResult /\ err R = None
   /\ conditionsWritten (trace R)
      = Some [ {| c_Type := "Ready"; c_Status := ConditionTrue; c_ObservedGeneration := 2;
                  c_Reason := "AllObjectsAvailable";
                  c_Message := "All Objects are available" |} ]
   /\ length (trace R) = 4%nat)
  /\ continuesWith RInstallation
       (conditionsPrefix KMonitor "monitor"
          (withConditions (copy [] [availableCondition]) (demoResource 2)))
       (trace M)
  /\ exists cond, In cond (copy [] [availableCondition])
                  /\ c_Type cond = "Ready"
                  /\ c_Status cond = ConditionTrue
                  /\ c_Reason cond = "AllObjectsAvailable"
                  /\ c_Message cond = "All Objects are available"
                  /\ c_ObservedGeneration cond = 0.
Proof.
  intros R copy M.
  assert (Hts : tigerastatuses (demoCluster 2 true ∅) !! "apiserver"
                = Some {| ts_Conditions := [availableCondition] |})
    by (vm_compute; reflexivity).
  assert (Htm : tigerastatuses (demoCluster 2 true ∅) !! "monitor"
                = Some {| ts_Conditions := [availableCondition] |})
    by (vm_compute; reflexivity).
  pose proof (@C9_status_conditions demoNames (demoEnv TigeraSecureEnterprise None None true)
                (APIServerController demoAPIServer)
                (conditionsRequest (APIServerController demoAPIServer)) (demoCluster 2 true ∅)
                (demoResource 2) {| ts_Conditions := [availableCondition] |}
                eq_refl eq_refl eq_refl eq_refl Hts eq_refl) as (_ & HR & _).
  pose proof (@C9_status_conditions demoNames
                (withUpdateStatusCondition copy (demoEnv TigeraSecureEnterprise None None true))
                (MonitorController (demoMonitor true))
                (conditionsRequest (MonitorController (demoMonitor true)))
                (demoCluster 2 true ∅)
                (demoResource 2) {| ts_Conditions := [availableCondition] |}
                eq_refl eq_refl eq_refl eq_refl Htm eq_refl) as (_ & HM & Hcopy).
  split; [subst R; rewrite HR; repeat split|].
  split; [exact HM|].
  assert (Hnd : List.NoDup (map tsc_Type [availableCondition]))
    by (repeat constructor; intros []).
  exact (proj2 (Hcopy tsc_ObservedGeneration (fun _ _ => eq_refl)) Hnd availableCondition
           (or_introl eq_refl)).
Defined.

(** C9 as stated fails for the Monitor controller: whatever function
    [status.UpdateStatusCondition] is on the two lists of conditions, the
    reconciles of a Monitor resource at generation 2 and of one at generation
    3 write the same conditions, which therefore do not carry the generation
    of the custom resource in both (unless nothing is copied at all). *)
Lemma C9_counterexample :
  exists gA gB : Z,
    gA <> gB
    /\ forall f : list Condition -> list TigeraStatusCondition -> list Condition,
        let written g :=
          conditionsWritten
            (trace (demoRun (withUpdateStatusCondition f (demoEnv TigeraSecureEnterprise None None true))
                      (MonitorController (demoMonitor true))
                      (conditionsRequest (MonitorController (demoMonitor true)))
                      (demoCluster g true ∅))) in
        exists conditions,
          written gA = Some conditions /\ written gB = Some conditions
          /\ (allObserve gA conditions -> allObserve gB conditions -> conditions = []).
Proof.
  exists 2, 3. split; [lia|]. intros f written.
  exists (f [] [availableCondition]). subst written.
  split; [vm_compute; reflexivity|]. split; [vm_compute; reflexivity|].
  apply allObserve_two. lia.
Qed.

(** ** A second reconcile *)

Lemma twice_eq (m : M unit) (c : Cluster) :
  twice m c = (reconciled m c, reconciled m (after (reconciled m c))).
Proof. unfold twice. destruct (reconciled m c); reflexivity. Qed.

Lemma secondRunAgrees_failed fault r e c t R2 :
  secondRunAgrees fault ({| result := r; err := Some e; after := c; trace := t |}, R2).
Proof. intros X. discriminate X. Qed.

(** A component is rendered or carries a passthrough secret. *)
Lemma In_rendered_or_passthrough x cs :
  In x cs <-> In x (rendered cs) \/ exists s, x = NewPassthrough s /\ In s (passthroughs cs).
Proof.
  induction cs as [|c cs IH]; simpl; [split; [tauto | intros [[]|(s & _ & [])]]|].
  destruct c; simpl; rewrite IH; split;
    try (intros [->|[A|(s & E & A)]]; eauto; fail);
    try (intros [[->|A]|(s & E & A)]; eauto; fail).
  - intros [[]|[A|(s0 & E & A)]]; eauto.
  - intros [A|(s0 & E & [->|A])]; eauto.
Qed.

Section SecondReconcile.
Context `{Names} (env : Env).
Hypothesis Hframe : imagesIgnorePassthrough env.

Ltac stored :=
  cbv beta iota delta
    [allStored passthroughs applied lookupSecret secrets s_Name s_Namespace trace after];
  first [ exact I | rewrite lookup_insert_eq; reflexivity ].

Ltac agree :=
  cbv beta iota delta [secondRunAgrees fst snd];
  let X := fresh in
  intros X;
  first [ discriminate X
        | repeat split;
          first [ reflexivity
                | cbn [after secrets]; rewrite insert_insert_eq; reflexivity
                | stored
                | match goal with
                  | |- context [match ?f with _ => _ end] => destruct f; reflexivity
                  end ] ].

Ltac use_equation y :=
  match goal with
  | E : y = _ |- _ => rewrite E
  end.

(** One step of the two reconciles: what the first one has read, the
    second one reads again; what the first one has stored, the second one
    finds. *)
Ltac twice_step :=
  lazymatch goal with
  | |- secondRunAgrees _ (Build_Reconciled _ (Some _) _ _, _) => apply secondRunAgrees_failed
  | |- ?G =>
      lazymatch G with
      | secondRunAgrees _ ?RR =>
          lazymatch RR with
          | context [match ?x with _ => _ end] =>
              let y := scrutinee x in
              first
                [ use_equation y
                | lazymatch y with
                  | (<[ ?k := _ ]> _) !! ?k => rewrite lookup_insert_eq
                  | _ !! _ => destruct y eqn:?
                  | handlerErr _ _ => destruct y eqn:?
                  | renderAPIServerErr _ _ => destruct y eqn:?
                  | renderComplianceErr _ _ => destruct y eqn:?
                  | createErr _ _ => destruct y eqn:?
                  | ans_ApplyImageSet ?e ?v ?cs =>
                      let cs' := eval cbv beta iota delta [rendered] in (rendered cs) in
                      first [ constr_eq cs cs'; destruct y eqn:?
                            | rewrite (Hframe v cs : _ = ans_ApplyImageSet e v cs') ]
                  | _ => case y; intros
                  end ];
              run
          | _ => agree
          end
      end
  end.

Lemma apiserver_twice r request c :
  secondRunAgrees (getKeyPairErr env VoltronTunnelSecretName OperatorNamespace)
    (twice (apiserver.Reconcile env r request) c).
Proof. unfold twice. run. repeat twice_step. Qed.

Lemma compliance_twice r request c :
  secondRunAgrees None (twice (compliance.Reconcile env r request) c).
Proof. unfold twice. run. repeat twice_step. Qed.

Lemma monitor_twice r request c :
  secondRunAgrees None (twice (monitor.Reconcile env r request) c).
Proof. unfold twice. run. repeat twice_step. Qed.
Lemma allStored_In c l :
  allStored c l -> forall s, In s l -> lookupSecret (s_Name s) (s_Namespace s) c = Some s.
Proof.
  induction l as [|x l IH]; simpl; [intros _ s []|].
  intros [A B] s [<-|Hin]; [exact A | apply IH; assumption].
Qed.

(** C1, as amended.  For every cluster state on which a reconcile of any
    of the three controllers completes without error, a second reconcile
    of the same request on the resulting cluster state, answered in the
    same way by everything outside the cluster state (the helpers of the
    other packages, the faults of the client, the status manager), completes
    without error as well and returns the same result.  It hands the
    handler the same rendered components, in the same order, and no
    component the first reconcile has not handed over.  The passthrough
    secrets the first reconcile has handed over (the Alertmanager
    configuration, the Voltron tunnel secret) are in the cluster it leaves,
    under their name in their namespace; the second reconcile finds them
    there and hands over no passthrough secret at all, unless, in the
    APIServer controller, the read of the tunnel key pair fails, and then
    it hands over the same secret again.  The secrets of the cluster are
    left as the first reconcile left them.  (The answer of
    [imageset.ApplyImageSet] is taken not to depend on passthrough
    components, which carry no image.) *)
Theorem C1_second_reconcile (ctl : Controller) (request : Request) (c : Cluster) :
  let R1 := reconciled (Reconcile env ctl request) c in
  let R2 := reconciled (Reconcile env ctl request) (after R1) in
  err R1 = None ->
  err R2 = None
  /\ result R2 = result R1
  /\ secrets (after R2) = secrets (after R1)
  /\ rendered (applied (trace R2)) = rendered (applied (trace R1))
  /\ (forall x, In x (applied (trace R2)) -> In x (applied (trace R1)))
  /\ (forall s, In s (passthroughs (applied (trace R1))) ->
        lookupSecret (s_Name s) (s_Namespace s) (after R1) = Some s)
  /\ ((kindOf ctl = KAPIServer ->
        getKeyPairErr env VoltronTunnelSecretName OperatorNamespace = None) ->
       passthroughs (applied (trace R2)) = [])
  /\ (passthroughs (applied (trace R2)) = []
      \/ passthroughs (applied (trace R2)) = passthroughs (applied (trace R1))).
Proof.
  intros R1 R2 He.
  assert (A : exists fault,
            (fault = None
             \/ (kindOf ctl = KAPIServer
                 /\ fault = getKeyPairErr env VoltronTunnelSecretName OperatorNamespace))
            /\ secondRunAgrees fault (R1, R2)).
  { subst R1 R2. destruct ctl as [r|r|r]; cbn [Reconcile kindOf].
    - exists (getKeyPairErr env VoltronTunnelSecretName OperatorNamespace).
      split; [auto|]. rewrite <- twice_eq. apply apiserver_twice.
    - exists None. split; [auto|]. rewrite <- twice_eq. apply monitor_twice.
    - exists None. split; [auto|]. rewrite <- twice_eq. apply compliance_twice. }
  destruct A as (fault & Hfault & A).
  destruct (A He) as (A1 & A2 & A3 & A4 & A5 & A6). cbn [fst snd] in *.
  assert (Hp : passthroughs (applied (trace R2)) = []
               \/ passthroughs (applied (trace R2)) = passthroughs (applied (trace R1)))
    by (destruct fault; auto).
  repeat split; try assumption.
  - intros x Hx. apply In_rendered_or_passthrough in Hx. apply In_rendered_or_passthrough.
    destruct Hx as [Hx|(s & E & Hs)]; [left; rewrite <- A4; exact Hx|].
    right. exists s. split; [exact E|].
    destruct Hp as [Hp|Hp]; rewrite Hp in Hs; [destruct Hs | exact Hs].
  - apply allStored_In. exact A5.
  - intros Hk. destruct Hfault as [->|[Hk' ->]]; [exact A6|].
    rewrite (Hk Hk') in A6. exact A6.
Qed.
End SecondReconcile.

(** The oracle of the concrete installation answers [imageset.ApplyImageSet]
    the same whatever the components are. *)
Lemma demoEnv_imagesIgnorePassthrough variant mc mcc available :
  imagesIgnorePassthrough (demoEnv variant mc mcc available).
Proof. intros v cs. reflexivity. Qed.

(** C1 as stated fails: on a new installation the first Monitor reconcile
    hands three components to the handler, among them the default
    Alertmanager configuration secret as a passthrough component; the
    second reconcile, on the cluster the first one leaves, finds that secret
    in the operator namespace and hands only two components to the handler,
    no passthrough component among them. *)
Lemma C1_counterexample :
  let env := demoEnv TigeraSecureEnterprise None None true in
  let R1 := demoRun env (MonitorController (demoMonitor true)) someRequest (demoCluster 2 false ∅) in
  let R2 := demoRun env (MonitorController (demoMonitor true)) someRequest (after R1) in
  err R1 = None /\ err R2 = None
  /\ passthroughs (applied (trace R1)) = [@defaultConfigSecret demoNames]
  /\ passthroughs (applied (trace R2)) = []
  /\ length (applied (trace R1)) = 3%nat
  /\ length (applied (trace R2)) = 2%nat.
Proof. vm_compute. auto 10. Qed.

(** C1 at work: the two Monitor reconciles on a new installation.  The
    default Alertmanager configuration the first one hands over is in the
    operator namespace afterwards, and the second one hands over no
    passthrough secret. *)
Lemma C1_witness :
  let env := demoEnv TigeraSecureEnterprise None None true in
  let R1 := demoRun env (MonitorController (demoMonitor true)) someRequest (demoCluster 2 false ∅) in
  let R2 := demoRun env (MonitorController (demoMonitor true)) someRequest (after R1) in
  err R2 = None
  /\ result R2 = result R1
  /\ secrets (after R2) = secrets (after R1)
  /\ rendered (applied (trace R2)) = rendered (applied (trace R1))
  /\ @lookupSecret "alertmanager-calico-node-alertmanager" "tigera-operator" (after R1)
     = Some (@defaultConfigSecret demoNames)
  /\ passthroughs (applied (trace R2)) = [].
Proof.
  intros env R1 R2.
  assert (Herr : err R1 = None) by (vm_compute; reflexivity).
  assert (Hin : In (@defaultConfigSecret demoNames) (passthroughs (applied (trace R1))))
    by (vm_compute; left; reflexivity).
  destruct (@C1_second_reconcile demoNames env
              (demoEnv_imagesIgnorePassthrough TigeraSecureEnterprise None None true)
              (MonitorController (demoMonitor true)) someRequest (demoCluster 2 false ∅) Herr)
    as (A1 & A2 & A3 & A4 & _ & A6 & A7 & _).
  split; [exact A1|]. split; [exact A2|]. split; [exact A3|]. split; [exact A4|].
  split; [exact (A6 _ Hin)|].
  apply A7. intros X. discriminate X.
Defined.

(** * More of the code *)

(** ** The loops of the reconcilers *)

Section Loops.
Context `{Names} (env : Env).

Lemma rangeComponents_spec (reason : TigeraStatusReason) (message : string)
    (components : list Component) : forall c : Cluster,
  let R := rangeComponents env (status.SetDegraded reason message) components c in
  applied (events R) = uptoFailure env components
  /\ match firstFailure env components with
     | Some e =>
         outcome R = Return emptyResult (Some e)
         /\ events R
            = map EvCreateOrUpdateOrDelete (uptoFailure env components)
              ++ [EvSetDegraded (Typed reason) (degradedMessage message e)]
     | None =>
         outcome R = Next tt
         /\ events R = map EvCreateOrUpdateOrDelete components
     end.
Proof.
  induction components as [|x rest IH]; intros c; [split; [reflexivity | split; reflexivity]|].
  cbn [rangeComponents uptoFailure firstFailure].
  cbv beta iota zeta delta
    [bind emit ret modify return_ utils.CreateOrUpdateOrDelete app].
  destruct (handlerErr env x) as [e|] eqn:E.
  - cbv beta iota zeta delta
      [bind emit return_ status.SetDegraded status.StatusManager_SetDegraded degradedMessage app].
    split; [reflexivity | split; reflexivity].
  - assert (Hrest : forall c2,
              let R := rangeComponents env (status.SetDegraded reason message) rest c2 in
              applied (EvCreateOrUpdateOrDelete x :: events R) = x :: uptoFailure env rest
              /\ match firstFailure env rest with
                 | Some e =>
                     outcome R = Return emptyResult (Some e)
                     /\ EvCreateOrUpdateOrDelete x :: events R
                        = map EvCreateOrUpdateOrDelete (x :: uptoFailure env rest)
                          ++ [EvSetDegraded (Typed reason) (degradedMessage message e)]
                 | None =>
                     outcome R = Next tt
                     /\ EvCreateOrUpdateOrDelete x :: events R
                        = map EvCreateOrUpdateOrDelete (x :: rest)
                 end).
    { intros c2 R. destruct (IH c2) as [IH1 IH2]. fold R in IH1, IH2.
      split; [cbn [applied]; f_equal; exact IH1|].
      destruct (firstFailure env rest) as [e|]; destruct IH2 as [IH2 IH3];
        (split; [exact IH2 | rewrite IH3; reflexivity]). }
    destruct x; cbn beta iota;
      match goal with
      | |- context [rangeComponents ?a ?b ?r ?c2] =>
          specialize (Hrest c2); cbv zeta in Hrest;
          destruct (rangeComponents a b r c2) as [o cf t]
      end; exact Hrest.
Qed.

(** X1.  The loop that hands the components to the handler, in each of the
    three reconcilers: the components are applied in order up to and
    including the first one the handler fails on, and none after it.  On a
    failure the loop sets a degraded status whose message carries the
    error and makes Reconcile return the empty result with that error; when
    no component fails, every component is applied, no degraded status is
    set and the reconcile goes on. *)
Theorem X1_apply_loop (k : Kind) (reason : TigeraStatusReason) (message : string)
    (components : list Component) (c : Cluster) :
  let R := rangeComponents env (setDegradedOf k reason message) components c in
  applied (events R) = uptoFailure env components
  /\ match firstFailure env components with
     | Some e =>
         outcome R = Return emptyResult (Some e)
         /\ events R
            = map EvCreateOrUpdateOrDelete (uptoFailure env components)
              ++ [EvSetDegraded (Typed reason) (degradedMessage message e)]
     | None =>
         outcome R = Next tt
         /\ events R = map EvCreateOrUpdateOrDelete components
     end.
Proof. destruct k; exact (rangeComponents_spec reason message components c). Qed.

Lemma addCertificates_spec (names : list string) : forall (tb : TrustedBundle) (c : Cluster),
  let R := monitor.addCertificates env names tb c in
  final R = c
  /\ events R
     = map (fun n => EvFetch (RCertificate n OperatorNamespace)) (askedCertificates env names)
       ++ match certificateFailure env names with
          | Some e => [EvSetDegraded (Typed ResourceReadError)
                         (degradedMessage "Error fetching TLS certificate" e)]
          | None => []
          end
  /\ outcome R
     = match certificateFailure env names with
       | Some e => Return emptyResult (Some e)
       | None => Next {| tb_CA := tb_CA tb;
                         tb_Certificates := tb_Certificates tb ++ fetchedCertificates env names |}
       end.
Proof.
  induction names as [|n rest IH]; intros tb c.
  - cbn. rewrite app_nil_r. destruct tb; auto.
  - cbn [monitor.addCertificates askedCertificates certificateFailure fetchedCertificates].
    cbv beta iota zeta delta
      [bind emit ret return_ utils.ask certificatemanager.GetCertificate app].
    destruct (ans_GetCertificate env n OperatorNamespace) as [cert|e] eqn:E.
    + specialize (IH (AddCertificates tb cert) c). cbv zeta in IH.
      destruct (monitor.addCertificates env rest (AddCertificates tb cert) c) as [o cf t].
      cbn [final events outcome] in *. destruct IH as (IH1 & IH2 & IH3).
      split; [exact IH1|]. split; [rewrite IH2; reflexivity|].
      rewrite IH3. destruct (certificateFailure env rest); [reflexivity|].
      cbn [AddCertificates tb_CA tb_Certificates]. rewrite <- app_assoc. reflexivity.
    + cbv beta iota zeta delta
        [bind emit return_ status.SetDegraded status.StatusManager_SetDegraded degradedMessage app].
      cbn. auto.
Qed.

(** X2.  The loop of the Monitor reconciler over the certificates of the
    trusted bundle: the certificates are fetched in the order of the names
    and added to the bundle in that order; at the first one that cannot be
    fetched the loop sets the degraded status ResourceReadError with the
    error in its message and Reconcile returns the error, no further
    certificate being asked for.  The loop never changes the cluster. *)
Theorem X2_trusted_bundle_loop (names : list string) (tb : TrustedBundle) (c : Cluster) :
  let R := monitor.addCertificates env names tb c in
  final R = c
  /\ events R
     = map (fun n => EvFetch (RCertificate n OperatorNamespace)) (askedCertificates env names)
       ++ match certificateFailure env names with
          | Some e => [EvSetDegraded (Typed ResourceReadError)
                         (degradedMessage "Error fetching TLS certificate" e)]
          | None => []
          end
  /\ outcome R
     = match certificateFailure env names with
       | Some e => Return emptyResult (Some e)
       | None => Next {| tb_CA := tb_CA tb;
                         tb_Certificates := tb_Certificates tb ++ fetchedCertificates env names |}
       end.
Proof. exact (addCertificates_spec names tb c). Qed.
End Loops.

(** ** More on the Alertmanager configuration secret *)

Section AlertmanagerMore.
Context `{Names} (env : Env).

Ltac read_run :=
  cbv beta iota zeta delta
    [monitor.readAlertmanagerConfigSecret bind ret emit getCluster modify
     utils.GetSecret client.Create lookupSecret putSecret CopyToNamespace
     outcome final events secrets s_Name s_Namespace s_Data app
     apiservers monitors compliances tigerastatuses].

(** X3.  [readAlertmanagerConfigSecret] can be called again: on the cluster
    a first call leaves, a second call returns the same secret, the same
    flag and the same error, and leaves the cluster as it is.  In
    particular the copy the first call creates in the operator namespace is
    the secret the second call finds there. *)
Theorem X3_read_alertmanager_again (c : Cluster) :
  let A := monitor.readAlertmanagerConfigSecret env c in
  let B := monitor.readAlertmanagerConfigSecret env (final A) in
  outcome B = outcome A /\ final B = final A.
Proof.
  destruct c as [ca cm cc ts ss]. read_run.
  destruct (getSecretErr env AlertmanagerConfigSecret OperatorNamespace) eqn:E1;
    [split; reflexivity|].
  destruct (ss !! (OperatorNamespace, AlertmanagerConfigSecret)) as [d0|] eqn:E0;
    [read_run; rewrite E0; split; reflexivity|].
  destruct (getSecretErr env AlertmanagerConfigSecret TigeraPrometheusNamespace) eqn:E2;
    [read_run; rewrite E0; split; reflexivity|].
  destruct (ss !! (TigeraPrometheusNamespace, AlertmanagerConfigSecret)) as [d|] eqn:E3;
    [|read_run; rewrite E0, E3; split; reflexivity].
  destruct (bool_decide ({[ "alertmanager.yaml" := alertmanagerConfig ]} = d)) eqn:E4;
    [read_run; rewrite E0, E3, E4; split; reflexivity|].
  read_run. rewrite E0.
  match goal with |- context [createErr env ?s] => destruct (createErr env s) eqn:E5 end.
  - read_run. rewrite E0, E3, E4. read_run. rewrite E0, E5. split; reflexivity.
  - read_run. rewrite lookup_insert_eq. split; reflexivity.
Qed.

(** X4.  What [readAlertmanagerConfigSecret] leaves alone.  It never makes
    Reconcile return by itself.  When it returns an error, and when it
    returns a secret with the flag true, the cluster is as before (the
    secret the operator owns is stored later, by the component handler).
    A secret it returns always has the name of the Alertmanager
    configuration secret and lies in the operator namespace.  It changes
    nothing but the secrets, and no secret that exists is overwritten or
    deleted. *)
Theorem X4_read_alertmanager_frame (c : Cluster) :
  let A := monitor.readAlertmanagerConfigSecret env c in
  (exists r, outcome A = Next r)
  /\ (forall e, outcome A = Next (Fail e) -> final A = c)
  /\ (forall s, outcome A = Next (Ok (s, true)) -> final A = c)
  /\ (forall s flag, outcome A = Next (Ok (s, flag)) ->
        s_Name s = AlertmanagerConfigSecret /\ s_Namespace s = OperatorNamespace)
  /\ (forall k d, secrets c !! k = Some d -> secrets (final A) !! k = Some d)
  /\ apiservers (final A) = apiservers c
  /\ monitors (final A) = monitors c
  /\ compliances (final A) = compliances c
  /\ tigerastatuses (final A) = tigerastatuses c.
Proof.
  destruct c as [ca cm cc ts ss]. read_run.
  destruct (getSecretErr env AlertmanagerConfigSecret OperatorNamespace) eqn:E1;
    [repeat split; eauto; intros; congruence|].
  destruct (ss !! (OperatorNamespace, AlertmanagerConfigSecret)) as [d0|] eqn:E0;
    [repeat split; eauto; intros; try congruence;
     match goal with X : Next _ = Next _ |- _ => injection X as <- <- end; reflexivity|].
  destruct (getSecretErr env AlertmanagerConfigSecret TigeraPrometheusNamespace) eqn:E2;
    [repeat split; eauto; intros; congruence|].
  destruct (ss !! (TigeraPrometheusNamespace, AlertmanagerConfigSecret)) as [d|] eqn:E3;
    [|repeat split; eauto; intros; try congruence;
      match goal with X : Next _ = Next _ |- _ => injection X as <- <- end; reflexivity].
  destruct (bool_decide ({[ "alertmanager.yaml" := alertmanagerConfig ]} = d)) eqn:E4;
    [repeat split; eauto; intros; try congruence;
     match goal with X : Next _ = Next _ |- _ => injection X as <- <- end; reflexivity|].
  read_run. rewrite E0.
  match goal with |- context [createErr env ?s] => destruct (createErr env s) eqn:E5 end;
    read_run; (repeat split); eauto; intros; try congruence;
    try (match goal with X : Next _ = Next _ |- _ => injection X as <- <- end; reflexivity).
  destruct (decide (k = (OperatorNamespace, AlertmanagerConfigSecret))) as [->|Hne].
  - congruence.
  - rewrite lookup_insert_ne by congruence. assumption.
Qed.
End AlertmanagerMore.

(** ** More on the setup of the controllers *)

Ltac setup_run :=
  cbv beta iota zeta delta
    [apiserver.add apiserver.Add apiserver.newReconciler
     monitor.add monitor.Add monitor.newReconciler
     compliance.add compliance.Add compliance.newReconciler
     sbind sret call try sfor fst snd app negb
     apiserver.amazonCRDExists apiserver.enterpriseCRDsExist].

Ltac all_succeed :=
  repeat constructor;
  let X := fresh in
  intros X; cbn [canFail] in X; first [ discriminate X | assumption ].

Ltac failure_leaf :=
  lazymatch goal with
  | |- stopsAtFirstFailure _ (?calls, Ok _) =>
      cbv beta iota delta [stopsAtFirstFailure]; all_succeed
  | |- stopsAtFirstFailure _ (?calls, Fail _) =>
      cbv beta iota delta [stopsAtFirstFailure];
      exists (List.removelast calls), (List.last calls status_Run); eexists;
      cbn [List.removelast List.last app];
      split; [reflexivity|];
      split; [reflexivity|];
      split; [eassumption|];
      split; [first [ exists ""; reflexivity
                    | unfold wrapf, Errorf; cbn [Error]; eexists; reflexivity ]|];
      all_succeed
  end.

Ltac failure_step :=
  lazymatch goal with
  | |- stopsAtFirstFailure _ (_, Ok _) => failure_leaf
  | |- stopsAtFirstFailure _ (_, Fail _) => failure_leaf
  | |- ?G =>
      lazymatch G with
      | context [match ?x with _ => _ end] =>
          let y := scrutinee x in destruct y eqn:?
      end; setup_run
  end.


Section SetupMore.
Context `{Names} (setupErr : SetupCall -> option error).

Lemma apiserver_Add_failure opts : stopsAtFirstFailure setupErr (apiserver.Add setupErr opts).
Proof. setup_run. repeat failure_step. Qed.

Lemma monitor_Add_failure opts : stopsAtFirstFailure setupErr (monitor.Add setupErr opts).
Proof. setup_run. repeat failure_step. Qed.

Lemma compliance_Add_failure opts : stopsAtFirstFailure setupErr (compliance.Add setupErr opts).
Proof. setup_run. repeat failure_step. Qed.

(** X5.  A setup that fails stops at the call that fails.  For
    [apiserver.Add], [monitor.Add] and [compliance.Add]: when the setup
    returns nil, none of the calls it made has failed; when it returns an
    error, the last call it made is the one that failed, every call before
    it succeeded, no call is made after it, and the error returned ends
    with the text of the error of that call (wrapped with the message of
    the controller, or returned as it is). *)
Theorem X5_setup_stops_at_first_failure (opts : AddOptions) :
  stopsAtFirstFailure setupErr (apiserver.Add setupErr opts)
  /\ stopsAtFirstFailure setupErr (monitor.Add setupErr opts)
  /\ stopsAtFirstFailure setupErr (compliance.Add setupErr opts).
Proof.
  split; [apply apiserver_Add_failure|].
  split; [apply monitor_Add_failure | apply compliance_Add_failure].
Qed.
End SetupMore.


Ltac goroutine_step :=
  lazymatch goal with
  | |- ?G =>
      lazymatch G with
      | context [match ?x with _ => _ end] =>
          let y := scrutinee x in destruct y eqn:?
      end
  end;
  setup_run; cbn [goroutines isNil andb]; try reflexivity.

Section SetupGoroutines.
Context `{Names} (setupErr : SetupCall -> option error).

(** X6.  The goroutines that wait to add watches.  [monitor.Add] starts its
    three goroutines (the Tier watch, the NetworkPolicy watches of the six
    policies in the tigera-prometheus namespace, the Prometheus watch), and
    [compliance.Add] its two (the LicenseKey watch, the NetworkPolicy
    watches of the three policies in the compliance namespace), exactly
    when the enterprise CRDs exist and both the controller and the
    Kubernetes client were created; a watch that fails afterwards, in
    [add], leaves them started.  [apiserver.Add] starts none. *)
Theorem X6_goroutines (opts : AddOptions) :
  goroutines (fst (monitor.Add setupErr opts))
  = (if EnterpriseCRDExists opts
        && isNil (setupErr (controller_New "monitor-controller"))
        && isNil (setupErr kubernetes_NewForConfig)
     then [WaitToAddTierWatch TigeraComponentTierName;
           WaitToAddNetworkPolicyWatches
             [(PrometheusPolicyName, TigeraPrometheusNamespace);
              (PrometheusAPIPolicyName, TigeraPrometheusNamespace);
              (PrometheusOperatorPolicyName, TigeraPrometheusNamespace);
              (AlertManagerPolicyName, TigeraPrometheusNamespace);
              (MeshAlertManagerPolicyName, TigeraPrometheusNamespace);
              (TigeraComponentDefaultDenyPolicyName, TigeraPrometheusNamespace)];
           waitToAddPrometheusWatch]
     else [])
  /\ goroutines (fst (compliance.Add setupErr opts))
     = (if EnterpriseCRDExists opts
           && isNil (setupErr (controller_New "compliance-controller"))
           && isNil (setupErr kubernetes_NewForConfig)
        then [WaitToAddLicenseKeyWatch;
              WaitToAddNetworkPolicyWatches
                [(ComplianceAccessPolicyName, ComplianceNamespace);
                 (ComplianceServerPolicyName, ComplianceNamespace);
                 (TigeraComponentDefaultDenyPolicyName, ComplianceNamespace)]]
        else [])
  /\ goroutines (fst (apiserver.Add setupErr opts)) = [].
Proof.
  split; [|split]; setup_run.
  - repeat goroutine_step.
  - repeat goroutine_step.
  - repeat goroutine_step.
Qed.
End SetupGoroutines.

Section Extras.
Context `{Names} (env : Env).

(** X7.  What Reconcile hands back to the work queue, in all three
    controllers.  [Requeue] is never set.  A requeue after a delay always
    comes with a nil error, and the delay is one of two: 10 seconds, never
    in the APIServer controller, with a degraded status set and nothing
    applied; or 30 seconds, after the degraded status was cleared, with no
    degraded status set.  So an error is never returned together with a
    delay. *)
Theorem X7_requeue (ctl : Controller) (request : Request) (c : Cluster) :
  let R := reconciled (Reconcile env ctl request) c in
  Requeue (result R) = false
  /\ (RequeueAfter (result R) = 0
      \/ (RequeueAfter (result R) = 10 * Second /\ err R = None
          /\ kindOf ctl <> KAPIServer
          /\ (exists reason msg, In (EvSetDegraded reason msg) (trace R))
          /\ applied (trace R) = [])
      \/ (RequeueAfter (result R) = 30 * Second /\ err R = None
          /\ In EvClearDegraded (trace R)
          /\ existsb isSetDegraded (trace R) = false)).
Proof.
  intros R. destruct (Reconcile_pass2 env ctl request c) as (P & _).
  destruct (requeueShape_spec _ _ P) as [A [B|[B|B]]]; split; try exact A.
  - left. exact B.
  - right. left. destruct B as (B1 & B2 & B3 & B4 & B5).
    repeat split; try assumption. apply existsb_isSetDegraded. exact B4.
  - right. right. destruct B as (B1 & B2 & B3 & B4).
    repeat split; try assumption. apply In_isClearDegraded. exact B3.
Qed.

Lemma metaDataDeferred_spec primary t :
  metaDataDeferred primary t ->
  (In EvOnCRFound t ->
     exists i pre, primary = Some i /\ t = pre ++ [EvSetMetaData (Generation i)]
                   /\ existsb isSetMetaData pre = false)
  /\ (existsb isOnCRFound t = false -> existsb isSetMetaData t = false).
Proof.
  unfold metaDataDeferred. intros P. split.
  - intros Hin. rewrite (existsb_In isOnCRFound _ _ Hin eq_refl) in P.
    destruct primary as [i|]; [|destruct P]. destruct P as [P1 P2].
    destruct (last_is_only isSetMetaData t _ _ P1 eq_refl P2) as (pre & E1 & E2).
    exists i, pre. auto.
  - intros E. rewrite E in P. exact P.
Qed.

(** X8.  The deferred [SetMetaData] of the Monitor and the Compliance
    reconcilers.  Once the primary resource is found (OnCRFound), the
    reconcile ends, on every path, with one call of [SetMetaData], its
    last call, with the generation the resource had when it was read; no
    other [SetMetaData] is made.  When the resource is not found or cannot
    be read there is none.  The APIServer reconciler never calls it. *)
Theorem X8_deferred_metadata (ctl : Controller) (request : Request) (c : Cluster) :
  let t := trace (reconciled (Reconcile env ctl request) c) in
  match ctl with
  | APIServerController _ => existsb isSetMetaData t = false
  | _ =>
      (In EvOnCRFound t ->
         exists i pre, getPrimary (kindOf ctl) c = Some i
                       /\ t = pre ++ [EvSetMetaData (Generation i)]
                       /\ existsb isSetMetaData pre = false)
      /\ (existsb isOnCRFound t = false -> existsb isSetMetaData t = false)
  end.
Proof.
  destruct ctl as [r|r|r]; cbn [Reconcile kindOf getPrimary].
  - pose proof (apiserver_pass2 env r request c) as P. unfold apiserver_checks2 in P. tauto.
  - pose proof (monitor_pass2 env r request c) as P. unfold monitor_checks2 in P.
    apply metaDataDeferred_spec. tauto.
  - pose proof (compliance_pass2 env r request c) as P. unfold compliance_checks2 in P.
    apply metaDataDeferred_spec. tauto.
Qed.

(** X9.  An error that Reconcile returns is told, in all three
    controllers.  If the reconcile has set a degraded status, the message
    of that status ends with the text of the error returned.  If it has set
    none, its last call (the deferred SetMetaData apart) was the read of
    the TigeraStatus or an update of the status subresource: these are the
    only failures that are returned without a degraded status. *)
Theorem X9_error_reported (ctl : Controller) (request : Request) (c : Cluster) (e : error) :
  let R := reconciled (Reconcile env ctl request) c in
  err R = Some e ->
  (forall reason msg, In (EvSetDegraded reason msg) (trace R) -> hasSuffix (Error e) msg)
  /\ (existsb isSetDegraded (trace R) = false ->
      exists call, lastCall (trace R) = Some call /\ isStatusCall call = true).
Proof.
  intros R He. destruct (Reconcile_pass2 env ctl request c) as (_ & P & _).
  destruct (Reconcile_audit env ctl request c) as (_ & A & _).
  fold R in P, A. unfold errorReported in P. rewrite He in P. split.
  - intros reason msg Hin. rewrite (firstDegraded_only _ _ _ A Hin) in P. exact P.
  - intros E. destruct (firstDegraded (trace R)) as [[reason msg]|] eqn:F.
    + apply firstDegraded_In in F. rewrite (existsb_In isSetDegraded _ _ F eq_refl) in E.
      discriminate.
    + destruct (lastCall (trace R)) as [call|]; [eauto | destruct P].
Qed.

(** X10.  A degraded status that is not retried.  In all three
    controllers, when a reconcile sets a degraded status and yet returns a
    nil error and the empty result (so that the request is not queued
    again), the reason of the status is ResourceNotReady; or else it is the
    Compliance controller, the reason is ResourceValidationError and the
    components were applied before (the license does not cover the
    feature). *)
Theorem X10_degraded_without_retry (ctl : Controller) (request : Request) (c : Cluster)
    (reason : Reason) (msg : string) :
  let R := reconciled (Reconcile env ctl request) c in
  In (EvSetDegraded reason msg) (trace R) ->
  err R = None -> result R = emptyResult ->
  reason = Typed ResourceNotReady
  \/ (kindOf ctl = KCompliance /\ reason = Typed ResourceValidationError
      /\ applied (trace R) <> []).
Proof.
  intros R Hin He Hr. destruct (Reconcile_pass2 env ctl request c) as (_ & _ & P & _).
  destruct (Reconcile_audit env ctl request c) as (_ & A & _).
  fold R in P, A. unfold degradedWithoutRetry in P.
  rewrite (firstDegraded_only _ _ _ A Hin), He, Hr in P. simpl in P.
  destruct reason as [[]|]; try discriminate P; [left; reflexivity|].
  right. apply andb_prop in P as [P1 P2]. apply Kind_eqb_eq in P1.
  split; [congruence|]. split; [reflexivity|].
  destruct (applied (trace R)); [discriminate P2 | discriminate].
Qed.

(** X11.  The updates of the status subresource, in all three controllers.
    A reconcile updates the status at most twice, and only that of its own
    primary resource, with the generation it was read with.  A single
    update either keeps the state (it writes the conditions) or is the
    resource as read with the state set to Ready.  Two updates happen only
    in the Monitor and the Compliance controllers: the first writes the
    conditions, keeping the state, and the second is the first one with the
    state set to Ready, so that the conditions just written are kept. *)
Theorem X11_status_updates (ctl : Controller) (request : Request) (c : Cluster) :
  let t := trace (reconciled (Reconcile env ctl request) c) in
  match statusUpdates t with
  | [] => True
  | [(k1, i1)] =>
      exists i, getPrimary (kindOf ctl) c = Some i
                /\ k1 = kindOf ctl /\ Generation i1 = Generation i
                /\ (Status_State i1 = Status_State i \/ i1 = withState TigeraStatusReady i)
  | [(k1, i1); (k2, i2)] =>
      exists i, getPrimary (kindOf ctl) c = Some i
                /\ kindOf ctl <> KAPIServer /\ k1 = kindOf ctl /\ k2 = kindOf ctl
                /\ Generation i1 = Generation i /\ Status_State i1 = Status_State i
                /\ i2 = withState TigeraStatusReady i1
  | _ => False
  end.
Proof.
  intros t. destruct (Reconcile_pass2 env ctl request c) as (_ & _ & _ & P & _).
  fold t in P. unfold statusWrites in P.
  destruct (statusUpdates t) as [|[k1 i1] [|[k2 i2] [|u rest]]]; [exact I| | |].
  - destruct (getPrimary (kindOf ctl) c) as [i|]; [|destruct P]. exists i. tauto.
  - destruct (getPrimary (kindOf ctl) c) as [i|]; [|destruct P]. exists i. tauto.
  - destruct (getPrimary (kindOf ctl) c); destruct P.
Qed.

(** X12.  The one object created directly through the client.  Whenever a
    reconcile calls [client.Create], it is a Monitor reconcile, it is its
    only such call, and what it creates is the secret with the name of the
    Alertmanager configuration in the operator namespace, where no secret
    of that name was before.  The APIServer and the Compliance reconcilers
    never call [client.Create]. *)
Theorem X12_client_create (ctl : Controller) (request : Request) (c : Cluster) (s : Secret) :
  let t := trace (reconciled (Reconcile env ctl request) c) in
  In (EvCreate s) t ->
  kindOf ctl = KMonitor
  /\ created t = [s]
  /\ s_Name s = AlertmanagerConfigSecret
  /\ s_Namespace s = OperatorNamespace
  /\ lookupSecret AlertmanagerConfigSecret OperatorNamespace c = None.
Proof.
  intros t Hin. apply In_created in Hin. subst t.
  destruct ctl as [r|r|r]; cbn [Reconcile kindOf] in *.
  - pose proof (apiserver_pass2 env r request c) as P. unfold apiserver_checks2 in P.
    destruct P as (_ & _ & _ & _ & _ & P & _). apply isEmpty_eq in P.
    rewrite P in Hin. destruct Hin.
  - pose proof (monitor_pass2 env r request c) as P. unfold monitor_checks2 in P.
    destruct P as (_ & _ & _ & _ & _ & P & _). unfold createdShape in P.
    destruct (created _) as [|s1 [|s2 rest]]; [destruct Hin | | destruct P].
    destruct Hin as [->|[]]. destruct P as (P1 & P2 & P3).
    repeat split; try assumption. unfold lookupSecret. rewrite P3. reflexivity.
  - pose proof (compliance_pass2 env r request c) as P. unfold compliance_checks2 in P.
    destruct P as (_ & _ & _ & _ & _ & P & _). apply andb_prop in P as [P _].
    apply isEmpty_eq in P. rewrite P in Hin. destruct Hin.
Qed.

(** X13.  The APIServer reconciler and the variant of the installation.
    For an installation that is not TigeraSecureEnterprise the reconcile
    reads none of ManagementCluster, ManagementClusterConnection,
    AmazonCloudIntegration, Authentication and the key validator
    configuration, and when it gets to clear the degraded status it has
    applied two components: the API server and its certificate management.
    For TigeraSecureEnterprise it reads the AmazonCloudIntegration only when
    [amazonCRDExists] is set, and when it gets to clear the degraded status
    the components applied are, in order, the API server, its certificate
    management, the tunnel secret if one was made, the packet capture API
    and its certificate management. *)
Theorem X13_apiserver_variant (r : apiserver.ReconcileAPIServer) (request : Request)
    (c : Cluster) (v : ProductVariant) (network : InstallationSpec) :
  let t := trace (reconciled (apiserver.Reconcile env r request) c) in
  ans_GetInstallation env = Ok (v, network) ->
  (v <> TigeraSecureEnterprise ->
     (forall res, In (EvFetch res) t -> isEnterpriseRead res = false)
     /\ (In EvClearDegraded t ->
         map kindOfComponent (applied t) = [KindAPIServer; KindCertificateManagement]))
  /\ (v = TigeraSecureEnterprise ->
      (In (EvFetch RAmazonCloudIntegration) t -> apiserver.amazonCRDExists r = true)
      /\ (In EvClearDegraded t ->
          map kindOfComponent (applied t)
          = [KindAPIServer; KindCertificateManagement;
             KindPacketCapture; KindCertificateManagement]
          \/ map kindOfComponent (applied t)
             = [KindAPIServer; KindCertificateManagement; KindPassthrough;
                KindPacketCapture; KindCertificateManagement])).
Proof.
  intros t Hinst.
  pose proof (apiserver_pass2 env r request c) as P. unfold apiserver_checks2 in P.
  destruct P as (_ & _ & _ & _ & _ & _ & P & _). fold t in P.
  destruct (variantShape_spec _ _ _ _ _ P Hinst) as [A B]. split.
  - intros Hv. destruct A as [A1 A2]; [destruct v; try reflexivity; congruence|]. split.
    + intros res Hin. exact (existsb_false_In _ _ _ A1 Hin).
    + intros Hin. apply A2. exact (existsb_In isClearDegraded _ _ Hin eq_refl).
  - intros ->. destruct B as [B1 B2]; [reflexivity|]. split.
    + intros Hin. apply B1.
      exact (existsb_In (isFetchOf isAmazonCloudIntegration) _ _ Hin eq_refl).
    + intros Hin. apply B2. exact (existsb_In isClearDegraded _ _ Hin eq_refl).
Qed.

(** X14.  The tunnel secret of the APIServer reconciler.  The first
    component a reconcile applies is the API server.  Without a
    ManagementCluster its configuration has no tunnel CA and no passthrough
    component follows.  With a ManagementCluster, and the read of the
    tunnel key pair not failing: a tunnel secret that exists in the
    operator namespace is the tunnel CA of the configuration and is not
    applied; when there is none, the tunnel CA is the secret
    [render.VoltronTunnelSecret] made anew, and that secret, in the
    operator namespace, is the only passthrough component that may
    follow. *)
Theorem X14_tunnel_secret (r : apiserver.ReconcileAPIServer) (request : Request) (c : Cluster) :
  match applied (trace (reconciled (apiserver.Reconcile env r request) c)) with
  | [] => True
  | APIServerComponent cfg :: rest =>
      (asc_ManagementCluster cfg = None ->
         asc_TunnelCASecret cfg = None /\ passthroughs rest = [])
      /\ (asc_ManagementCluster cfg <> None ->
          getKeyPairErr env VoltronTunnelSecretName OperatorNamespace = None ->
          match lookupSecret VoltronTunnelSecretName OperatorNamespace c with
          | Some s => asc_TunnelCASecret cfg = Some (NewKeyPair s) /\ passthroughs rest = []
          | None =>
              asc_TunnelCASecret cfg = Some (NewKeyPair (render.VoltronTunnelSecret env))
              /\ (passthroughs rest = []
                  \/ passthroughs rest
                     = [KeyPair_Secret (NewKeyPair (render.VoltronTunnelSecret env))
                          OperatorNamespace])
          end)
  | _ => False
  end.
Proof.
  pose proof (apiserver_pass2 env r request c) as P. unfold apiserver_checks2 in P.
  destruct P as (_ & _ & _ & _ & _ & _ & _ & P & _). unfold tunnelSecretShape in P.
  destruct (applied _) as [|[cfg| | | | |] rest]; try exact P.
  unfold lookupSecret.
  destruct (asc_ManagementCluster cfg) as [mc|]; split; try congruence; try tauto.
  intros _ E. rewrite E in P.
  destruct (secrets c !! (OperatorNamespace, VoltronTunnelSecretName)); exact P.
Qed.

(** X15.  NetworkPolicy in the Monitor reconciler.  A reconcile asks
    whether NetworkPolicy is reconcilable
    ([utils.IsV3NetworkPolicyReconcilable]) or fetches the allow-tigera
    tier, never both.  A Monitor configuration is rendered without
    NetworkPolicy only when the question was asked; one rendered with
    NetworkPolicy comes after the question or after the fetch of the tier.
    When there is no ManagementClusterConnection the question is never
    asked, so every configuration rendered includes NetworkPolicy, the tier
    having been fetched. *)
Theorem X15_monitor_network_policy (r : monitor.ReconcileMonitor) (request : Request)
    (c : Cluster) :
  let t := trace (reconciled (monitor.Reconcile env r request) c) in
  let asked := existsb (isFetchOf isReconcilable) t in
  let tier := existsb (isFetchOf isTier) t in
  asked && tier = false
  /\ (forall cfg, In (MonitorComponent cfg) (applied t) ->
        if mon_IncludeV3NetworkPolicy cfg then asked || tier = true else asked = true)
  /\ (ans_GetManagementClusterConnection env = Ok None ->
      asked = false
      /\ forall cfg, In (MonitorComponent cfg) (applied t) ->
                     mon_IncludeV3NetworkPolicy cfg = true /\ tier = true).
Proof.
  intros t asked tier.
  pose proof (monitor_pass2 env r request c) as P. unfold monitor_checks2 in P.
  destruct P as (_ & _ & _ & _ & _ & _ & P & _). fold t in P.
  unfold networkPolicyShape in P. fold asked tier in P.
  apply andb_prop in P as [P P3]. apply andb_prop in P as [P1 P2].
  apply negb_true_iff in P1.
  assert (Q : forall cfg, In (MonitorComponent cfg) (applied t) ->
                if mon_IncludeV3NetworkPolicy cfg then asked || tier = true else asked = true).
  { intros cfg Hin. pose proof (proj1 (forallb_forall _ _) P2 _ Hin) as X. simpl in X.
    destruct (mon_IncludeV3NetworkPolicy cfg); exact X. }
  split; [exact P1|]. split; [exact Q|].
  intros E. rewrite E in P3.
  assert (A : asked = false).
  { destruct (existsb (isFetchOf isManagementClusterConnection) t).
    - apply negb_true_iff. exact P3.
    - apply andb_prop in P3 as [P3 _]. apply andb_prop in P3 as [P3 _].
      apply negb_true_iff. exact P3. }
  split; [exact A|]. intros cfg Hin. specialize (Q cfg Hin). rewrite A in Q.
  destruct (mon_IncludeV3NetworkPolicy cfg); [|discriminate Q]. auto.
Qed.

(** X16.  The license in the Compliance reconciler.  A Compliance
    configuration is rendered with [HasNoLicense] exactly when the license
    fetched does not have the compliance feature.  Without the feature the
    degraded status is never cleared; when the two components were applied
    and no error is returned, the degraded status ResourceValidationError
    is set and the result is empty, so the reconcile ends degraded and is
    not queued again. *)
Theorem X16_compliance_license (r : compliance.ReconcileCompliance) (request : Request)
    (c : Cluster) (license : LicenseKey) :
  let R := reconciled (compliance.Reconcile env r request) c in
  let active := ans_IsFeatureActive env license ComplianceFeature in
  ans_FetchLicenseKey env = Ok license ->
  (forall cfg, In (ComplianceComponent cfg) (applied (trace R)) ->
     cc_HasNoLicense cfg = negb active)
  /\ (active = false ->
      existsb isClearDegraded (trace R) = false
      /\ (err R = None -> length (applied (trace R)) = 2%nat ->
          result R = emptyResult
          /\ exists msg, In (EvSetDegraded (Typed ResourceValidationError) msg) (trace R))).
Proof.
  intros R active Hl.
  pose proof (compliance_pass2 env r request c) as P. unfold compliance_checks2 in P.
  destruct P as (_ & _ & _ & _ & _ & _ & P & _). fold R in P.
  rewrite Hl in P. fold active in P. unfold licenseShape in P.
  destruct (existsb (isFetchOf isLicenseKey) (trace R)).
  - apply andb_prop in P as [P1 P2]. split.
    + intros cfg Hin. pose proof (proj1 (forallb_forall _ _) P1 _ Hin) as X. simpl in X.
      apply Bool.eqb_prop in X. exact X.
    + intros A. rewrite A in P2. simpl in P2. apply andb_prop in P2 as [P2 P3].
      apply negb_true_iff in P2. split; [exact P2|].
      intros He Hlen. rewrite He, Hlen in P3. simpl in P3.
      apply andb_prop in P3 as [P3 P4]. split; [apply Result_eqb_eq; exact P4|].
      apply existsb_exists in P3 as [[] [Hi Hp]]; try discriminate.
      destruct reason as [[]|]; try discriminate. eauto.
  - apply andb_prop in P as [P1 P2]. apply isEmpty_eq in P1. apply negb_true_iff in P2.
    rewrite P1. split; [intros cfg []|]. intros _. split; [exact P2|]. discriminate.
Qed.

(** X17.  What the Compliance reconciler renders and reads.  It never
    calls [client.Create] and never applies a passthrough component.  A
    Compliance configuration it applies never has both a ManagementCluster
    and a ManagementClusterConnection; it has a key pair for the compliance
    server exactly when there is no ManagementClusterConnection; its
    trusted bundle has two entries, the manager's internal certificate
    (nil without a ManagementCluster) and the Elasticsearch gateway
    certificate, which is never nil.  The Elasticsearch secrets asked for
    are those of the benchmarker, the controller, the reporter and the
    snapshotter, and that of the server only when there is no
    ManagementClusterConnection; with a ManagementClusterConnection no key
    pair is asked for. *)
Theorem X17_compliance_configuration (r : compliance.ReconcileCompliance) (request : Request)
    (c : Cluster) :
  let t := trace (reconciled (compliance.Reconcile env r request) c) in
  created t = [] /\ passthroughs (applied t) = []
  /\ (forall cfg, In (ComplianceComponent cfg) (applied t) ->
        (cc_ManagementCluster cfg = None \/ cc_ManagementClusterConnection cfg = None)
        /\ (cc_ComplianceServerCertSecret cfg = None
            <-> cc_ManagementClusterConnection cfg <> None)
        /\ exists internal gateway,
             tb_Certificates (cc_TrustedBundle cfg) = [internal; Some gateway]
             /\ (cc_ManagementCluster cfg = None -> internal = None))
  /\ (forall connection, ans_GetManagementClusterConnection env = Ok connection ->
        esSecretsAsked t = None
        \/ esSecretsAsked t
           = Some ([ElasticsearchComplianceBenchmarkerUserSecret;
                    ElasticsearchComplianceControllerUserSecret;
                    ElasticsearchComplianceReporterUserSecret;
                    ElasticsearchComplianceSnapshotterUserSecret]
                   ++ match connection with
                      | Some _ => []
                      | None => [ElasticsearchComplianceServerUserSecret]
                      end))
  /\ (forall m, ans_GetManagementClusterConnection env = Ok (Some m) ->
        existsb (isFetchOf isKeyPair) t = false).
Proof.
  intros t.
  pose proof (compliance_pass2 env r request c) as P. unfold compliance_checks2 in P.
  destruct P as (_ & _ & _ & _ & _ & P1 & _ & P2 & P3 & _). fold t in P1, P2, P3.
  apply andb_prop in P1 as [P1a P1b]. apply isEmpty_eq in P1a. apply isEmpty_eq in P1b.
  split; [exact P1a|]. split; [exact P1b|]. split; [|split].
  - intros cfg Hin. pose proof (proj1 (forallb_forall _ _) P2 _ Hin) as X.
    unfold complianceConfigShape in X.
    apply andb_prop in X as [X X3]. apply andb_prop in X as [X1 X2].
    split; [|split].
    + destruct (cc_ManagementCluster cfg); [|auto].
      destruct (cc_ManagementClusterConnection cfg); [discriminate X1 | auto].
    + destruct (cc_ComplianceServerCertSecret cfg), (cc_ManagementClusterConnection cfg);
        try discriminate X2; split; congruence.
    + destruct (tb_Certificates (cc_TrustedBundle cfg)) as [|i1 [|[g|] [|? ?]]];
        try discriminate X3.
      exists i1, g. split; [reflexivity|]. intros E. rewrite E in X3.
      destruct i1; [discriminate X3 | reflexivity].
  - intros connection E. unfold managedShape in P3. rewrite E in P3.
    destruct (existsb (isFetchOf isManagementClusterConnection) t).
    + destruct connection; [destruct P3 as [P3 _]|]; exact P3.
    + left. tauto.
  - intros m E. unfold managedShape in P3. rewrite E in P3.
    destruct (existsb (isFetchOf isManagementClusterConnection) t); tauto.
Qed.

(** X18.  The certificate management component, in all three controllers.
    The second component a reconcile applies is the certificate management
    of the first, and it is built from the very key pairs and trusted
    bundle of the configuration rendered: for the API server the TLS key
    pair and the tunnel CA, with no trusted bundle; for the Monitor the
    server and the client TLS key pairs and the trusted bundle; for
    Compliance the key pair of the compliance server and the trusted
    bundle. *)
Theorem X18_certificate_management (ctl : Controller) (request : Request) (c : Cluster) :
  match applied (trace (reconciled (Reconcile env ctl request) c)) with
  | APIServerComponent cfg :: CertificateManagement cmc :: _ =>
      cmc_KeyPairOptions cmc
      = [NewKeyPairOption (Some (asc_TLSKeyPair cfg)) true true;
         NewKeyPairOption (asc_TunnelCASecret cfg) true true]
      /\ cmc_TrustedBundle cmc = None
  | MonitorComponent cfg :: CertificateManagement cmc :: _ =>
      cmc_KeyPairOptions cmc
      = [NewKeyPairOption (Some (mon_ServerTLSSecret cfg)) true true;
         NewKeyPairOption (Some (mon_ClientTLSSecret cfg)) true true]
      /\ cmc_TrustedBundle cmc = Some (mon_TrustedCertBundle cfg)
  | ComplianceComponent cfg :: CertificateManagement cmc :: _ =>
      cmc_KeyPairOptions cmc
      = [NewKeyPairOption (cc_ComplianceServerCertSecret cfg) true true]
      /\ cmc_TrustedBundle cmc = Some (cc_TrustedBundle cfg)
  | [_] | [] => True
  | _ => False
  end.
Proof.
  destruct (Reconcile_pass2 env ctl request c) as (_ & _ & _ & _ & P & _). exact P.
Qed.
End Extras.

(** X9 at work: the APIServer reconcile that finds both a ManagementCluster
    and a ManagementClusterConnection returns an error whose text ends the
    message of its degraded status. *)
Lemma X9_witness :
  hasSuffix (Error bothNotSupported) (degradedMessage "" bothNotSupported).
Proof.
  pose (env := demoEnv TigeraSecureEnterprise (Some demoManagementCluster)
                 (Some demoManagementClusterConnection) true).
  assert (Herr : err (demoRun env (APIServerController demoAPIServer) someRequest
                        (demoCluster 2 false ∅)) = Some bothNotSupported)
    by (vm_compute; reflexivity).
  assert (Hin : In (EvSetDegraded (Typed ResourceValidationError)
                      (degradedMessage "" bothNotSupported))
                  (trace (demoRun env (APIServerController demoAPIServer) someRequest
                            (demoCluster 2 false ∅))))
    by find_in.
  exact (proj1 (@X9_error_reported demoNames env (APIServerController demoAPIServer)
                  someRequest (demoCluster 2 false ∅) bothNotSupported Herr) _ _ Hin).
Defined.

(** X10 at work: the installation has no variant yet; the APIServer
    reconcile ends degraded, with a nil error and no requeue. *)
Lemma X10_witness :
  Typed ResourceNotReady = Typed ResourceNotReady
  \/ (kindOf (APIServerController demoAPIServer) = KCompliance
      /\ Typed ResourceNotReady = Typed ResourceValidationError
      /\ applied (trace (demoRun (demoEnv VariantUnset None None true)
                           (APIServerController demoAPIServer) someRequest
                           (demoCluster 2 false ∅))) <> []).
Proof.
  pose (env := demoEnv VariantUnset None None true).
  assert (Hin : In (EvSetDegraded (Typed ResourceNotReady) "Waiting for Installation to be ready")
                  (trace (demoRun env (APIServerController demoAPIServer) someRequest
                            (demoCluster 2 false ∅))))
    by find_in.
  assert (Herr : err (demoRun env (APIServerController demoAPIServer) someRequest
                        (demoCluster 2 false ∅)) = None)
    by (vm_compute; reflexivity).
  assert (Hres : result (demoRun env (APIServerController demoAPIServer) someRequest
                           (demoCluster 2 false ∅)) = emptyResult)
    by (vm_compute; reflexivity).
  exact (@X10_degraded_without_retry demoNames env (APIServerController demoAPIServer)
           someRequest (demoCluster 2 false ∅) _ _ Hin Herr Hres).
Defined.

(** X12 at work: the upgrade with a configuration the user has changed;
    the Monitor reconcile creates its copy, and nothing else. *)
Lemma X12_witness :
  let c := demoCluster 2 false
             {[ ("tigera-prometheus", "alertmanager-calico-node-alertmanager")
                := s_Data customAlertmanagerSecret ]} in
  let s := CopyToNamespace "tigera-operator" customAlertmanagerSecret in
  let t := trace (demoRun (demoEnv TigeraSecureEnterprise None None true)
                    (MonitorController (demoMonitor true)) someRequest c) in
  kindOf (MonitorController (demoMonitor true)) = KMonitor
  /\ created t = [s]
  /\ s_Name s = "alertmanager-calico-node-alertmanager"
  /\ s_Namespace s = "tigera-operator"
  /\ @lookupSecret "alertmanager-calico-node-alertmanager" "tigera-operator" c = None.
Proof.
  intros c s t.
  assert (Hin : In (EvCreate s) t) by find_in.
  exact (@X12_client_create demoNames (demoEnv TigeraSecureEnterprise None None true)
           (MonitorController (demoMonitor true)) someRequest c s Hin).
Defined.

(** X13 at work: the Calico variant; two components are applied. *)
Lemma X13_witness :
  map kindOfComponent
    (applied (trace (demoRun (demoEnv Calico None None true)
                       (APIServerController demoAPIServer) someRequest (demoCluster 2 false ∅))))
  = [KindAPIServer; KindCertificateManagement].
Proof.
  assert (Hin : In EvClearDegraded
                  (trace (reconciled (@apiserver.Reconcile demoNames (demoEnv Calico None None true)
                                        demoAPIServer someRequest) (demoCluster 2 false ∅))))
    by (apply In_isClearDegraded; vm_compute; reflexivity).
  assert (Hne : Calico <> TigeraSecureEnterprise) by discriminate.
  exact (proj2 (proj1 (@X13_apiserver_variant demoNames (demoEnv Calico None None true)
                         demoAPIServer someRequest (demoCluster 2 false ∅) Calico
                         {| Variant := Calico; inst_id := "default" |} eq_refl) Hne) Hin).
Defined.

(** X16 at work: a license without the compliance feature; the components
    are applied, the reconcile ends degraded and is not queued again. *)
Lemma X16_witness :
  let R := reconciled
             (@compliance.Reconcile demoNames
                (withFeatureActive (fun _ _ => false)
                   (demoEnv TigeraSecureEnterprise None None true))
                (demoCompliance true) someRequest) (demoCluster 2 false ∅) in
  existsb isClearDegraded (trace R) = false
  /\ result R = emptyResult
  /\ exists msg, In (EvSetDegraded (Typed ResourceValidationError) msg) (trace R).
Proof.
  intros R.
  assert (Herr : err R = None) by (vm_compute; reflexivity).
  assert (Hlen : length (applied (trace R)) = 2%nat) by (vm_compute; reflexivity).
  pose proof (proj2 (@X16_compliance_license demoNames
                       (withFeatureActive (fun _ _ => false)
                          (demoEnv TigeraSecureEnterprise None None true))
                       (demoCompliance true) someRequest (demoCluster 2 false ∅)
                       {| lic_id := "default" |} eq_refl) eq_refl) as [A B].
  split; [exact A|]. exact (B Herr Hlen).
Defined.
